(** * Payment reconciliation flow of the Latodabags server

    A shallow embedding of the Paystack integration of the Express server:

    - [config/paystack.js]                 the transaction limits,
    - [services/paystackService.js]        the gateway client and the
                                           signature verifier,
    - [routes/payments.js]                 the validation middleware, the raw
                                           body capture and the route chains,
    - [controllers/paymentController.js]   the three request handlers,
    - [middleware/auth.js], [middleware/rateLimiter.js]
                                           the guards of the private endpoints,
    - [server.js]                          the body parsers mounted before
                                           the payments router.

    JavaScript values are an inductive type, exceptions are an explicit
    result, and the effects of the handlers (log lines, outbound calls to the
    provider) are threaded through a state-and-exception monad over a
    [World].  Numbers are IEEE doubles in the source; here a number is the
    rational it is worth, [Math.round] is rounding half up, and the product
    the amount in kobo is rounded from is rounded to the nearest double as the
    multiplication of the source does ([double]).  Strings are sequences of
    8-bit code units; the body of a request is a sequence of bytes. *)

From Stdlib Require Import String Ascii List ZArith QArith Qround Qpower Bool
  Lia.
From Stdlib Require Import DecimalString.
From Stdlib Require Import Lqa.
Import ListNotations.

Local Open Scope string_scope.
Local Open Scope Z_scope.
Local Open Scope list_scope.

Set Implicit Arguments.
Set Warnings "-register-all".

(* ================================================================= *)
(** ** JavaScript values *)

Inductive jsval : Type :=
| JSUndefined
| JSNull
| JSBool (b : bool)
| JSNumber (q : Q)
| JSString (s : string)
| JSArray (items : list jsval)
| JSObject (fields : list (string * jsval)).

(** [!v] is [negb (truthy v)]. *)
Definition truthy (v : jsval) : bool :=
  match v with
  | JSUndefined | JSNull => false
  | JSBool b => b
  | JSNumber q => negb (Qeq_bool q 0)
  | JSString s => negb (String.eqb s "")
  | JSArray _ | JSObject _ => true
  end.

(** [a || b] *)
Definition js_or (a b : jsval) : jsval := if truthy a then a else b.

(** [typeof v === 'string'] *)
Definition is_string (v : jsval) : bool :=
  match v with JSString _ => true | _ => false end.

(** [v === 'lit'] for a string literal. *)
Definition strict_eq_str (v : jsval) (lit : string) : bool :=
  match v with JSString s => String.eqb s lit | _ => false end.

Fixpoint assoc {A : Type} (k : string) (l : list (string * A)) : option A :=
  match l with
  | [] => None
  | (k', a) :: l' => if String.eqb k' k then Some a else assoc k l'
  end.

(** What a call can do: return a value or throw an [Error] with a message. *)
Inductive outcome (A : Type) : Type :=
| Returned (a : A)
| Thrown (message : string).
Arguments Thrown {A} message.

(** [v.k]: reading a property of [undefined] or [null] throws a TypeError;
    a missing property reads as [undefined]. *)
Definition get_prop (v : jsval) (k : string) : outcome jsval :=
  match v with
  | JSUndefined | JSNull =>
      Thrown ("Cannot read properties of undefined (reading '" ++ k ++ "')")%string
  | JSObject fields =>
      Returned (match assoc k fields with Some x => x | None => JSUndefined end)
  | _ => Returned JSUndefined
  end.

(** A string of the provider that may be [null]. *)
Definition nullable (o : option string) : jsval :=
  match o with Some s => JSString s | None => JSNull end.

(** [String.prototype.includes] *)
Fixpoint includes (needle hay : string) : bool :=
  if prefix needle hay then true
  else match hay with
       | EmptyString => false
       | String _ hay' => includes needle hay'
       end.

(** [Math.round]: the nearest integer, ties towards +infinity. *)
Definition Math_round (q : Q) : Z := Qfloor (q + (1 # 2)).

(** The binary exponent of the positive rational [a / d]: the [l] with
    [2^l <= a / d < 2^(l+1)]. *)
Definition binary_exponent (a d : Z) : Z :=
  let l0 := Z.log2 a - Z.log2 d in
  if a * 2 ^ Z.max 0 (- l0) <? d * 2 ^ Z.max 0 l0 then l0 - 1 else l0.

(** The integer nearest to [num / den], ties to the even one. *)
Definition nearest_even (num den : Z) : Z :=
  let m0 := num / den in
  let r := num mod den in
  if 2 * r <? den then m0
  else if den <? 2 * r then m0 + 1
  else if Z.even m0 then m0 else m0 + 1.

(** The double nearest to [q], ties to the even mantissa: what an arithmetic
    operation of the source leaves when its exact result is [q], and what
    [JSON.parse] makes of a decimal fraction.  A double is [m * 2^e] with
    [m <= 2^53] and [e >= -1074].  Beyond the largest double the source has
    [Infinity], which every comparison in this code treats as a number above
    its bounds; the model keeps the number. *)
Definition double (q : Q) : Q :=
  let n := Qnum q in
  let d := Zpos (Qden q) in
  if n =? 0 then 0%Q
  else
    let e := Z.max (binary_exponent (Z.abs n) d - 52) (-1074) in
    let m := nearest_even (Z.abs n * 2 ^ Z.max 0 (- e)) (d * 2 ^ Z.max 0 e) in
    (inject_Z (Z.sgn n * m) * 2 ^ e)%Q.

(** A [Buffer]: the bytes of a chunk of a request body. *)
Definition Buffer : Type := list Byte.byte.

(* ================================================================= *)
(** ** The world the handlers act on *)

Inductive PaymentStatus : Type :=
| pending | processing | completed | failed | cancelled.

Definition terminal (s : PaymentStatus) : bool :=
  match s with
  | completed | failed | cancelled => true
  | pending | processing => false
  end.

(** Modelled from the spec: [server/models/order.js] is not among the
    sources; the payment fields of an Order are those of the data model
    (section 3 of the specification). *)
Record Order : Type := mkOrder {
  order_id : string;
  total : Z;
  paymentStatus : PaymentStatus;
  paymentReference : option string;
  paidAt : option string;
  authorizationCode : option string;
  failureReason : option string
}.

Inductive LogLevel : Type := info | warn | error.

Record LogEntry : Type := mkLog {
  level : LogLevel;
  log_message : string;
  meta : list (string * jsval)
}.

(** The body of [POST /transaction/initialize]. *)
Record InitializePayload : Type := mkInitializePayload {
  email : string;
  amount : Z;
  metadata : jsval;
  callback_url : string
}.

(** The requests [axios] sends to the provider. *)
Inductive OutboundCall : Type :=
| AxiosPost (url : string) (payload : InitializePayload)
| AxiosGet (url : string).

Record World : Type := mkWorld {
  orders : list Order;
  logs : list LogEntry;
  outbound : list OutboundCall
}.

(* ================================================================= *)
(** ** State and exception monad *)

Definition M (A : Type) : Type := World -> World * outcome A.

Definition ret {A : Type} (a : A) : M A := fun w => (w, Returned a).

Definition throw {A : Type} (message : string) : M A :=
  fun w => (w, Thrown message).

Definition bind {A B : Type} (m : M A) (k : A -> M B) : M B :=
  fun w =>
    match m w with
    | (w', Returned a) => k a w'
    | (w', Thrown e) => (w', Thrown e)
    end.

(** [try { m } catch (error) { h error.message }] *)
Definition try_catch {A : Type} (m : M A) (h : string -> M A) : M A :=
  fun w =>
    match m w with
    | (w', Thrown e) => h e w'
    | r => r
    end.

Definition lift {A : Type} (o : outcome A) : M A := fun w => (w, o).

Declare Scope js_scope.
Delimit Scope js_scope with js.
Notation "x <- m ;; k" := (bind m (fun x => k))
  (at level 61, m at next level, right associativity) : js_scope.
Notation "m ;;; k" := (bind m (fun _ => k))
  (at level 61, right associativity) : js_scope.
Local Open Scope js_scope.

(** [logger.info], [logger.warn], [logger.error] *)
Definition logger (l : LogLevel) (msg : string) (m : list (string * jsval))
  : M unit :=
  fun w => (mkWorld (orders w) (logs w ++ [mkLog l msg m]) (outbound w),
            Returned tt).

Definition send (c : OutboundCall) : M unit :=
  fun w => (mkWorld (orders w) (logs w) (outbound w ++ [c]), Returned tt).

(** [error.message.substring(0, 10)] and the like. *)
Definition substring10 (s : string) : string := substring 0 10 s.

(* ================================================================= *)
(** ** HTTP responses and what the platform provides *)

Record Response : Type := mkResponse {
  status : Z;
  json : jsval
}.

(** [res.status(code).json(body)] *)
Definition respond (code : Z) (body : list (string * jsval)) : Response :=
  mkResponse code (JSObject body).

(** Provider's reply to [POST /transaction/initialize] ([response.data]). *)
Record InitializeData : Type := mkInitializeData {
  authorization_url : string;
  access_code : string;
  init_reference : string
}.

(** Provider's transaction object ([response.data.data] of a verify call). *)
Record Transaction : Type := mkTransaction {
  tx_status : string;
  tx_amount : Z;
  tx_customer_email : string;
  tx_customer_code : string;
  tx_metadata : jsval;
  tx_paid_at : option string;
  tx_authorization_code : option string
}.

(** [response.data]: the provider's envelope [{status, message, data}]. *)
Record Envelope (A : Type) : Type := mkEnvelope {
  api_status : bool;
  api_message : option string;
  api_data : option A
}.

(** Node, Express and the provider, as far as the payment code uses them. *)
Record Runtime : Type := mkRuntime {
  (** [config.paystack.secretKey] *)
  secretKey : string;
  (** [crypto.createHmac('sha512', key).update(data).digest('hex')] *)
  hmac_sha512_hex : string -> string -> string;
  JSON_parse : string -> outcome jsval;
  (** [JSON.stringify]: a string, or [undefined] *)
  JSON_stringify : jsval -> jsval;
  (** [chunk.toString()] of a [Buffer]: its bytes decoded as UTF-8 *)
  Buffer_toString : Buffer -> string;
  (** the query string parser of [express.urlencoded({ extended: true })],
      or the error it ends with *)
  urlencoded_parse : string -> outcome jsval;
  encodeURIComponent : string -> string;
  (** [process.env.CLIENT_URL] *)
  CLIENT_URL : string;
  (** [process.env.NODE_ENV === 'development'] *)
  development : bool;
  (** [new Date().toISOString()] *)
  now_iso : string;
  (** the provider behind [axios.post] and [axios.get], as it answers while
      one request is handled (a handler calls it once); a timeout or a non-2xx
      answer is a thrown error.  Requests handled one after the other may
      each meet another answer: see [run_each]. *)
  axios_post : string -> InitializePayload -> outcome (Envelope InitializeData);
  axios_get : string -> outcome (Envelope Transaction);
  (** the default text of Joi for an error code the schema gives no message *)
  joi_default_message : string -> string
}.

(* ================================================================= *)
(** ** config/paystack.js *)

Module paystackConfig.

Definition baseUrl : string := "https://api.paystack.co".

(** Maximum amount in kobo (500,000 naira). *)
Definition maxAmount : Z := 50000000.

(** Minimum amount in kobo (100 naira). *)
Definition minAmount : Z := 10000.

End paystackConfig.

(* ================================================================= *)
(** ** services/paystackService.js *)

Module PaystackService.

Record InitializeResult : Type := mkInitializeResult {
  authorizationUrl : string;
  accessCode : string;
  reference : string
}.

Record Verification : Type := mkVerification {
  v_status : string;
  v_amount : Z;
  v_email : string;
  v_customerId : string;
  v_metadata : jsval;
  v_paidAt : option string;
  v_authorizationCode : option string
}.

Record WebhookEvent : Type := mkWebhookEvent {
  ev_event : jsval;
  ev_data : jsval;
  ev_reference : jsval;
  ev_status : jsval;
  ev_amount : jsval;
  ev_customer : jsval;
  ev_metadata : jsval
}.

(** [response.data.message || fallback] *)
Definition message_or (m : option string) (fallback : string) : string :=
  match m with
  | Some s => if String.eqb s "" then fallback else s
  | None => fallback
  end.

(** [response.data.data] when a property of it is read. *)
Definition data_of {A : Type} (e : Envelope A) (prop : string) : outcome A :=
  match api_data e with
  | Some d => Returned d
  | None =>
      Thrown ("Cannot read properties of undefined (reading '"
                ++ prop ++ "')")%string
  end.

Section Service.

Variable rt : Runtime.

Definition initializeTransaction (email : string) (amount : Z)
    (metadata : jsval) : M InitializeResult :=
  try_catch
    (if amount <? paystackConfig.minAmount then
       throw "Amount must be at least ₦100"
     else if amount >? paystackConfig.maxAmount then
       throw "Amount cannot exceed ₦500000"
     else
       let url := (paystackConfig.baseUrl ++ "/transaction/initialize")%string in
       let payload :=
         mkInitializePayload email amount metadata
           (CLIENT_URL rt ++ "/payment/callback")%string in
       send (AxiosPost url payload) ;;;
       response <- lift (axios_post rt url payload) ;;
       if negb (api_status response) then
         throw (message_or (api_message response)
                  "Failed to initialize transaction")
       else
         d <- lift (data_of response "reference") ;;
         logger info "Paystack transaction initialized"
           [("reference", JSString (init_reference d));
            ("amount", JSNumber (inject_Z amount));
            ("email", JSString email)] ;;;
         ret (mkInitializeResult (authorization_url d) (access_code d)
                (init_reference d)))
    (fun message =>
       logger error "Paystack initialization error"
         [("error", JSString message);
          ("email", JSString email);
          ("amount", JSNumber (inject_Z amount))] ;;;
       throw message).

(** [!reference || typeof reference !== 'string' || reference.length < 5] *)
Definition invalid_reference (reference : jsval) : bool :=
  negb (truthy reference) || negb (is_string reference) ||
  match reference with
  | JSString s => Z.of_nat (String.length s) <? 5
  | _ => false
  end.

Definition verify_url (reference : jsval) : string :=
  match reference with
  | JSString s =>
      (paystackConfig.baseUrl ++ "/transaction/verify/"
         ++ encodeURIComponent rt s)%string
  | _ => (paystackConfig.baseUrl ++ "/transaction/verify/")%string
  end.

Definition verifyTransaction (reference : jsval) : M Verification :=
  try_catch
    (if invalid_reference reference then
       throw "Invalid transaction reference"
     else
       let url := verify_url reference in
       send (AxiosGet url) ;;;
       response <- lift (axios_get rt url) ;;
       if negb (api_status response) then
         throw (message_or (api_message response)
                  "Transaction verification failed")
       else
         transaction <- lift (data_of response "status") ;;
         logger info "Paystack transaction verified"
           [("reference", reference);
            ("status", JSString (tx_status transaction));
            ("amount", JSNumber (inject_Z (tx_amount transaction)))] ;;;
         ret (mkVerification
                (tx_status transaction)
                (tx_amount transaction)
                (tx_customer_email transaction)
                (tx_customer_code transaction)
                (js_or (tx_metadata transaction) (JSObject []))
                (tx_paid_at transaction)
                (tx_authorization_code transaction)))
    (fun message =>
       logger error "Paystack verification error"
         [("error", JSString message); ("reference", reference)] ;;;
       throw message).

(** [crypto.createHmac('sha512', this.secretKey).update(body).digest('hex')]:
    [update] accepts a string and throws on the other values. *)
Definition createHmac_update_digest (body : jsval) : outcome string :=
  match body with
  | JSString data => Returned (hmac_sha512_hex rt (secretKey rt) data)
  | _ =>
      Thrown "The data argument must be of type string or an instance of Buffer, TypedArray, or DataView."
  end.

(** [signature.substring(0, 10)] *)
Definition js_substring10 (v : jsval) : outcome string :=
  match v with
  | JSString s => Returned (substring10 s)
  | JSUndefined | JSNull =>
      Thrown "Cannot read properties of undefined (reading 'substring')"
  | _ => Thrown "signature.substring is not a function"
  end.

Definition verifyWebhookSignature (signature body : jsval) : M bool :=
  try_catch
    (if negb (truthy signature) || negb (truthy body) then
       logger warn "Missing signature or body in webhook verification" [] ;;;
       ret false
     else
       hash <- lift (createHmac_update_digest body) ;;
       let isValid := strict_eq_str signature hash in
       (if negb isValid then
          expected <- lift (js_substring10 signature) ;;
          logger warn "Invalid webhook signature"
            [("expectedSignature", JSString expected);
             ("calculatedSignature", JSString (substring10 hash))]
        else ret tt) ;;;
       ret isValid)
    (fun message =>
       logger error "Webhook signature verification error"
         [("error", JSString message)] ;;;
       ret false).

Definition parseWebhookEvent (event : jsval) : M WebhookEvent :=
  invalid <- (if negb (truthy event) then ret true
              else e <- lift (get_prop event "event") ;;
                   ret (negb (truthy e))) ;;
  if (invalid : bool) then throw "Invalid webhook event"
  else
    e <- lift (get_prop event "event") ;;
    data <- lift (get_prop event "data") ;;
    reference <- lift (get_prop data "reference") ;;
    status <- lift (get_prop data "status") ;;
    amount <- lift (get_prop data "amount") ;;
    customer <- lift (get_prop data "customer") ;;
    metadata <- lift (get_prop data "metadata") ;;
    ret (mkWebhookEvent e data reference status amount customer
           (js_or metadata (JSObject []))).

End Service.

End PaystackService.

(* ================================================================= *)
(** ** Requests *)

(** [POST /payment/initialize]: [req.body.orderId], [req.body.amount] (a
    number, or absent) and [req.user.id] as set by the [isAuth] middleware. *)
Record InitializeRequest : Type := mkInitializeRequest {
  orderId : jsval;
  req_amount : option Q;
  init_userId : string
}.

(** [POST /payment/verify/:reference]: [req.params.reference], [req.user.id]. *)
Record VerifyRequest : Type := mkVerifyRequest {
  param_reference : jsval;
  verify_userId : string
}.

(** [POST /payment/webhook]: the headers (names in lower case); the body,
    in the chunks the socket delivers it in; whether the request stream has
    already emitted ['end'], its chunks read by a middleware mounted before
    the router; [req.rawBody]; and [req.body] as that middleware left it. *)
Record WebhookRequest : Type := mkWebhookRequest {
  headers : list (string * string);
  chunks : list Buffer;
  ended : bool;
  rawBody : jsval;
  body : jsval
}.

(** [req.headers[name]] *)
Definition header (req : WebhookRequest) (name : string) : jsval :=
  match assoc name (headers req) with
  | Some s => JSString s
  | None => JSUndefined
  end.

(* ================================================================= *)
(** ** controllers/paymentController.js *)

Module PaymentController.

Import PaystackService.

Section Controller.

Variable rt : Runtime.

(** [process.env.NODE_ENV === 'development' ? error.message : undefined] *)
Definition dev_error (message : string) : jsval :=
  if development rt then JSString message else JSUndefined.

(** [amount || 10000]: a number is falsy when it is 0 as a double. *)
Definition orderTotal_of (amount : option Q) : Q :=
  match amount with
  | Some q => if Qeq_bool (double q) 0 then 10000%Q else q
  | None => 10000%Q
  end.

(** [Math.round(orderTotal * 100)]: the product of two doubles, rounded to
    a double, then to an integer.  [orderTotal] is a double; a rational that
    is none stands for the double [JSON.parse] reads it as. *)
Definition amountInKobo_of (orderTotal : Q) : Z :=
  Math_round (double (double orderTotal * 100)).

Definition initializePayment (req : InitializeRequest) : M Response :=
  try_catch
    (let orderId := orderId req in
     let userId := init_userId req in
     if negb (truthy orderId) || negb (is_string orderId) then
       ret (respond 400
              [("success", JSBool false);
               ("message", JSString "Order ID is required and must be a string")])
     else
       let orderTotal := orderTotal_of (req_amount req) in
       let amountInKobo := amountInKobo_of orderTotal in
       if amountInKobo <? 10000 then
         ret (respond 400
                [("success", JSBool false);
                 ("message", JSString "Order amount must be at least ₦100")])
       else if amountInKobo >? 50000000 then
         ret (respond 400
                [("success", JSBool false);
                 ("message", JSString "Order amount cannot exceed ₦500,000")])
       else
         let metadata :=
           JSObject [("orderId", orderId);
                     ("userId", JSString userId);
                     ("orderDate", JSString (now_iso rt));
                     ("customSpecs", JSObject [])] in
         let userEmail := "customer@test.com" in
         paystackResponse <-
           initializeTransaction rt userEmail amountInKobo metadata ;;
         logger info "Payment initialized successfully"
           [("orderId", orderId);
            ("reference", JSString (reference paystackResponse));
            ("amount", JSNumber orderTotal)] ;;;
         ret (respond 200
                [("success", JSBool true);
                 ("message", JSString "Payment initialization successful");
                 ("data", JSObject
                    [("authorizationUrl",
                      JSString (authorizationUrl paystackResponse));
                     ("accessCode", JSString (accessCode paystackResponse));
                     ("reference", JSString (reference paystackResponse));
                     ("amount", JSNumber orderTotal);
                     ("amountInKobo", JSNumber (inject_Z amountInKobo))])]))
    (fun message =>
       logger error "Payment initialization error"
         [("error", JSString message); ("orderId", orderId req)] ;;;
       ret (respond 500
              [("success", JSBool false);
               ("message", JSString "Failed to initialize payment");
               ("error", dev_error message)])).

Definition verifyPayment (req : VerifyRequest) : M Response :=
  try_catch
    (let reference := param_reference req in
     let userId := verify_userId req in
     if negb (truthy reference) then
       ret (respond 400
              [("success", JSBool false);
               ("message", JSString "Transaction reference is required")])
     else
       verification <- verifyTransaction rt reference ;;
       if negb (String.eqb (v_status verification) "success") then
         ret (respond 400
                [("success", JSBool false);
                 ("message", JSString "Payment verification failed");
                 ("status", JSString (v_status verification))])
       else
         logger info "Payment verified successfully"
           [("reference", reference); ("userId", JSString userId)] ;;;
         ret (respond 200
                [("success", JSBool true);
                 ("message", JSString "Payment verified successfully");
                 ("data", JSObject
                    [("status", JSString (v_status verification));
                     ("amount",
                      JSNumber (inject_Z (v_amount verification) / 100));
                     ("depositPaid", JSBool true);
                     ("paidAt", nullable (v_paidAt verification))])]))
    (fun message =>
       logger error "Payment verification error"
         [("error", JSString message);
          ("reference", param_reference req)] ;;;
       ret (respond 500
              [("success", JSBool false);
               ("message", JSString "Payment verification failed");
               ("error", dev_error message)])).

(** The Order update of this handler is commented out in the source:
    it logs the charge and returns. *)
Definition handleChargeSuccess (event : WebhookEvent) : M unit :=
  try_catch
    (let reference := ev_reference event in
     let data := ev_data event in
     amount <- lift (get_prop data "amount") ;;
     logger info "Processing successful charge"
       [("reference", reference); ("amount", amount)])
    (fun message =>
       logger error "Error handling charge success"
         [("error", JSString message);
          ("reference", ev_reference event)]).

Definition handleChargeFailed (event : WebhookEvent) : M unit :=
  try_catch
    (let reference := ev_reference event in
     logger warn "Processing failed charge" [("reference", reference)])
    (fun message =>
       logger error "Error handling charge failed"
         [("error", JSString message);
          ("reference", ev_reference event)]).

Definition handleTransferSuccess (event : WebhookEvent) : M unit :=
  try_catch
    (id <- lift (get_prop (ev_data event) "id") ;;
     logger info "Transfer successful" [("transferId", id)])
    (fun message =>
       logger error "Error handling transfer success"
         [("error", JSString message)]).

Definition handleTransferFailed (event : WebhookEvent) : M unit :=
  try_catch
    (id <- lift (get_prop (ev_data event) "id") ;;
     reason <- lift (get_prop (ev_data event) "reason") ;;
     logger warn "Transfer failed"
       [("transferId", id); ("reason", reason)])
    (fun message =>
       logger error "Error handling transfer failed"
         [("error", JSString message)]).

(** [switch (event.event)] *)
Definition dispatch (event : WebhookEvent) : M unit :=
  if strict_eq_str (ev_event event) "charge.success" then
    handleChargeSuccess event
  else if strict_eq_str (ev_event event) "charge.failed" then
    handleChargeFailed event
  else if strict_eq_str (ev_event event) "transfer.success" then
    handleTransferSuccess event
  else if strict_eq_str (ev_event event) "transfer.failed" then
    handleTransferFailed event
  else
    logger info "Unhandled webhook event" [("event", ev_event event)].

(** [req.rawBody || JSON.stringify(req.body)]: what the signature is
    checked against. *)
Definition signed_payload (req : WebhookRequest) : jsval :=
  js_or (rawBody req) (JSON_stringify rt (body req)).

Definition handleWebhook (req : WebhookRequest) : M Response :=
  try_catch
    (let signature := header req "x-paystack-signature" in
     if negb (truthy signature) then
       logger warn "Webhook received without signature" [] ;;;
       ret (respond 400
              [("success", JSBool false);
               ("message", JSString "Missing signature header")])
     else
       isValidSignature <-
         verifyWebhookSignature rt signature (signed_payload req) ;;
       if negb isValidSignature then
         shown <- lift (js_substring10 signature) ;;
         logger warn "Webhook signature verification failed"
           [("signature", JSString shown)] ;;;
         ret (respond 401
                [("success", JSBool false);
                 ("message", JSString "Invalid webhook signature")])
       else
         event <- parseWebhookEvent (body req) ;;
         logger info "Valid webhook received"
           [("event", ev_event event);
            ("reference", ev_reference event)] ;;;
         dispatch event ;;;
         ret (respond 200
                [("success", JSBool true);
                 ("message", JSString "Webhook processed")]))
    (fun message =>
       logger error "Webhook processing error"
         [("error", JSString message); ("body", body req)] ;;;
       ret (respond 200
              [("success", JSBool false);
               ("message", JSString "Webhook processing error")])).

End Controller.

End PaymentController.

(* ================================================================= *)
(** ** routes/payments.js *)

Module PaymentRoutes.

(** A middleware either answers the request or calls [next()]. *)
Inductive Step (R : Type) : Type :=
| Respond (r : Response)
| Next (req : R).
Arguments Respond {R} r.

(** [router.post(path, m, k)]: [k] runs when [m] calls [next()]. *)
Definition and_then {R : Type} (m : M (Step R)) (k : R -> M Response)
  : M Response :=
  bind m (fun s =>
    match s with
    | Respond r => ret r
    | Next req => k req
    end).

(** What becomes of a continuation that waits for an event of the request
    stream: the event arrives and it runs, or it never does. *)
Inductive Awaited (A : Type) : Type :=
| Arrived (a : A)
| Never.
Arguments Never {A}.

(** [router.post(path, m, k)] for a middleware [m] that answers or calls
    [next()] from a listener: nothing follows an event that never comes. *)
Definition when_arrived {R : Type} (m : M (Awaited (Step R)))
    (k : R -> M Response) : M (Awaited Response) :=
  bind m (fun a =>
    match a with
    | Never => ret Never
    | Arrived (Respond r) => ret (Arrived r)
    | Arrived (Next req) => bind (k req) (fun r => ret (Arrived r))
    end).

(** The error codes of
    [Joi.string().min(5).max(255).required()]. *)
Inductive JoiError : Type :=
| any_required | string_base | string_empty | string_min | string_max.

Definition joi_code (e : JoiError) : string :=
  match e with
  | any_required => "any.required"
  | string_base => "string.base"
  | string_empty => "string.empty"
  | string_min => "string.min"
  | string_max => "string.max"
  end.

(** [schema.validate(req.params)] for the [reference] key. *)
Definition validate_reference (reference : jsval) : option JoiError :=
  match reference with
  | JSUndefined => Some any_required
  | JSString s =>
      if String.eqb s "" then Some string_empty
      else if Z.of_nat (String.length s) <? 5 then Some string_min
      else if Z.of_nat (String.length s) >? 255 then Some string_max
      else None
  | _ => Some string_base
  end.

Section Routes.

Variable rt : Runtime.

(** The [.messages({...})] of the schema, else the text of Joi. *)
Definition reference_message (e : JoiError) : string :=
  match e with
  | string_empty => "Transaction reference is required"
  | string_min => "Transaction reference format is invalid"
  | any_required => "Transaction reference is required"
  | _ => joi_default_message rt (joi_code e)
  end.

(** [mongoSanitize.sanitize(req.params)] drops keys that start with [$]
    or hold a dot; [reference] is kept as it is. *)
Definition validateVerifyPayment (req : VerifyRequest)
  : M (Step VerifyRequest) :=
  match validate_reference (param_reference req) with
  | Some e =>
      ret (Respond
             (respond 400
                [("success", JSBool false);
                 ("message", JSString "Validation failed");
                 ("errors",
                  JSArray
                    [JSObject
                       [("field", JSString "reference");
                        ("message", JSString (reference_message e))]])]))
  | None => ret (Next req)
  end.

(** [captureRawBody] sets [req.rawBody = ''] and registers two listeners.
    On a stream that has already ended neither is ever called: the request
    is not answered and [next()] is not called.  Otherwise
    [req.rawBody += chunk.toString()] for every chunk, and on ['end'] the
    body is parsed when the content type says JSON. *)
Definition captureRawBody (req : WebhookRequest)
  : M (Awaited (Step WebhookRequest)) :=
  if ended req then ret Never
  else
    let raw := fold_left
                 (fun acc chunk => (acc ++ Buffer_toString rt chunk)%string)
                 (chunks req) "" in
    let is_json :=
      match header req "content-type" with
      | JSString ct => includes "application/json" ct
      | _ => false
      end in
    if is_json then
      match JSON_parse rt raw with
      | Returned parsed =>
          ret (Arrived (Next (mkWebhookRequest (headers req) (chunks req) true
                                (JSString raw) parsed)))
      | Thrown message =>
          logger error "Invalid JSON in webhook"
            [("error", JSString message)] ;;;
          ret (Arrived
                 (Respond
                    (respond 400
                       [("success", JSBool false);
                        ("message", JSString "Invalid JSON payload")])))
      end
    else
      ret (Arrived (Next (mkWebhookRequest (headers req) (chunks req) true
                            (JSString raw) (body req)))).

Definition verifyWebhookSignature (req : WebhookRequest)
  : M (Step WebhookRequest) :=
  let signature := header req "x-paystack-signature" in
  if negb (truthy signature) then
    logger warn "Webhook received without X-Paystack-Signature header" [] ;;;
    ret (Respond
           (respond 401
              [("success", JSBool false);
               ("message", JSString "Missing signature header")]))
  else ret (Next req).

(** [router.post('/verify/:reference', ..., validateVerifyPayment,
    verifyPayment)], after [isAuth] and the rate limiter. *)
Definition post_verify (req : VerifyRequest) : M Response :=
  and_then (validateVerifyPayment req)
    (PaymentController.verifyPayment rt).

(** [router.post('/webhook', captureRawBody, verifyWebhookSignature,
    handleWebhook)] *)
Definition post_webhook (req : WebhookRequest) : M (Awaited Response) :=
  when_arrived (captureRawBody req)
    (fun req1 =>
       and_then (verifyWebhookSignature req1)
         (PaymentController.handleWebhook rt)).

End Routes.

End PaymentRoutes.

(* ================================================================= *)
(** ** server.js: the body parsers mounted before the payments router *)

Module Server.

(** [typeis.hasBody(req)]: the request has a [Transfer-Encoding] or a
    [Content-Length] header. *)
Definition has_body (req : WebhookRequest) : bool :=
  match assoc "transfer-encoding" (headers req),
        assoc "content-length" (headers req) with
  | None, None => false
  | _, _ => true
  end.

Definition lower (c : ascii) : ascii :=
  let n := nat_of_ascii c in
  if ((65 <=? n) && (n <=? 90))%nat then ascii_of_nat (n + 32) else c.

Fixpoint lowercase (s : string) : string :=
  match s with
  | EmptyString => ""
  | String c s' => String (lower c) (lowercase s')
  end.

(** The part of a header value before its first [;]. *)
Fixpoint before_semicolon (s : string) : string :=
  match s with
  | EmptyString => ""
  | String c s' => if Ascii.eqb c ";" then "" else String c (before_semicolon s')
  end.

Fixpoint drop_spaces (s : string) : string :=
  match s with
  | String c s' => if Ascii.eqb c " " then drop_spaces s' else s
  | EmptyString => ""
  end.

Fixpoint reverse (s : string) : string :=
  match s with
  | EmptyString => ""
  | String c s' => (reverse s' ++ String c "")%string
  end.

(** The media type of a [Content-Type], as [type-is] compares it: without
    parameters, without the spaces around it, in lower case. *)
Definition media_type (contentType : string) : string :=
  lowercase
    (reverse (drop_spaces (reverse (drop_spaces (before_semicolon contentType))))).

(** Whether a body parser for [mediaType] reads the request: one with a
    body, of that media type, whose stream no one has read yet. *)
Definition takes (mediaType : string) (req : WebhookRequest) : bool :=
  negb (ended req) && has_body req
  && match header req "content-type" with
     | JSString ct => String.eqb (media_type ct) mediaType
     | _ => false
     end.

Definition reads_json (req : WebhookRequest) : bool :=
  takes "application/json" req.

Definition reads_urlencoded (req : WebhookRequest) : bool :=
  takes "application/x-www-form-urlencoded" req.

(** ['10mb'] *)
Definition limit : Z := 10 * 1024 * 1024.

(** The first character of the text that is not white space. *)
Fixpoint firstchar (s : string) : option ascii :=
  match s with
  | EmptyString => None
  | String c s' =>
      let n := nat_of_ascii c in
      if ((n =? 32) || (n =? 9) || (n =? 10) || (n =? 13))%nat
      then firstchar s' else Some c
  end.

(** The strict mode of the JSON parser: the text starts an object or an
    array. *)
Definition strict_ok (text : string) : bool :=
  match firstchar text with
  | Some c => Ascii.eqb c "{" || Ascii.eqb c "["
  | None => false
  end.

(** A middleware of the application calls [next()], or [next(err)]: then
    the error handler of [server.js] answers. *)
Inductive Handed : Type :=
| HandedOn (req : WebhookRequest)
| Refused.

Section App.

Variable rt : Runtime.

(** A body parser on a request it takes: it reads the stream to its end,
    and hands the request on with [req.body] set to what [parse] makes of
    the text, an empty body being an empty object. *)
Definition read_body (parse : string -> outcome jsval) (req : WebhookRequest)
  : Handed :=
  let bytes := concat (chunks req) in
  if limit <? Z.of_nat (length bytes) then Refused
  else
    let text := Buffer_toString rt bytes in
    if String.eqb text "" then
      HandedOn (mkWebhookRequest (headers req) (chunks req) true
                  (rawBody req) (JSObject []))
    else
      match parse text with
      | Returned parsed =>
          HandedOn (mkWebhookRequest (headers req) (chunks req) true
                      (rawBody req) parsed)
      | Thrown _ => Refused
      end.

(** [app.use(express.json({ limit: '10mb' }))] and
    [app.use(express.urlencoded({ extended: true, limit: '10mb' }))], for a
    request in UTF-8 without [Content-Encoding] whose [Content-Type] has
    well-formed parameters, if any.  A parser reads the requests of its
    media type and hands the others on as they are. *)
Definition express_json (req : WebhookRequest) : Handed :=
  if reads_json req then
    read_body (fun text => if strict_ok text then JSON_parse rt text
                           else Thrown "Unexpected token in JSON")
      req
  else HandedOn req.

Definition express_urlencoded (req : WebhookRequest) : Handed :=
  if reads_urlencoded req then read_body (urlencoded_parse rt) req
  else HandedOn req.

Definition body_parsers (req : WebhookRequest) : Handed :=
  match express_json req with
  | HandedOn req1 => express_urlencoded req1
  | Refused => Refused
  end.

(** What becomes of a webhook post: the error handler answers it, or the
    route of the payments router gets it. *)
Inductive Served : Type :=
| ByErrorHandler
| ByRoute (answer : PaymentRoutes.Awaited Response).

(** [POST /api/v1/payment/webhook] from the body parsers on.  The
    middleware mounted between the parsers and the router (cookies, the two
    sanitizers, compression, the rate limiter) does not read the stream;
    this is a request the rate limiter lets through. *)
Definition webhook (req : WebhookRequest) : M Served :=
  match body_parsers req with
  | Refused => ret ByErrorHandler
  | HandedOn req1 =>
      bind (PaymentRoutes.post_webhook rt req1) (fun a => ret (ByRoute a))
  end.

End App.

End Server.

(* ================================================================= *)
(** ** Deliveries: verify calls and webhook posts, one after the other *)

(** A request as it reaches the payments router. *)
Inductive Delivery : Type :=
| VerifyCall (req : VerifyRequest)
| WebhookPost (req : WebhookRequest).

Definition deliver (rt : Runtime) (d : Delivery)
  : M (PaymentRoutes.Awaited Response) :=
  match d with
  | VerifyCall req =>
      bind (PaymentRoutes.post_verify rt req)
        (fun r => ret (PaymentRoutes.Arrived r))
  | WebhookPost req => PaymentRoutes.post_webhook rt req
  end.

Fixpoint run (rt : Runtime) (ds : list Delivery) (w : World)
  : World * list (outcome (PaymentRoutes.Awaited Response)) :=
  match ds with
  | [] => (w, [])
  | d :: ds' =>
      let (w1, r) := deliver rt d w in
      let (w2, rs) := run rt ds' w1 in
      (w2, r :: rs)
  end.

(** Deliveries one after the other, each handled while the platform and the
    provider are as its [Runtime] says: between two of them the provider may
    change its answer or stop answering. *)
Fixpoint run_each (ds : list (Runtime * Delivery)) (w : World)
  : World * list (outcome (PaymentRoutes.Awaited Response)) :=
  match ds with
  | [] => (w, [])
  | (rt, d) :: ds' =>
      let (w1, r) := deliver rt d w in
      let (w2, rs) := run_each ds' w1 in
      (w2, r :: rs)
  end.

(** [Order.findOne({ paymentReference: reference })] *)
Definition has_reference (reference : string) (o : Order) : bool :=
  match paymentReference o with
  | Some r => String.eqb r reference
  | None => false
  end.

Definition findOne (reference : string) (os : list Order) : option Order :=
  find (has_reference reference) os.

Definition status_of (reference : string) (w : World) : option PaymentStatus :=
  option_map paymentStatus (findOne reference (orders w)).

Definition is_completed (s : PaymentStatus) : bool :=
  match s with completed => true | _ => false end.

(** A step performed the transition into [completed] for [reference]. *)
Definition completes (reference : string) (w w' : World) : bool :=
  match status_of reference w, status_of reference w' with
  | Some s, Some s' => negb (is_completed s) && is_completed s'
  | _, _ => false
  end.

(** How many deliveries of a run performed that transition. *)
Fixpoint completions (rt : Runtime) (reference : string) (ds : list Delivery)
    (w : World) : nat :=
  match ds with
  | [] => O
  | d :: ds' =>
      let w1 := fst (deliver rt d w) in
      ((if completes reference w w1 then 1 else 0)
       + completions rt reference ds' w1)%nat
  end.

(** The bytes of the request body, as the client sent them. *)
Definition wire_bytes (req : WebhookRequest) : Buffer :=
  concat (chunks req).

(** The text of the body: its bytes decoded as one.  For a body in UTF-8
    the digest of this text is the digest of the bytes. *)
Definition wire_text (rt : Runtime) (req : WebhookRequest) : string :=
  Buffer_toString rt (wire_bytes req).

(** What [captureRawBody] collects: the text of every chunk, decoded on its
    own, one after the other. *)
Definition captured_text (rt : Runtime) (req : WebhookRequest) : string :=
  String.concat "" (map (Buffer_toString rt) (chunks req)).

(** No chunk ends within a character: the chunks decoded one by one give
    the text of the body. *)
Definition whole_characters (rt : Runtime) (req : WebhookRequest) : Prop :=
  captured_text rt req = wire_text rt req.

(** The body is JSON text: [JSON.parse] accepts it (the empty text is not
    JSON). *)
Definition well_formed_json (rt : Runtime) (raw : string) : Prop :=
  raw <> "" /\ exists parsed, JSON_parse rt raw = Returned parsed.

(** The signature header is the HMAC of the text of the body. *)
Definition signature_verifies (rt : Runtime) (req : WebhookRequest) : bool :=
  match header req "x-paystack-signature" with
  | JSString s =>
      negb (String.eqb s "")
      && String.eqb s (hmac_sha512_hex rt (secretKey rt) (wire_text rt req))
  | _ => false
  end.

(** The provider reports [reference] as paid. *)
Definition paid_at_provider (rt : Runtime) (reference : string)
    (tx : Transaction) : Prop :=
  (exists m,
     axios_get rt (PaystackService.verify_url rt (JSString reference))
     = Returned (mkEnvelope true m (Some tx)))
  /\ tx_status tx = "success".

(** A delivery that reports the payment of [reference] as successful: a
    verify call the provider answers with [success], or a signed
    [charge.success] webhook. *)
Definition success_delivery (rt : Runtime) (reference : string)
    (d : Delivery) : Prop :=
  match d with
  | VerifyCall req =>
      param_reference req = JSString reference
      /\ exists tx, paid_at_provider rt reference tx
  | WebhookPost req =>
      signature_verifies rt req = true
      /\ (exists ct, header req "content-type" = JSString ct
                     /\ includes "application/json" ct = true)
      /\ wire_text rt req <> ""
      /\ exists data,
           JSON_parse rt (wire_text rt req)
           = Returned (JSObject [("event", JSString "charge.success");
                                 ("data", JSObject data)])
           /\ assoc "reference" data = Some (JSString reference)
  end.

(* ================================================================= *)
(** ** The claims that fail on the code, as they are worded *)

(** Among the deliveries that report one reference as paid, exactly one
    performs the transition of the Order into [completed], and the Order is
    completed afterwards. *)
Definition exactly_one_completion (rt : Runtime) : Prop :=
  forall (w : World) (reference : string) (o : Order) (ds : list Delivery),
    findOne reference (orders w) = Some o ->
    paymentStatus o = processing ->
    ds <> [] ->
    Forall (success_delivery rt reference) ds ->
    completions rt reference ds w = 1%nat
    /\ status_of reference (fst (run rt ds w)) = Some completed.

(** What the signature check hashes: [None] when no HMAC is computed. *)
Definition hmac_input (signature payload : jsval) : option string :=
  if negb (truthy signature) || negb (truthy payload) then None
  else match payload with
       | JSString data => Some data
       | _ => None
       end.

(** Whenever the webhook handler computes an HMAC, it is over the wire
    bytes of the body: the text they are, no other. *)
Definition hmac_over_wire_bytes (rt : Runtime) : Prop :=
  forall (req req1 : WebhookRequest) (w w1 : World) (data : string),
    PaymentRoutes.captureRawBody rt req w
    = (w1, Returned (PaymentRoutes.Arrived (PaymentRoutes.Next req1))) ->
    hmac_input (header req1 "x-paystack-signature")
               (PaymentController.signed_payload rt req1) = Some data ->
    data = wire_text rt req.

(** The lines a computation has added to the log of [w]. *)
Definition added_logs (w w' : World) : list LogEntry :=
  skipn (length (logs w)) (logs w').

(** A signed success webhook for the reference of an Order in a terminal
    state is discarded, logged and answered 200: the Order store stays as it
    was, a line is written, and the charge is not processed. *)
Definition stale_webhook_discarded (rt : Runtime) : Prop :=
  forall (w : World) (reference : string) (o : Order) (req : WebhookRequest),
    findOne reference (orders w) = Some o ->
    terminal (paymentStatus o) = true ->
    success_delivery rt reference (WebhookPost req) ->
    exists w' resp,
      PaymentRoutes.post_webhook rt req w
      = (w', Returned (PaymentRoutes.Arrived resp))
      /\ status resp = 200
      /\ orders w' = orders w
      /\ added_logs w w' <> []
      /\ Forall (fun entry =>
                   log_message entry <> "Processing successful charge")
                (added_logs w w').

(** Once the Order of a reference is completed, the verify calls for that
    reference all give the same answer, whatever the provider does
    between them, and leave the Order store as it was. *)
Definition verify_idempotent_once_completed : Prop :=
  forall (w : World) (reference : string) (o : Order)
         (calls : list (Runtime * VerifyRequest)),
    findOne reference (orders w) = Some o ->
    paymentStatus o = completed ->
    Forall (fun c => param_reference (snd c) = JSString reference) calls ->
    let ds := map (fun c => (fst c, VerifyCall (snd c))) calls in
    (exists answer,
       Forall (fun r => r = Returned (PaymentRoutes.Arrived answer))
              (snd (run_each ds w)))
    /\ orders (fst (run_each ds w)) = orders w.

(** The characters of a provider reference: letters, digits and [-._=]. *)
Definition reference_char (c : ascii) : bool :=
  let n := nat_of_ascii c in
  ((48 <=? n) && (n <=? 57) || (65 <=? n) && (n <=? 90)
   || (97 <=? n) && (n <=? 122)
   || (n =? 45) || (n =? 46) || (n =? 95) || (n =? 61))%nat.

Fixpoint all_chars (p : ascii -> bool) (s : string) : bool :=
  match s with
  | EmptyString => true
  | String c s' => p c && all_chars p s'
  end.

(** The shape check of the specification: a string, long enough, of
    reference characters only. *)
Definition reference_shape (v : jsval) : bool :=
  match v with
  | JSString s => (5 <=? Z.of_nat (String.length s)) && all_chars reference_char s
  | _ => false
  end.

(** A reference of the wrong shape is refused before any call to the
    provider. *)
Definition shape_checked_before_network (rt : Runtime) : Prop :=
  forall (req : VerifyRequest) (w : World),
    reference_shape (param_reference req) = false ->
    outbound (fst (PaymentRoutes.post_verify rt req w)) = outbound w.

(* ================================================================= *)
(** ** A runtime to evaluate the handlers on *)

Module Sample.

Definition dq : string := String (ascii_of_nat 34) "".

Definition quoted (s : string) : string := (dq ++ s ++ dq)%string.

(** [JSON.stringify] on values without escapes, fractions or [undefined]
    members. *)
Fixpoint text (v : jsval) : string :=
  match v with
  | JSUndefined | JSNull => "null"
  | JSBool true => "true"
  | JSBool false => "false"
  | JSNumber q => NilZero.string_of_int (Z.to_int (Qnum q))
  | JSString s => quoted s
  | JSArray items =>
      ("[" ++ String.concat "," (map text items) ++ "]")%string
  | JSObject fields =>
      ("{" ++ String.concat ","
                (map (fun kv => (quoted (fst kv) ++ ":" ++ text (snd kv))%string)
                     fields)
           ++ "}")%string
  end.

Definition stringify (v : jsval) : jsval :=
  match v with
  | JSUndefined => JSUndefined
  | _ => JSString (text v)
  end.

Definition charge_success : jsval :=
  JSObject [("event", JSString "charge.success");
            ("data", JSObject [("reference", JSString "ref_abc123");
                               ("status", JSString "success");
                               ("amount", JSNumber 1500000)])].

Definition subscription_create : jsval :=
  JSObject [("event", JSString "subscription.create");
            ("data", JSObject [("reference", JSString "ref_abc123")])].

Definition no_data : jsval :=
  JSObject [("event", JSString "charge.success")].

(** [JSON.parse] on the texts of the three events above. *)
Definition parse (s : string) : outcome jsval :=
  if String.eqb s (text charge_success) then Returned charge_success
  else if String.eqb s (text subscription_create) then
    Returned subscription_create
  else if String.eqb s (text no_data) then Returned no_data
  else Thrown "Unexpected token in JSON".

(** A stand-in for the keyed digest. *)
Definition hmac (key data : string) : string :=
  ("hmac-sha512(" ++ key ++ "," ++ data ++ ")")%string.

Definition unreserved (c : ascii) : bool :=
  let n := nat_of_ascii c in
  ((48 <=? n) && (n <=? 57) || (65 <=? n) && (n <=? 90)
   || (97 <=? n) && (n <=? 122)
   || (n =? 45) || (n =? 95) || (n =? 46) || (n =? 33) || (n =? 126)
   || (n =? 42) || (n =? 39) || (n =? 40) || (n =? 41))%nat.

Definition hex_digit (n : nat) : ascii :=
  ascii_of_nat (if (n <? 10)%nat then 48 + n else 55 + n).

Definition percent (n : nat) : string :=
  String "%" (String (hex_digit (n / 16)) (String (hex_digit (n mod 16)) "")).

(** [encodeURIComponent] on 8-bit code units. *)
Fixpoint encode (s : string) : string :=
  match s with
  | EmptyString => ""
  | String c s' =>
      let n := nat_of_ascii c in
      ((if unreserved c then String c ""
        else if (n <? 128)%nat then percent n
        else percent (192 + n / 64) ++ percent (128 + n mod 64))
       ++ encode s')%string
  end.

Definition paid : Transaction :=
  mkTransaction "success" 1500000 "customer@test.com" "CUS_x1" (JSObject [])
    (Some "2025-12-18T10:30:00Z") (Some "AUTH_abc").

Definition abandoned : Transaction :=
  mkTransaction "abandoned" 1500000 "customer@test.com" "CUS_x1" (JSObject [])
    None None.

Definition get (url : string) : outcome (Envelope Transaction) :=
  if String.eqb url "https://api.paystack.co/transaction/verify/ref_abc123"
  then Returned (mkEnvelope true (Some "Verification successful") (Some paid))
  else if String.eqb url "https://api.paystack.co/transaction/verify/ref_open1"
  then Returned (mkEnvelope true (Some "Verification successful") (Some abandoned))
  else Thrown "Request failed with status code 400".

Definition post (url : string) (payload : InitializePayload)
  : outcome (Envelope InitializeData) :=
  Returned (mkEnvelope true (Some "Authorization URL created")
              (Some (mkInitializeData "https://checkout.paystack.com/abc"
                       "123456" "ref_abc123"))).

(** The query string parser on the text of one pair. *)
Definition parse_form (s : string) : outcome jsval :=
  if String.eqb s "reference=ref_abc123" then
    Returned (JSObject [("reference", JSString "ref_abc123")])
  else Thrown "too many parameters".

(** The bytes of an ASCII text, and [chunk.toString()] on chunks of ASCII
    text: one code unit for every byte. *)
Definition bytes (s : string) : Buffer := list_byte_of_string s.

Definition toString (chunk : Buffer) : string := string_of_list_byte chunk.

Definition runtime : Runtime :=
  mkRuntime "sk_test_key" hmac parse stringify toString parse_form encode
    "http://localhost:3000" false "2025-12-18T10:00:00.000Z"
    post get (fun code => code).

(** The same platform once the provider reports the payment as reversed. *)
Definition runtime_reversed : Runtime :=
  mkRuntime "sk_test_key" hmac parse stringify toString parse_form encode
    "http://localhost:3000" false "2025-12-19T09:00:00.000Z"
    post
    (fun _ =>
       Returned (mkEnvelope true (Some "Verification successful")
                   (Some (mkTransaction "reversed" 1500000 "customer@test.com"
                            "CUS_x1" (JSObject [])
                            (Some "2025-12-18T10:30:00Z") (Some "AUTH_abc")))))
    (fun code => code).

(** The same platform while the provider does not answer. *)
Definition runtime_down : Runtime :=
  mkRuntime "sk_test_key" hmac parse stringify toString parse_form encode
    "http://localhost:3000" false "2025-12-18T10:05:00.000Z"
    post (fun _ => Thrown "timeout of 30000ms exceeded") (fun code => code).

Definition order1 : Order :=
  mkOrder "507f1f77bcf86cd799439011" 1500000 processing (Some "ref_abc123")
    None None None.

Definition order2 : Order :=
  mkOrder "507f1f77bcf86cd799439012" 1500000 cancelled (Some "ref_abc123")
    None None None.

Definition order3 : Order :=
  mkOrder "507f1f77bcf86cd799439013" 1500000 completed (Some "ref_abc123")
    (Some "2025-12-18T10:30:05.000Z") (Some "AUTH_abc") None.

Definition world1 : World := mkWorld [order1] [] [].

Definition world2 : World := mkWorld [order2] [] [].

Definition world3 : World := mkWorld [order3] [] [].

(** A post of [event] in one chunk, as a client sends it, signed with
    [signature]. *)
Definition post_of (contentType signature : string) (event : jsval)
  : WebhookRequest :=
  mkWebhookRequest
    [("content-type", contentType);
     ("content-length",
      NilZero.string_of_uint (Nat.to_uint (String.length (text event))));
     ("x-paystack-signature", signature)]
    [bytes (text event)] false JSUndefined (JSObject []).

(** The webhook post of the provider for [event], signed with the key of
    the runtime. *)
Definition signed_post (event : jsval) : WebhookRequest :=
  post_of "application/json" (hmac "sk_test_key" (text event)) event.

(** The same post with a signature that is not the digest of its body. *)
Definition forged_post (event : jsval) : WebhookRequest :=
  post_of "application/json" "0000" event.

(** The same signed post under a media type that is not [application/json]
    and holds its name: [express.json()] leaves it alone, [captureRawBody]
    parses it. *)
Definition unread_post (event : jsval) : WebhookRequest :=
  post_of "application/json-seq" (hmac "sk_test_key" (text event)) event.

(** A signed form post. *)
Definition form_post : WebhookRequest :=
  mkWebhookRequest
    [("content-type", "application/x-www-form-urlencoded");
     ("content-length", "20");
     ("x-paystack-signature", hmac "sk_test_key" "reference=ref_abc123")]
    [bytes "reference=ref_abc123"] false JSUndefined (JSObject []).

(** A request as the router gets it from the body parsers. *)
Definition at_router (req : WebhookRequest) : WebhookRequest :=
  match Server.body_parsers runtime req with
  | Server.HandedOn req1 => req1
  | Server.Refused => req
  end.

(** A post without a body, signed over the text of an empty object. *)
Definition empty_post : WebhookRequest :=
  mkWebhookRequest
    [("content-type", "text/plain");
     ("x-paystack-signature", hmac "sk_test_key" "{}")]
    [] false JSUndefined (JSObject []).

Definition verify_call (reference : string) : VerifyRequest :=
  mkVerifyRequest (JSString reference) "user1".

Definition initialize_request (amount : option Q) : InitializeRequest :=
  mkInitializeRequest (JSString "507f1f77bcf86cd799439011") amount "user1".

End Sample.

(* ================================================================= *)
(** ** Properties of computations *)

(** The computation leaves the Order store as it found it. *)
Definition preserves_orders {A : Type} (m : M A) : Prop :=
  forall w, orders (fst (m w)) = orders w.

(** The computation sends nothing to the provider. *)
Definition offline {A : Type} (m : M A) : Prop :=
  forall w, outbound (fst (m w)) = outbound w.

(** The computation returns; no exception leaves it. *)
Definition returns {A : Type} (m : M A) : Prop :=
  forall w, exists a, snd (m w) = Returned a.

(** Whatever the computation returns satisfies [P]. *)
Definition post {A : Type} (P : A -> Prop) (m : M A) : Prop :=
  forall w w' a, m w = (w', Returned a) -> P a.

(** The computation returns, and what it returns satisfies [P]. *)
Definition answers {A : Type} (P : A -> Prop) (m : M A) : Prop :=
  forall w, exists a, snd (m w) = Returned a /\ P a.

(** The verdict of the signature check, in the words of the specification:
    a header, a body, and the digest of the body equal to the header. *)
Definition accepts (rt : Runtime) (signature body : jsval) : bool :=
  truthy signature && truthy body
  && match body with
     | JSString data =>
         strict_eq_str signature (hmac_sha512_hex rt (secretKey rt) data)
     | _ => false
     end.

(** The answer does not depend on the world the computation starts in. *)
Definition world_independent {A : Type} (m : M A) : Prop :=
  forall w w', snd (m w) = snd (m w').

(** [reference] is a string of 5 to 255 code units: what the route and the
    service check. *)
Definition length_ok (reference : jsval) : bool :=
  match reference with
  | JSString s =>
      (5 <=? Z.of_nat (String.length s)) && (Z.of_nat (String.length s) <=? 255)
  | _ => false
  end.

(** [!orderId || typeof orderId !== 'string'] does not hold. *)
Definition orderId_ok (req : InitializeRequest) : bool :=
  truthy (orderId req) && is_string (orderId req).

(** The call [initializePayment] makes to the provider for [req]. *)
Definition initialize_call (rt : Runtime) (req : InitializeRequest)
  : OutboundCall :=
  AxiosPost (paystackConfig.baseUrl ++ "/transaction/initialize")%string
    (mkInitializePayload "customer@test.com"
       (PaymentController.amountInKobo_of
          (PaymentController.orderTotal_of (req_amount req)))
       (JSObject [("orderId", orderId req);
                  ("userId", JSString (init_userId req));
                  ("orderDate", JSString (now_iso rt));
                  ("customSpecs", JSObject [])])
       (CLIENT_URL rt ++ "/payment/callback")%string).

(** The answer of the verify endpoint to a transaction of the provider. *)
Definition verify_answer (tx : Transaction) : Response :=
  if String.eqb (tx_status tx) "success" then
    respond 200
      [("success", JSBool true);
       ("message", JSString "Payment verified successfully");
       ("data", JSObject
          [("status", JSString (tx_status tx));
           ("amount", JSNumber (inject_Z (tx_amount tx) / 100));
           ("depositPaid", JSBool true);
           ("paidAt", nullable (tx_paid_at tx))])]
  else
    respond 400
      [("success", JSBool false);
       ("message", JSString "Payment verification failed");
       ("status", JSString (tx_status tx))].

(* ================================================================= *)
(** ** routes/payments.js, the initialize route *)

Module InitializeRoute.

(** [/^[a-f0-9]+$/i], the pattern of [Joi.string().hex()]. *)
Definition hex_char (c : ascii) : bool :=
  let n := nat_of_ascii c in
  ((48 <=? n) && (n <=? 57) || (65 <=? n) && (n <=? 70)
   || (97 <=? n) && (n <=? 102))%nat.

(** The error codes of [Joi.string().hex().length(24).required()] on
    [orderId]; with [abortEarly: false] both rules of a string report. *)
Definition validate_orderId (v : jsval) : list string :=
  match v with
  | JSUndefined => ["any.required"]
  | JSString s =>
      if String.eqb s "" then ["string.empty"]
      else (if all_chars hex_char s then [] else ["string.hex"])
           ++ (if (String.length s =? 24)%nat then [] else ["string.length"])
  | _ => ["string.base"]
  end.

(** [Number.MAX_SAFE_INTEGER] *)
Definition MAX_SAFE_INTEGER : Z := 2 ^ 53 - 1.

(** The number is [Infinity] or [-Infinity] as a double. *)
Definition infinite (value : Q) : bool :=
  Qle_bool (inject_Z (2 ^ 1024)) value
  || Qle_bool value (inject_Z (- 2 ^ 1024)).

(** The error codes of [Joi.number().positive().optional()] on a number:
    [Joi.number()] refuses an infinite number with [number.infinity] and a
    number beyond the safe integers with [number.unsafe] before any rule of
    the schema is tried; [positive()] is for the others. *)
Definition validate_amount (a : option Q) : list string :=
  match a with
  | None => []
  | Some q =>
      let value := double q in
      if infinite value then ["number.infinity"]
      else if negb (Qle_bool value (inject_Z MAX_SAFE_INTEGER))
              || negb (Qle_bool (inject_Z (- MAX_SAFE_INTEGER)) value)
      then ["number.unsafe"]
      else if Qle_bool value 0 then ["number.positive"] else []
  end.

Section Route.

Variable rt : Runtime.

(** The [.messages({...})] of the two keys, else the text of Joi. *)
Definition orderId_message (code : string) : string :=
  if String.eqb code "string.hex" then "Order ID must be a valid ID"
  else if String.eqb code "string.length" then "Order ID format is invalid"
  else if String.eqb code "any.required" then "Order ID is required"
  else joi_default_message rt code.

Definition amount_message (code : string) : string :=
  if String.eqb code "number.positive" then "Amount must be greater than 0"
  else if String.eqb code "number.base" then "Amount must be a number"
  else joi_default_message rt code.

(** [error.details.map(detail => ({ field, message }))] *)
Definition details (req : InitializeRequest) : list jsval :=
  map (fun code => JSObject [("field", JSString "orderId");
                             ("message", JSString (orderId_message code))])
      (validate_orderId (orderId req))
  ++ map (fun code => JSObject [("field", JSString "amount");
                                ("message", JSString (amount_message code))])
         (validate_amount (req_amount req)).

(** [mongoSanitize.sanitize] drops keys that start with [$] or hold a dot;
    it changes neither a string [orderId] nor a number, nor the verdict of
    the schema on the other values. *)
Definition validateInitializePayment (req : InitializeRequest)
  : M (PaymentRoutes.Step InitializeRequest) :=
  match details req with
  | [] => ret (PaymentRoutes.Next req)
  | errors =>
      ret (PaymentRoutes.Respond
             (respond 400
                [("success", JSBool false);
                 ("message", JSString "Validation failed");
                 ("errors", JSArray errors)]))
  end.

(** [router.post('/initialize', ..., validateInitializePayment,
    initializePayment)], after [isAuth] and the rate limiter. *)
Definition post_initialize (req : InitializeRequest) : M Response :=
  PaymentRoutes.and_then (validateInitializePayment req)
    (PaymentController.initializePayment rt).

End Route.

End InitializeRoute.

(* ================================================================= *)
(** ** middleware/rateLimiter.js *)

Module RateLimiter.

(** What [rateLimiter.consume(key)] does: it resolves, or rejects with an
    [Error], or rejects with the state of the key, whose [msBeforeNext] may
    be missing. *)
Inductive Consume : Type :=
| Consumed
| RejectedError (message : string)
| RejectedRes (msBeforeNext : option Q).

(** [Math.round(error.msBeforeNext / 1000) || 900] *)
Definition retryAfter (msBeforeNext : option Q) : Z :=
  match msBeforeNext with
  | None => 900
  | Some ms =>
      let seconds := Math_round (ms / 1000) in
      if seconds =? 0 then 900 else seconds
  end.

(** [rateLimiterMiddleware], with [consume] the limiter and [ip],
    [remoteAddress] the two addresses of the request. *)
Definition rateLimiterMiddleware (consume : jsval -> Consume)
    (ip remoteAddress : jsval) : PaymentRoutes.Step unit :=
  let key := js_or ip remoteAddress in
  match consume key with
  | Consumed => PaymentRoutes.Next tt
  | RejectedError _ =>
      PaymentRoutes.Respond
        (respond 500 [("success", JSBool false);
                      ("message", JSString "Rate limiter error")])
  | RejectedRes ms =>
      PaymentRoutes.Respond
        (respond 429
           [("success", JSBool false);
            ("message", JSString "Too many requests. Please try again later.");
            ("retryAfter", JSNumber (inject_Z (retryAfter ms)))])
  end.

End RateLimiter.

(* ================================================================= *)
(** ** middleware/auth.js *)

Module Auth.

(** The document [User.findById] gives: [user.id] and [user.role]. *)
Record User : Type := mkUser {
  user_id : string;
  role : string
}.

(** A call that returns or throws an error with a [name]. *)
Inductive named (A : Type) : Type :=
| Gave (a : A)
| Threw (name message : string).
Arguments Threw {A} name message.

(** [String.prototype.split(' ')] *)
Fixpoint split_space (s : string) : list string :=
  match s with
  | EmptyString => [""]
  | String c s' =>
      if Ascii.eqb c " " then "" :: split_space s'
      else match split_space s' with
           | piece :: pieces => String c piece :: pieces
           | [] => [String c ""]
           end
  end.

Section Middleware.

(** [jwt.verify(token, config.jwt.secret)] *)
Variable jwt_verify : string -> named jsval.

(** [User.findById(id).select('-password -refreshToken')] *)
Variable findById : jsval -> named (option User).

Definition denied (message : string) : Response :=
  respond 401 [("success", JSBool false); ("message", JSString message)].

(** The inner [try] of [isAuth]: verify the token and fetch the user. *)
Definition verify_and_fetch (token : string)
  : named (PaymentRoutes.Step User) :=
  match jwt_verify token with
  | Threw name message => Threw name message
  | Gave decoded =>
      match get_prop decoded "id" with
      | Thrown message => Threw "TypeError" message
      | Returned id =>
          match findById id with
          | Threw name message => Threw name message
          | Gave None =>
              Gave (PaymentRoutes.Respond
                      (denied "User not found. Token is invalid."))
          | Gave (Some user) => Gave (PaymentRoutes.Next user)
          end
      end
  end.

(** [isAuth], on [req.headers.authorization]; it answers, or attaches the
    user and calls [next()].  The lines it writes to the console are not
    part of the world. *)
Definition isAuth (authHeader : jsval) : PaymentRoutes.Step User :=
  let failed :=
    PaymentRoutes.Respond
      (respond 500 [("success", JSBool false);
                    ("message", JSString "Authentication failed")]) in
  if negb (truthy authHeader) then
    PaymentRoutes.Respond (denied "Access denied. No token provided.")
  else
    match authHeader with
    | JSString h =>
        if negb (prefix "Bearer " h) then
          PaymentRoutes.Respond (denied "Access denied. No token provided.")
        else
          match nth_error (split_space h) 1 with
          | None | Some EmptyString =>
              PaymentRoutes.Respond
                (denied "Access denied. Invalid token format.")
          | Some token =>
              match verify_and_fetch token with
              | Gave step => step
              | Threw name _ =>
                  if String.eqb name "TokenExpiredError" then
                    PaymentRoutes.Respond
                      (respond 401
                         [("success", JSBool false);
                          ("message",
                           JSString "Token expired. Please login again.");
                          ("expired", JSBool true)])
                  else if String.eqb name "JsonWebTokenError" then
                    PaymentRoutes.Respond
                      (denied "Invalid token. Please login again.")
                  else failed
              end
          end
    | _ => failed
    end.

End Middleware.

End Auth.

(* ================================================================= *)
(** ** The two private endpoints, from the first middleware on *)

Module Endpoints.

(** What the middleware in front of the handlers reads of a request. *)
Record Caller : Type := mkCaller {
  authorization : jsval;
  ip : jsval;
  remoteAddress : jsval
}.

Section Chains.

Variable jwt_verify : string -> Auth.named jsval.
Variable findById : jsval -> Auth.named (option Auth.User).
Variable consume : jsval -> RateLimiter.Consume.
Variable rt : Runtime.

(** [isAuth, rateLimiterMiddleware]: the user the two let through. *)
Definition admitted (c : Caller) : PaymentRoutes.Step Auth.User :=
  match Auth.isAuth jwt_verify findById (authorization c) with
  | PaymentRoutes.Respond r => PaymentRoutes.Respond r
  | PaymentRoutes.Next user =>
      match RateLimiter.rateLimiterMiddleware consume (ip c) (remoteAddress c) with
      | PaymentRoutes.Respond r => PaymentRoutes.Respond r
      | PaymentRoutes.Next _ => PaymentRoutes.Next user
      end
  end.

(** [router.post('/initialize', isAuth, rateLimiterMiddleware,
    validateInitializePayment, initializePayment)] *)
Definition initialize (c : Caller) (orderId : jsval) (amount : option Q)
  : M Response :=
  match admitted c with
  | PaymentRoutes.Respond r => ret r
  | PaymentRoutes.Next user =>
      InitializeRoute.post_initialize rt
        (mkInitializeRequest orderId amount (Auth.user_id user))
  end.

(** [router.post('/verify/:reference', isAuth, rateLimiterMiddleware,
    validateVerifyPayment, verifyPayment)] *)
Definition verify (c : Caller) (reference : jsval) : M Response :=
  match admitted c with
  | PaymentRoutes.Respond r => ret r
  | PaymentRoutes.Next user =>
      PaymentRoutes.post_verify rt
        (mkVerifyRequest reference (Auth.user_id user))
  end.

End Chains.

End Endpoints.

(* ================================================================= *)
(** ** More properties of computations *)

(** The part of a string before its first space. *)
Fixpoint first_word (s : string) : string :=
  match s with
  | EmptyString => ""
  | String c s' => if Ascii.eqb c " " then "" else String c (first_word s')
  end.

(** The amount of an outbound call is within the limits of the
    configuration. *)
Definition within_limits (c : OutboundCall) : Prop :=
  match c with
  | AxiosPost _ payload =>
      paystackConfig.minAmount <= amount payload <= paystackConfig.maxAmount
  | AxiosGet _ => True
  end.

(** The provider accepts the initialization of [req]. *)
Definition provider_accepts (rt : Runtime) (req : InitializeRequest)
    (d : InitializeData) : Prop :=
  match initialize_call rt req with
  | AxiosPost url payload =>
      exists m, axios_post rt url payload = Returned (mkEnvelope true m (Some d))
  | AxiosGet _ => False
  end.

(** A small gate for the endpoints: one token, one user, a limiter that
    lets everything through. *)
Module SampleGate.

Definition user1 : Auth.User := Auth.mkUser "64b000000000000000000001" "user".

Definition jwt_verify (token : string) : Auth.named jsval :=
  if String.eqb token "good.token" then
    Auth.Gave (JSObject [("id", JSString "64b000000000000000000001")])
  else if String.eqb token "old.token" then
    Auth.Threw "TokenExpiredError" "jwt expired"
  else Auth.Threw "JsonWebTokenError" "jwt malformed".

Definition findById (id : jsval) : Auth.named (option Auth.User) :=
  if strict_eq_str id "64b000000000000000000001" then Auth.Gave (Some user1)
  else Auth.Gave None.

Definition consume (key : jsval) : RateLimiter.Consume := RateLimiter.Consumed.

Definition caller : Endpoints.Caller :=
  Endpoints.mkCaller (JSString "Bearer good.token") (JSString "10.0.0.1")
    JSUndefined.

End SampleGate.

(** The content type of the request says JSON. *)
Definition json_content (req : WebhookRequest) : bool :=
  match header req "content-type" with
  | JSString ct => includes "application/json" ct
  | _ => false
  end.

(** The answers of the webhook handler. *)
Definition webhook_missing_signature : Response :=
  respond 400 [("success", JSBool false);
               ("message", JSString "Missing signature header")].

Definition webhook_invalid_signature : Response :=
  respond 401 [("success", JSBool false);
               ("message", JSString "Invalid webhook signature")].

Definition webhook_processed : Response :=
  respond 200 [("success", JSBool true);
               ("message", JSString "Webhook processed")].

Definition webhook_processing_error : Response :=
  respond 200 [("success", JSBool false);
               ("message", JSString "Webhook processing error")].

(* ================================================================= *)
(** * Proofs *)

Unset Implicit Arguments.

(** ** The monad *)

Section MonadFacts.

Context {A B : Type}.

Lemma po_ret (a : A) : preserves_orders (ret a).
Proof. intro w. reflexivity. Qed.

Lemma po_throw (e : string) : preserves_orders (@throw A e).
Proof. intro w. reflexivity. Qed.

Lemma po_lift (o : outcome A) : preserves_orders (lift o).
Proof. intro w. reflexivity. Qed.

Lemma po_bind (m : M A) (k : A -> M B) :
  preserves_orders m -> (forall a, preserves_orders (k a)) ->
  preserves_orders (bind m k).
Proof.
  intros Hm Hk w. unfold bind. specialize (Hm w).
  destruct (m w) as [w1 [a | e]]; simpl in *.
  - rewrite Hk. exact Hm.
  - exact Hm.
Qed.

Lemma po_try_catch (m : M A) (h : string -> M A) :
  preserves_orders m -> (forall e, preserves_orders (h e)) ->
  preserves_orders (try_catch m h).
Proof.
  intros Hm Hh w. unfold try_catch. specialize (Hm w).
  destruct (m w) as [w1 [a | e]]; simpl in *.
  - exact Hm.
  - rewrite Hh. exact Hm.
Qed.

Lemma off_ret (a : A) : offline (ret a).
Proof. intro w. reflexivity. Qed.

Lemma off_throw (e : string) : offline (@throw A e).
Proof. intro w. reflexivity. Qed.

Lemma off_lift (o : outcome A) : offline (lift o).
Proof. intro w. reflexivity. Qed.

Lemma off_bind (m : M A) (k : A -> M B) :
  offline m -> (forall a, offline (k a)) -> offline (bind m k).
Proof.
  intros Hm Hk w. unfold bind. specialize (Hm w).
  destruct (m w) as [w1 [a | e]]; simpl in *.
  - rewrite Hk. exact Hm.
  - exact Hm.
Qed.

Lemma off_try_catch (m : M A) (h : string -> M A) :
  offline m -> (forall e, offline (h e)) -> offline (try_catch m h).
Proof.
  intros Hm Hh w. unfold try_catch. specialize (Hm w).
  destruct (m w) as [w1 [a | e]]; simpl in *.
  - exact Hm.
  - rewrite Hh. exact Hm.
Qed.

Lemma returns_ret (a : A) : returns (ret a).
Proof. intro w. exists a. reflexivity. Qed.

Lemma returns_bind (m : M A) (k : A -> M B) :
  returns m -> (forall a, returns (k a)) -> returns (bind m k).
Proof.
  intros Hm Hk w. unfold bind. destruct (Hm w) as [a Ha].
  destruct (m w) as [w1 o]; simpl in Ha; subst o. apply Hk.
Qed.

Lemma returns_try_catch (m : M A) (h : string -> M A) :
  (forall e, returns (h e)) -> returns (try_catch m h).
Proof.
  intros Hh w. unfold try_catch.
  destruct (m w) as [w1 [a | e]].
  - exists a. reflexivity.
  - apply Hh.
Qed.

Lemma wi_ret (a : A) : world_independent (ret a).
Proof. intros w w'. reflexivity. Qed.

Lemma wi_throw (e : string) : world_independent (@throw A e).
Proof. intros w w'. reflexivity. Qed.

Lemma wi_lift (o : outcome A) : world_independent (lift o).
Proof. intros w w'. reflexivity. Qed.

Lemma wi_bind (m : M A) (k : A -> M B) :
  world_independent m -> (forall a, world_independent (k a)) ->
  world_independent (bind m k).
Proof.
  intros Hm Hk w w'. unfold bind. specialize (Hm w w').
  destruct (m w) as [w1 o], (m w') as [w1' o']; simpl in Hm; subst o'.
  destruct o as [a | e]; [apply Hk | reflexivity].
Qed.

Lemma wi_try_catch (m : M A) (h : string -> M A) :
  world_independent m -> (forall e, world_independent (h e)) ->
  world_independent (try_catch m h).
Proof.
  intros Hm Hh w w'. unfold try_catch. specialize (Hm w w').
  destruct (m w) as [w1 o], (m w') as [w1' o']; simpl in Hm; subst o'.
  destruct o as [a | e]; [reflexivity | apply Hh].
Qed.

End MonadFacts.

Lemma po_logger l msg m : preserves_orders (logger l msg m).
Proof. intro w. reflexivity. Qed.

Lemma po_send c : preserves_orders (send c).
Proof. intro w. reflexivity. Qed.

Lemma off_logger l msg m : offline (logger l msg m).
Proof. intro w. reflexivity. Qed.

Lemma returns_logger l msg m : returns (logger l msg m).
Proof. intro w. exists tt. reflexivity. Qed.

Lemma wi_logger l msg m : world_independent (logger l msg m).
Proof. intros w w'. reflexivity. Qed.

Lemma wi_send c : world_independent (send c).
Proof. intros w w'. reflexivity. Qed.

Create HintDb effects.
#[local] Hint Resolve po_ret po_throw po_lift po_logger po_send
  off_ret off_throw off_lift off_logger
  returns_ret returns_logger
  wi_ret wi_throw wi_lift wi_logger wi_send : effects.

(** Walks down a handler: one rule of the monad per construct, and a case
    split at every branch of the source. *)
Ltac walk :=
  repeat first
    [ progress intros
    | progress cbv zeta
    | solve [auto with effects]
    | apply po_bind | apply po_try_catch
    | apply off_bind | apply off_try_catch
    | apply returns_bind | apply returns_try_catch
    | apply wi_bind | apply wi_try_catch
    | match goal with
      | |- preserves_orders (if ?b then _ else _) => destruct b
      | |- offline (if ?b then _ else _) => destruct b
      | |- returns (if ?b then _ else _) => destruct b
      | |- preserves_orders (match ?x with _ => _ end) => destruct x
      | |- offline (match ?x with _ => _ end) => destruct x
      | |- returns (match ?x with _ => _ end) => destruct x
      | |- world_independent (if ?b then _ else _) => destruct b
      | |- world_independent (match ?x with _ => _ end) => destruct x
      end ].

(** ** No handler writes the Order store *)

Section Unchanged.

Variable rt : Runtime.

Lemma initializeTransaction_orders email amount metadata :
  preserves_orders (PaystackService.initializeTransaction rt email amount metadata).
Proof. unfold PaystackService.initializeTransaction. walk. Qed.

Lemma verifyTransaction_orders reference :
  preserves_orders (PaystackService.verifyTransaction rt reference).
Proof. unfold PaystackService.verifyTransaction. walk. Qed.

Lemma service_verifyWebhookSignature_orders signature body :
  preserves_orders (PaystackService.verifyWebhookSignature rt signature body).
Proof. unfold PaystackService.verifyWebhookSignature. walk. Qed.

Lemma parseWebhookEvent_orders event :
  preserves_orders (PaystackService.parseWebhookEvent event).
Proof. unfold PaystackService.parseWebhookEvent. walk. Qed.

#[local] Hint Resolve initializeTransaction_orders verifyTransaction_orders
  service_verifyWebhookSignature_orders parseWebhookEvent_orders : effects.

Lemma initializePayment_orders req :
  preserves_orders (PaymentController.initializePayment rt req).
Proof. unfold PaymentController.initializePayment. walk. Qed.

Lemma verifyPayment_orders req :
  preserves_orders (PaymentController.verifyPayment rt req).
Proof. unfold PaymentController.verifyPayment. walk. Qed.

Lemma dispatch_orders event :
  preserves_orders (PaymentController.dispatch event).
Proof.
  unfold PaymentController.dispatch, PaymentController.handleChargeSuccess,
    PaymentController.handleChargeFailed,
    PaymentController.handleTransferSuccess,
    PaymentController.handleTransferFailed.
  walk.
Qed.

#[local] Hint Resolve dispatch_orders : effects.

Lemma handleWebhook_orders req :
  preserves_orders (PaymentController.handleWebhook rt req).
Proof. unfold PaymentController.handleWebhook. walk. Qed.

#[local] Hint Resolve verifyPayment_orders handleWebhook_orders : effects.

Lemma post_verify_orders req :
  preserves_orders (PaymentRoutes.post_verify rt req).
Proof.
  unfold PaymentRoutes.post_verify, PaymentRoutes.and_then,
    PaymentRoutes.validateVerifyPayment.
  walk.
Qed.

Lemma post_webhook_orders req :
  preserves_orders (PaymentRoutes.post_webhook rt req).
Proof.
  unfold PaymentRoutes.post_webhook, PaymentRoutes.when_arrived,
    PaymentRoutes.and_then, PaymentRoutes.captureRawBody,
    PaymentRoutes.verifyWebhookSignature.
  walk.
Qed.

Lemma deliver_orders d : preserves_orders (deliver rt d).
Proof.
  destruct d; simpl.
  - apply po_bind; [apply post_verify_orders | intro; apply po_ret].
  - apply post_webhook_orders.
Qed.

Lemma run_orders ds : forall w, orders (fst (run rt ds w)) = orders w.
Proof.
  induction ds as [| d ds IH]; intro w; simpl.
  - reflexivity.
  - pose proof (deliver_orders d w) as Hd.
    destruct (deliver rt d w) as [w1 r]; simpl in Hd.
    specialize (IH w1).
    destruct (run rt ds w1) as [w2 rs]; simpl in *.
    congruence.
Qed.

Lemma completes_same reference w w' :
  orders w' = orders w -> completes reference w w' = false.
Proof.
  intro H. unfold completes, status_of. rewrite H.
  destruct (findOne reference (orders w)) as [o |]; simpl; [| reflexivity].
  destruct (paymentStatus o); reflexivity.
Qed.

Lemma completions_zero reference ds :
  forall w, completions rt reference ds w = 0%nat.
Proof.
  induction ds as [| d ds IH]; intro w; simpl.
  - reflexivity.
  - rewrite completes_same by apply deliver_orders.
    rewrite IH. reflexivity.
Qed.

End Unchanged.

Lemma run_each_orders ds : forall w, orders (fst (run_each ds w)) = orders w.
Proof.
  induction ds as [| [rt d] ds IH]; intro w; simpl.
  - reflexivity.
  - pose proof (deliver_orders rt d w) as Hd.
    destruct (deliver rt d w) as [w1 r]; simpl in Hd.
    specialize (IH w1).
    destruct (run_each ds w1) as [w2 rs]; simpl in *.
    congruence.
Qed.

(** ** The signature verifier *)

Section Verifier.

Variable rt : Runtime.

Lemma truthy_string s : truthy (JSString s) = negb (String.eqb s "").
Proof. reflexivity. Qed.

(** The verifier returns the verdict [accepts], whatever it is given: the
    [catch] of the method turns every exception into [false]. *)
Lemma verifyWebhookSignature_verdict signature body w :
  snd (PaystackService.verifyWebhookSignature rt signature body w)
  = Returned (accepts rt signature body).
Proof.
  unfold PaystackService.verifyWebhookSignature, accepts, try_catch, bind,
    lift, ret, logger.
  destruct (truthy signature) eqn:Hs; simpl; [| reflexivity].
  destruct (truthy body) eqn:Hb; simpl; [| reflexivity].
  destruct body; simpl; try reflexivity.
  destruct (strict_eq_str signature _) eqn:He; simpl; [reflexivity |].
  destruct signature; simpl; reflexivity.
Qed.

(** A matching signature is accepted without a log line. *)
Lemma verifyWebhookSignature_accept s data w :
  s <> "" -> data <> "" ->
  s = hmac_sha512_hex rt (secretKey rt) data ->
  PaystackService.verifyWebhookSignature rt (JSString s) (JSString data) w
  = (w, Returned true).
Proof.
  intros Hs Hd He.
  apply String.eqb_neq in Hs. apply String.eqb_neq in Hd.
  unfold PaystackService.verifyWebhookSignature, try_catch, bind, lift, ret.
  simpl. rewrite Hs, Hd. simpl.
  rewrite <- He, String.eqb_refl. reflexivity.
Qed.

(** The check hashes the body it is given and nothing else: its verdict is
    the comparison of the header with the digest of [hmac_input]. *)
Lemma verdict_by_hmac_input signature body :
  accepts rt signature body
  = match hmac_input signature body with
    | Some data =>
        strict_eq_str signature (hmac_sha512_hex rt (secretKey rt) data)
    | None => false
    end.
Proof.
  unfold accepts, hmac_input.
  destruct (truthy signature), (truthy body); simpl; try reflexivity.
  destruct body; reflexivity.
Qed.

End Verifier.

(** ** Postconditions *)

Section Postconditions.

Context {A B : Type}.

Lemma post_ret (P : A -> Prop) a : P a -> post P (ret a).
Proof. intros Ha w w' a' H. inversion H. subst. exact Ha. Qed.

Lemma post_throw (P : A -> Prop) e : post P (throw e).
Proof. intros w w' a H. discriminate. Qed.

Lemma post_bind (P : B -> Prop) (m : M A) (k : A -> M B) :
  (forall a, post P (k a)) -> post P (bind m k).
Proof.
  intros Hk w w' b. unfold bind.
  destruct (m w) as [w1 [a | e]]; intro H.
  - exact (Hk a w1 w' b H).
  - discriminate.
Qed.

Lemma answers_ret (P : A -> Prop) a : P a -> answers P (ret a).
Proof. intros Ha w. exists a. split; [reflexivity | exact Ha]. Qed.

Lemma answers_bind (P : B -> Prop) (m : M A) (k : A -> M B) :
  returns m -> (forall a, answers P (k a)) -> answers P (bind m k).
Proof.
  intros Hm Hk w. unfold bind. destruct (Hm w) as [a Ha].
  destruct (m w) as [w1 o]; simpl in Ha; subst o. apply Hk.
Qed.

Lemma answers_try_catch (P : A -> Prop) (m : M A) (h : string -> M A) :
  post P m -> (forall e, answers P (h e)) -> answers P (try_catch m h).
Proof.
  intros Hm Hh w. unfold try_catch.
  destruct (m w) as [w1 [a | e]] eqn:E.
  - exists a. split; [reflexivity | exact (Hm w w1 a E)].
  - apply Hh.
Qed.

Lemma try_catch_bind_returned (m : M A) (k : A -> M B) h w w1 a :
  m w = (w1, Returned a) ->
  try_catch (bind m k) h w = try_catch (k a) h w1.
Proof. intro E. unfold try_catch, bind. rewrite E. reflexivity. Qed.

End Postconditions.

(** ** The webhook route *)

Lemma append_empty (s : string) : (s ++ "")%string = s.
Proof. induction s as [| c s IH]; simpl; [reflexivity | now rewrite IH]. Qed.

Lemma append_associative (a b c : string) :
  ((a ++ b) ++ c)%string = (a ++ (b ++ c))%string.
Proof. induction a as [| x a IH]; simpl; [reflexivity | now rewrite IH]. Qed.

Lemma concat_cons (x : string) (l : list string) :
  String.concat "" (x :: l) = (x ++ String.concat "" l)%string.
Proof.
  destruct l as [| y l]; simpl; [now rewrite append_empty | reflexivity].
Qed.

(** Adding the text of every chunk to [req.rawBody] gives the texts one
    after the other. *)
Lemma fold_append {X : Type} (f : X -> string) (l : list X) : forall acc,
  fold_left (fun a x => (a ++ f x)%string) l acc
  = (acc ++ String.concat "" (map f l))%string.
Proof.
  induction l as [| x l IH]; intro acc.
  - simpl. now rewrite append_empty.
  - change (fold_left (fun a y => (a ++ f y)%string) (x :: l) acc)
      with (fold_left (fun a y => (a ++ f y)%string) l (acc ++ f x)%string).
    rewrite IH, append_associative.
    change (map f (x :: l)) with (f x :: map f l).
    now rewrite concat_cons.
Qed.

Section Webhook.

Variable rt : Runtime.

(** [captureRawBody], case by case. *)
Lemma captureRawBody_eq req w :
  PaymentRoutes.captureRawBody rt req w
  = if ended req then (w, Returned PaymentRoutes.Never)
    else if json_content req then
      match JSON_parse rt (captured_text rt req) with
      | Returned parsed =>
          (w, Returned (PaymentRoutes.Arrived (PaymentRoutes.Next
                          (mkWebhookRequest (headers req) (chunks req) true
                             (JSString (captured_text rt req)) parsed))))
      | Thrown message =>
          (mkWorld (orders w)
             (logs w ++ [mkLog error "Invalid JSON in webhook"
                           [("error", JSString message)]])
             (outbound w),
           Returned (PaymentRoutes.Arrived (PaymentRoutes.Respond
                       (respond 400
                          [("success", JSBool false);
                           ("message", JSString "Invalid JSON payload")]))))
      end
    else
      (w, Returned (PaymentRoutes.Arrived (PaymentRoutes.Next
                      (mkWebhookRequest (headers req) (chunks req) true
                         (JSString (captured_text rt req)) (body req))))).
Proof.
  unfold PaymentRoutes.captureRawBody, json_content, captured_text.
  destruct (ended req); [reflexivity |].
  rewrite fold_append.
  change ("" ++ String.concat "" (map (Buffer_toString rt) (chunks req)))%string
    with (String.concat "" (map (Buffer_toString rt) (chunks req))).
  cbv zeta.
  destruct (match header req "content-type" with
            | JSString ct => includes "application/json" ct
            | _ => false
            end); [| reflexivity].
  destruct (JSON_parse rt
              (String.concat "" (map (Buffer_toString rt) (chunks req))));
    reflexivity.
Qed.

(** What [captureRawBody] hands on: the stream had not ended, and
    [req.rawBody] is the text of the chunks, parsed or not. *)
Lemma captureRawBody_next req w w1 req1 :
  PaymentRoutes.captureRawBody rt req w
  = (w1, Returned (PaymentRoutes.Arrived (PaymentRoutes.Next req1))) ->
  w1 = w /\ ended req = false /\ headers req1 = headers req
  /\ rawBody req1 = JSString (captured_text rt req).
Proof.
  rewrite captureRawBody_eq.
  destruct (ended req); [discriminate |].
  destruct (json_content req).
  - destruct (JSON_parse rt (captured_text rt req));
      intro H; inversion H; subst; auto.
  - intro H. inversion H. subst. auto.
Qed.

(** On a stream that has ended the route does nothing at all. *)
Lemma post_webhook_ended req w :
  ended req = true ->
  PaymentRoutes.post_webhook rt req w = (w, Returned PaymentRoutes.Never).
Proof.
  intro H. unfold PaymentRoutes.post_webhook, PaymentRoutes.when_arrived, bind.
  rewrite captureRawBody_eq, H. reflexivity.
Qed.

Lemma dispatch_returns event : returns (PaymentController.dispatch event).
Proof.
  unfold PaymentController.dispatch, PaymentController.handleChargeSuccess,
    PaymentController.handleChargeFailed,
    PaymentController.handleTransferSuccess,
    PaymentController.handleTransferFailed.
  walk.
Qed.

Lemma parseWebhookEvent_pure event w :
  PaystackService.parseWebhookEvent event w
  = (w, snd (PaystackService.parseWebhookEvent event w)).
Proof.
  assert (H : fst (PaystackService.parseWebhookEvent event w) = w).
  { unfold PaystackService.parseWebhookEvent, bind, lift, ret, throw.
    destruct (negb (truthy event)); simpl; [reflexivity |].
    destruct (get_prop event "event") as [e | m]; simpl; [| reflexivity].
    destruct (negb (truthy e)); simpl; [reflexivity |].
    destruct (get_prop event "data") as [d | m]; simpl; [| reflexivity].
    repeat (match goal with
            | |- context [get_prop d ?k] => destruct (get_prop d k)
            end; simpl; try reflexivity). }
  destruct (PaystackService.parseWebhookEvent event w) as [w1 o].
  simpl in *. subst. reflexivity.
Qed.

Lemma parseWebhookEvent_same event w w' :
  snd (PaystackService.parseWebhookEvent event w)
  = snd (PaystackService.parseWebhookEvent event w').
Proof.
  assert (H : world_independent (PaystackService.parseWebhookEvent event)).
  { unfold PaystackService.parseWebhookEvent. walk. }
  apply H.
Qed.

(** [handleWebhook] on its own: 400 without a signature header, 401 when
    the verifier refuses, and 200 otherwise, with [success: true] exactly
    when the event could be parsed. *)
Lemma handleWebhook_answer req w :
  snd (PaymentController.handleWebhook rt req w)
  = Returned
      (if negb (truthy (header req "x-paystack-signature")) then
         webhook_missing_signature
       else if accepts rt (header req "x-paystack-signature")
                 (PaymentController.signed_payload rt req) then
         match snd (PaystackService.parseWebhookEvent (body req) w) with
         | Returned _ => webhook_processed
         | Thrown _ => webhook_processing_error
         end
       else webhook_invalid_signature).
Proof.
  unfold PaymentController.handleWebhook. cbv zeta.
  unfold header.
  destruct (assoc "x-paystack-signature" (headers req)) as [s |];
    [| reflexivity].
  simpl truthy. destruct (String.eqb s "") eqn:Hs; simpl negb; cbv iota;
    [reflexivity |].
  pose proof (verifyWebhookSignature_verdict rt (JSString s)
                (PaymentController.signed_payload rt req) w) as Hv.
  destruct (PaystackService.verifyWebhookSignature rt (JSString s)
              (PaymentController.signed_payload rt req) w) as [w1 o] eqn:E.
  simpl in Hv. subst o.
  rewrite (try_catch_bind_returned _ _ _ _ _ _ E).
  destruct (accepts rt (JSString s) (PaymentController.signed_payload rt req))
    eqn:Ha; simpl negb; cbv iota.
  - rewrite (parseWebhookEvent_same (body req) w w1).
    unfold try_catch, bind at 1.
    rewrite (parseWebhookEvent_pure (body req) w1).
    destruct (snd (PaystackService.parseWebhookEvent (body req) w1))
      as [ev | e].
    + unfold bind at 1. unfold logger at 1. cbv beta iota.
      unfold bind at 1.
      destruct (dispatch_returns ev
                  (mkWorld (orders w1)
                     (logs w1
                      ++ [mkLog info "Valid webhook received"
                            [("event", PaystackService.ev_event ev);
                             ("reference", PaystackService.ev_reference ev)]])
                     (outbound w1))) as [u Hu].
      destruct (PaymentController.dispatch ev _) as [w2 o2].
      simpl in Hu. subst o2. reflexivity.
    + reflexivity.
  - reflexivity.
Qed.

Lemma post_webhook_offline req : offline (PaymentRoutes.post_webhook rt req).
Proof.
  unfold PaymentRoutes.post_webhook, PaymentRoutes.when_arrived,
    PaymentRoutes.and_then,
    PaymentRoutes.captureRawBody, PaymentRoutes.verifyWebhookSignature,
    PaymentController.handleWebhook, PaystackService.verifyWebhookSignature,
    PaystackService.parseWebhookEvent, PaymentController.dispatch,
    PaymentController.handleChargeSuccess,
    PaymentController.handleChargeFailed,
    PaymentController.handleTransferSuccess,
    PaymentController.handleTransferFailed.
  walk.
Qed.

Lemma accepts_signed signature payload :
  accepts rt signature payload = true ->
  exists s data,
    signature = JSString s /\ s <> "" /\ payload = JSString data
    /\ data <> "" /\ s = hmac_sha512_hex rt (secretKey rt) data.
Proof.
  unfold accepts. intro H.
  apply andb_true_iff in H. destruct H as [H Hd].
  apply andb_true_iff in H. destruct H as [Hs Hb].
  destruct payload; try discriminate.
  destruct signature; try discriminate.
  simpl in *. apply String.eqb_eq in Hd.
  apply negb_true_iff in Hs, Hb.
  apply String.eqb_neq in Hs, Hb.
  eauto 10.
Qed.

(** What the handler hands to the verifier behind [captureRawBody]: the
    text of the chunks when there is one, else the serialized [req.body]. *)
Lemma signed_payload_behind_capture req req1 w w1 :
  PaymentRoutes.captureRawBody rt req w
  = (w1, Returned (PaymentRoutes.Arrived (PaymentRoutes.Next req1))) ->
  PaymentController.signed_payload rt req1
  = if String.eqb (captured_text rt req) ""
    then JSON_stringify rt (body req1)
    else JSString (captured_text rt req).
Proof.
  intro H. destruct (captureRawBody_next _ _ _ _ H) as (_ & _ & _ & Hr).
  unfold PaymentController.signed_payload, js_or. rewrite Hr. simpl.
  destruct (String.eqb (captured_text rt req) ""); reflexivity.
Qed.

(** The verdict on a header and a text, both not empty: the comparison of
    the header with the digest of the text. *)
Lemma accepts_text s data :
  s <> "" -> data <> "" ->
  accepts rt (JSString s) (JSString data)
  = String.eqb s (hmac_sha512_hex rt (secretKey rt) data).
Proof.
  intros Hs Hd. apply String.eqb_neq in Hs, Hd.
  unfold accepts. simpl. rewrite Hs, Hd. reflexivity.
Qed.

End Webhook.

(** ** Claims on the webhook *)

(** C4.  For every pair of a signature header and a body, whatever values
    they are, [verifyWebhookSignature] returns a boolean and throws nothing;
    it returns [true] exactly when the header is a non-empty string, the body
    is a non-empty string and the HMAC-SHA512 hex digest of the body equals
    the header, and [false] in every other case: header missing or empty,
    body missing or empty, digest different from the header. *)
Theorem verifyWebhookSignature_fails_closed :
  forall (rt : Runtime) (signature body : jsval) (w : World),
    snd (PaystackService.verifyWebhookSignature rt signature body w)
    = Returned (accepts rt signature body)
    /\ (accepts rt signature body = true <->
        exists s data,
          signature = JSString s /\ s <> "" /\
          body = JSString data /\ data <> "" /\
          s = hmac_sha512_hex rt (secretKey rt) data).
Proof.
  intros rt signature body w. split.
  - apply verifyWebhookSignature_verdict.
  - unfold accepts. split.
    + intro H.
      apply andb_true_iff in H. destruct H as [H Hd].
      apply andb_true_iff in H. destruct H as [Hs Hb].
      destruct body; try discriminate.
      destruct signature; try discriminate.
      simpl in *. apply String.eqb_eq in Hd.
      apply negb_true_iff in Hs, Hb.
      apply String.eqb_neq in Hs, Hb.
      eauto 10.
    + intros (s & data & -> & Hs & -> & Hd & He).
      apply String.eqb_neq in Hs, Hd. simpl.
      rewrite Hs, Hd, <- He, String.eqb_refl. reflexivity.
Qed.

(** What a body parser leaves of a post it takes: an error for the error
    handler, or a request whose stream has ended. *)
Lemma read_body_ends rt parse req :
  Server.read_body rt parse req = Server.Refused
  \/ (exists req1,
        Server.read_body rt parse req = Server.HandedOn req1
        /\ ended req1 = true /\ headers req1 = headers req).
Proof.
  unfold Server.read_body.
  destruct (Server.limit <? Z.of_nat (length (concat (chunks req))));
    [left; reflexivity |].
  cbv zeta.
  destruct (String.eqb (Buffer_toString rt (concat (chunks req))) "");
    [right; eexists; repeat split |].
  destruct (parse (Buffer_toString rt (concat (chunks req))));
    [right; eexists; repeat split | left; reflexivity].
Qed.

(** A request whose stream has ended goes through a parser as it is. *)
Lemma takes_unread mediaType req :
  ended req = true -> Server.takes mediaType req = false.
Proof. intro H. unfold Server.takes. rewrite H. reflexivity. Qed.

Lemma body_parsers_read rt req :
  Server.reads_json req = true \/ Server.reads_urlencoded req = true ->
  Server.body_parsers rt req = Server.Refused
  \/ (exists req1,
        Server.body_parsers rt req = Server.HandedOn req1
        /\ ended req1 = true /\ headers req1 = headers req).
Proof.
  unfold Server.body_parsers, Server.express_json.
  destruct (Server.reads_json req) eqn:Hj.
  - intros _.
    destruct (read_body_ends rt
                (fun text => if Server.strict_ok text then JSON_parse rt text
                             else Thrown "Unexpected token in JSON") req)
      as [E | (req1 & E & Hended & Hh)]; rewrite E; [left; reflexivity |].
    right. exists req1. unfold Server.express_urlencoded,
      Server.reads_urlencoded.
    rewrite (takes_unread _ _ Hended). auto.
  - intros [H | H]; [discriminate H |].
    unfold Server.express_urlencoded. rewrite H.
    apply read_body_ends.
Qed.

Lemma body_parsers_skip rt req :
  Server.reads_json req = false -> Server.reads_urlencoded req = false ->
  Server.body_parsers rt req = Server.HandedOn req.
Proof.
  intros Hj Hu.
  unfold Server.body_parsers, Server.express_json, Server.express_urlencoded.
  rewrite Hj, Hu. reflexivity.
Qed.

(** C2.  The webhook post of the provider, as [server.js] serves it.  The
    post has the media type [application/json], a body that is well-formed
    JSON and the signature of that body; [express.json()], mounted before
    the payments router, reads its stream and hands it on, [captureRawBody]
    then waits for events that never come, and the post is never answered:
    no 200.  The same post with a signature that does not verify is not
    answered either: no 401. *)
Theorem provider_webhook_is_not_answered :
  well_formed_json Sample.runtime
    (wire_text Sample.runtime (Sample.signed_post Sample.charge_success))
  /\ signature_verifies Sample.runtime
       (Sample.signed_post Sample.charge_success) = true
  /\ Server.webhook Sample.runtime (Sample.signed_post Sample.charge_success)
       Sample.world1
     = (Sample.world1, Returned (Server.ByRoute PaymentRoutes.Never))
  /\ signature_verifies Sample.runtime
       (Sample.forged_post Sample.charge_success) = false
  /\ Server.webhook Sample.runtime (Sample.forged_post Sample.charge_success)
       Sample.world1
     = (Sample.world1, Returned (Server.ByRoute PaymentRoutes.Never)).
Proof.
  split; [| repeat split; vm_compute; reflexivity].
  split.
  - vm_compute. discriminate.
  - exists Sample.charge_success. vm_compute. reflexivity.
Qed.

(** C3, as the claim words it, fails: a post without a body reaches the
    handler with an empty [rawBody], and the HMAC is computed over
    [JSON.stringify(req.body)]. *)
Lemma hmac_over_wire_bytes_fails : ~ hmac_over_wire_bytes Sample.runtime.
Proof.
  intro H.
  specialize (H Sample.empty_post
                (mkWebhookRequest (headers Sample.empty_post) [] true
                   (JSString "") (JSObject []))
                Sample.world1 Sample.world1 "{}").
  assert (E : "{}" = wire_text Sample.runtime Sample.empty_post).
  { apply H; vm_compute; reflexivity. }
  vm_compute in E. discriminate E.
Qed.

(** On that post the signature over the re-serialized body is accepted:
    the handler goes on to the event, which is none. *)
Example empty_post_accepted :
  snd (Server.webhook Sample.runtime Sample.empty_post Sample.world1)
  = Returned (Server.ByRoute (PaymentRoutes.Arrived webhook_processing_error)).
Proof. vm_compute. reflexivity. Qed.

(** C3 (amended).  For every webhook request whose stream reaches
    [captureRawBody], [req.rawBody] is the text of the chunks of the body,
    captured before the body is parsed and whether or not it is parsed.
    When that text is not empty the HMAC of the signature check is computed
    over it and over nothing else, and it is the text of the bytes of the
    body whenever no chunk ends within a character; when it is empty, the
    HMAC is computed over [JSON.stringify(req.body)]. *)
Theorem hmac_is_over_captured_body :
  forall (rt : Runtime) (req req1 : WebhookRequest) (w w1 : World) (s : string),
    PaymentRoutes.captureRawBody rt req w
    = (w1, Returned (PaymentRoutes.Arrived (PaymentRoutes.Next req1))) ->
    header req "x-paystack-signature" = JSString s -> s <> "" ->
    let verdict :=
      fun w' =>
        snd (PaystackService.verifyWebhookSignature rt
               (header req1 "x-paystack-signature")
               (PaymentController.signed_payload rt req1) w') in
    rawBody req1 = JSString (captured_text rt req)
    /\ (captured_text rt req <> "" ->
        hmac_input (header req1 "x-paystack-signature")
          (PaymentController.signed_payload rt req1)
        = Some (captured_text rt req)
        /\ (forall w',
              verdict w'
              = Returned
                  (String.eqb s
                     (hmac_sha512_hex rt (secretKey rt) (captured_text rt req))))
        /\ (whole_characters rt req ->
            forall w',
              verdict w'
              = Returned
                  (String.eqb s
                     (hmac_sha512_hex rt (secretKey rt) (wire_text rt req)))))
    /\ (captured_text rt req = "" ->
        forall text,
          JSON_stringify rt (body req1) = JSString text -> text <> "" ->
          hmac_input (header req1 "x-paystack-signature")
            (PaymentController.signed_payload rt req1)
          = Some text
          /\ forall w',
               verdict w'
               = Returned
                   (String.eqb s (hmac_sha512_hex rt (secretKey rt) text))).
Proof.
  intros rt req req1 w w1 s Hc Hs Hne verdict.
  destruct (captureRawBody_next rt req w w1 req1 Hc) as (_ & _ & Hh & Hr).
  pose proof (signed_payload_behind_capture rt req req1 w w1 Hc) as Hp.
  assert (Hs1 : header req1 "x-paystack-signature" = JSString s).
  { unfold header in *. rewrite Hh. exact Hs. }
  assert (Hin : forall data, data <> "" ->
                  hmac_input (JSString s) (JSString data) = Some data).
  { intros data Hd. apply String.eqb_neq in Hd.
    pose proof Hne as Hne'. apply String.eqb_neq in Hne'.
    unfold hmac_input. simpl. rewrite Hne', Hd. reflexivity. }
  assert (Hv : forall data w', data <> "" ->
                 snd (PaystackService.verifyWebhookSignature rt (JSString s)
                        (JSString data) w')
                 = Returned
                     (String.eqb s (hmac_sha512_hex rt (secretKey rt) data))).
  { intros data w' Hd. rewrite verifyWebhookSignature_verdict.
    rewrite accepts_text by assumption. reflexivity. }
  subst verdict. cbv beta. rewrite Hs1, Hp.
  split; [exact Hr |]. split.
  - intro Hraw. pose proof Hraw as Hraw'. apply String.eqb_neq in Hraw'.
    rewrite Hraw'. repeat split.
    + apply Hin. exact Hraw.
    + intro w'. apply Hv. exact Hraw.
    + intros Hwhole w'. unfold whole_characters in Hwhole.
      rewrite <- Hwhole. apply Hv. exact Hraw.
  - intros Hraw text Ht Htext. rewrite Hraw. simpl String.eqb. cbv iota.
    rewrite Ht. split; [apply Hin; exact Htext |].
    intro w'. apply Hv. exact Htext.
Qed.

Lemma hmac_is_over_captured_body_witness :
  hmac_input
    (header (Sample.at_router (Sample.unread_post Sample.charge_success))
       "x-paystack-signature")
    (JSString (Sample.text Sample.charge_success))
  = Some (Sample.text Sample.charge_success)
  /\ snd (PaystackService.verifyWebhookSignature Sample.runtime
            (JSString (Sample.hmac "sk_test_key"
                         (Sample.text Sample.charge_success)))
            (JSString (Sample.text Sample.charge_success)) Sample.world1)
     = Returned true.
Proof.
  destruct (hmac_is_over_captured_body Sample.runtime
              (Sample.unread_post Sample.charge_success)
              (mkWebhookRequest
                 (headers (Sample.unread_post Sample.charge_success))
                 (chunks (Sample.unread_post Sample.charge_success)) true
                 (JSString (Sample.text Sample.charge_success))
                 Sample.charge_success)
              Sample.world1 Sample.world1
              (Sample.hmac "sk_test_key" (Sample.text Sample.charge_success))
              eq_refl eq_refl)
    as (_ & Hraw & _).
  - discriminate.
  - destruct Hraw as (Hin & Hv & _).
    + vm_compute. discriminate.
    + split; [exact Hin | exact (Hv Sample.world1)].
Defined.

(** ** Claims on the Order store *)

(** C1, as the claim words it, fails: after a signed [charge.success]
    webhook and a verify call the provider answers with [success], both for
    the reference of an Order in [processing], no delivery has completed the
    Order. *)
Lemma exactly_one_completion_fails : ~ exactly_one_completion Sample.runtime.
Proof.
  intro H.
  destruct (H Sample.world1 "ref_abc123" Sample.order1
              [WebhookPost (Sample.at_router
                              (Sample.signed_post Sample.charge_success));
               VerifyCall (Sample.verify_call "ref_abc123")])
    as [Hcount _].
  - reflexivity.
  - reflexivity.
  - discriminate.
  - repeat constructor.
    + exists "application/json". split; reflexivity.
    + vm_compute. discriminate.
    + exists [("reference", JSString "ref_abc123");
              ("status", JSString "success");
              ("amount", JSNumber 1500000)].
      split; vm_compute; reflexivity.
    + exists Sample.paid. split; [| reflexivity].
      exists (Some "Verification successful"). vm_compute. reflexivity.
  - vm_compute in Hcount. discriminate Hcount.
Qed.

(** C1 (amended).  In every run of verify calls and webhook deliveries, for
    the same reference or not, no delivery performs the transition into
    [completed] (so at most one does): the handlers do not write the Order
    store, and every Order keeps its [paymentStatus], [paidAt] and
    [authorizationCode]. *)
Theorem deliveries_never_complete :
  forall (rt : Runtime) (reference : string) (ds : list Delivery) (w : World),
    (completions rt reference ds w <= 1)%nat
    /\ completions rt reference ds w = 0%nat
    /\ orders (fst (run rt ds w)) = orders w.
Proof.
  intros rt reference ds w.
  rewrite completions_zero. repeat split.
  - apply Nat.le_0_l.
  - apply run_orders.
Qed.

Section StaleWebhook.

Variable rt : Runtime.

(** What a signed [charge.success] webhook does when its stream reaches
    [captureRawBody] and no chunk ends within a character: two log lines
    and the answer 200, whatever the Order store holds. *)
Lemma charge_success_webhook reference req :
  success_delivery rt reference (WebhookPost req) ->
  ended req = false -> whole_characters rt req ->
  exists amount,
    forall w,
      PaymentRoutes.post_webhook rt req w
      = (mkWorld (orders w)
           (logs w ++ [mkLog info "Valid webhook received"
                         [("event", JSString "charge.success");
                          ("reference", JSString reference)];
                       mkLog info "Processing successful charge"
                         [("reference", JSString reference);
                          ("amount", amount)]])
           (outbound w),
         Returned (PaymentRoutes.Arrived webhook_processed)).
Proof.
  intros (Hsig & (ct & Hct & Hjson) & Hraw & data & Hparse & Href)
    Hended Hwhole.
  unfold whole_characters in Hwhole.
  unfold signature_verifies in Hsig.
  destruct (header req "x-paystack-signature") as [| | | | s | |] eqn:Hh;
    try discriminate.
  apply andb_true_iff in Hsig. destruct Hsig as [Hs He].
  apply negb_true_iff in Hs.
  apply String.eqb_eq in He.
  exists (match assoc "amount" data with Some x => x | None => JSUndefined end).
  intro w.
  unfold PaymentRoutes.post_webhook, PaymentRoutes.when_arrived.
  unfold bind at 1. rewrite captureRawBody_eq, Hended.
  unfold json_content. rewrite Hct, Hjson, Hwhole, Hparse.
  set (req1 := mkWebhookRequest (headers req) (chunks req) true
                 (JSString (wire_text rt req))
                 (JSObject [("event", JSString "charge.success");
                            ("data", JSObject data)])).
  assert (Hh1 : header req1 "x-paystack-signature" = JSString s)
    by (rewrite <- Hh; reflexivity).
  unfold PaymentRoutes.and_then, PaymentRoutes.verifyWebhookSignature.
  rewrite Hh1. simpl truthy. rewrite Hs. simpl negb. cbv iota.
  unfold bind at 2, ret at 1.
  unfold PaymentController.handleWebhook. cbv zeta.
  rewrite Hh1. simpl truthy. rewrite Hs. simpl negb. cbv iota.
  unfold PaymentController.signed_payload, js_or. simpl rawBody.
  simpl truthy.
  apply String.eqb_neq in Hraw. rewrite Hraw. simpl negb. cbv iota.
  apply String.eqb_neq in Hs. apply String.eqb_neq in Hraw.
  unfold bind at 1.
  rewrite (try_catch_bind_returned _ _ _ _ _ _
             (verifyWebhookSignature_accept rt s (wire_text rt req) w
                Hs Hraw He)).
  simpl negb. cbv iota. simpl body.
  unfold PaystackService.parseWebhookEvent, PaymentController.dispatch,
    PaymentController.handleChargeSuccess, try_catch, bind, lift, ret, logger.
  simpl. rewrite Href. simpl.
  rewrite <- app_assoc. reflexivity.
Qed.

End StaleWebhook.

(** C8, as the claim words it, fails: a signed [charge.success] webhook for
    the reference of a cancelled Order, its stream unread, is not discarded.
    The handler does not look at the Order: it writes [Processing successful
    charge] as it does for an Order in [processing]. *)
Lemma stale_webhook_discarded_fails : ~ stale_webhook_discarded Sample.runtime.
Proof.
  intro H.
  destruct (H Sample.world2 "ref_abc123" Sample.order2
              (Sample.unread_post Sample.charge_success))
    as (w' & resp & E & _ & _ & _ & Hlog).
  - reflexivity.
  - reflexivity.
  - repeat split.
    + exists "application/json-seq". split; reflexivity.
    + vm_compute. discriminate.
    + exists [("reference", JSString "ref_abc123");
              ("status", JSString "success");
              ("amount", JSNumber 1500000)].
      split; vm_compute; reflexivity.
  - vm_compute in E. inversion E. subst w'. clear E.
    vm_compute in Hlog. inversion Hlog as [| x l Hx Hl]. subst.
    inversion Hl as [| y l' Hy Hl']. subst. apply Hy. reflexivity.
Qed.

(** The same webhook for an Order in [processing] and for a cancelled
    Order: the same two lines, the same answer. *)
Example stale_webhook_like_live :
  let live := PaymentRoutes.post_webhook Sample.runtime
                (Sample.unread_post Sample.charge_success) Sample.world1 in
  let stale := PaymentRoutes.post_webhook Sample.runtime
                 (Sample.unread_post Sample.charge_success) Sample.world2 in
  snd stale = snd live
  /\ logs (fst stale) = logs (fst live)
  /\ map log_message (logs (fst stale))
     = ["Valid webhook received"; "Processing successful charge"]
  /\ orders (fst stale) = [Sample.order2].
Proof. vm_compute. repeat split. Qed.

(** The webhook of the provider for the reference of the cancelled Order,
    as [server.js] serves it: like every post of the media type
    [application/json] it is not answered, and nothing is logged. *)
Example stale_provider_webhook :
  Server.webhook Sample.runtime (Sample.signed_post Sample.charge_success)
    Sample.world2
  = (Sample.world2, Returned (Server.ByRoute PaymentRoutes.Never)).
Proof. vm_compute. reflexivity. Qed.

(** C8 (amended).  No run of verify calls and webhook deliveries changes the
    [paymentStatus] of an Order, in a terminal state or not: the handlers do
    not write the Order store, and a cancelled Order is never completed.  A
    signed [charge.success] webhook for the reference of an Order is not
    told from a stale one: when its stream reaches [captureRawBody], with no
    chunk ending within a character, it is logged as a successful charge and
    answered 200 in every world, whatever state the Order is in, and the
    Order store is left as it was. *)
Theorem webhooks_ignore_order_state :
  forall (rt : Runtime) (w : World) (reference : string) (o : Order),
    findOne reference (orders w) = Some o ->
    (forall ds : list (Runtime * Delivery),
        status_of reference (fst (run_each ds w)) = Some (paymentStatus o))
    /\ (forall req : WebhookRequest,
          success_delivery rt reference (WebhookPost req) ->
          ended req = false -> whole_characters rt req ->
          exists amount,
            forall w0 : World,
              PaymentRoutes.post_webhook rt req w0
              = (mkWorld (orders w0)
                   (logs w0
                    ++ [mkLog info "Valid webhook received"
                          [("event", JSString "charge.success");
                           ("reference", JSString reference)];
                        mkLog info "Processing successful charge"
                          [("reference", JSString reference);
                           ("amount", amount)]])
                   (outbound w0),
                 Returned (PaymentRoutes.Arrived webhook_processed))).
Proof.
  intros rt w reference o Hfind. split.
  - intro ds. unfold status_of. rewrite run_each_orders, Hfind. reflexivity.
  - intros req Hd Hended Hwhole.
    exact (charge_success_webhook rt reference req Hd Hended Hwhole).
Qed.

Lemma webhooks_ignore_order_state_witness :
  status_of "ref_abc123"
    (fst (run_each
            [(Sample.runtime,
              WebhookPost (Sample.unread_post Sample.charge_success));
             (Sample.runtime_down,
              VerifyCall (Sample.verify_call "ref_abc123"))]
            Sample.world2))
  = Some cancelled
  /\ exists amount,
       forall w0 : World,
         PaymentRoutes.post_webhook Sample.runtime
           (Sample.unread_post Sample.charge_success) w0
         = (mkWorld (orders w0)
              (logs w0
               ++ [mkLog info "Valid webhook received"
                     [("event", JSString "charge.success");
                      ("reference", JSString "ref_abc123")];
                   mkLog info "Processing successful charge"
                     [("reference", JSString "ref_abc123");
                      ("amount", amount)]])
              (outbound w0),
            Returned (PaymentRoutes.Arrived webhook_processed)).
Proof.
  destruct (webhooks_ignore_order_state Sample.runtime Sample.world2
              "ref_abc123" Sample.order2 eq_refl) as [Hkeep Hpost].
  split; [apply Hkeep |].
  apply Hpost.
  - repeat split.
    + exists "application/json-seq". split; reflexivity.
    + vm_compute. discriminate.
    + exists [("reference", JSString "ref_abc123");
              ("status", JSString "success");
              ("amount", JSNumber 1500000)].
      split; vm_compute; reflexivity.
  - reflexivity.
  - reflexivity.
Defined.

(** ** The initialize handler *)

Section OutboundFacts.

Context {A B : Type}.

Lemma outbound_bind (m : M A) (k : A -> M B) w :
  (forall a, offline (k a)) ->
  outbound (fst (bind m k w)) = outbound (fst (m w)).
Proof.
  intro Hk. unfold bind. destruct (m w) as [w1 [a | e]]; simpl.
  - apply Hk.
  - reflexivity.
Qed.

Lemma outbound_try_catch (m : M A) (h : string -> M A) w :
  (forall e, offline (h e)) ->
  outbound (fst (try_catch m h w)) = outbound (fst (m w)).
Proof.
  intro Hh. unfold try_catch. destruct (m w) as [w1 [a | e]]; simpl.
  - reflexivity.
  - apply Hh.
Qed.

Lemma outbound_send c (k : unit -> M B) w :
  (forall u, offline (k u)) ->
  outbound (fst (bind (send c) k w)) = outbound w ++ [c].
Proof. intro Hk. unfold bind, send. simpl. apply Hk. Qed.

End OutboundFacts.

Lemma Math_round_nearest (q : Q) :
  (inject_Z (Math_round q) <= q + (1 # 2))%Q
  /\ (q + (1 # 2) < inject_Z (Math_round q + 1))%Q.
Proof.
  unfold Math_round. split.
  - apply Qfloor_le.
  - apply Qlt_floor.
Qed.

Section Initialize.

Variable rt : Runtime.

Lemma initializeTransaction_outbound email amount metadata w :
  paystackConfig.minAmount <= amount <= paystackConfig.maxAmount ->
  outbound (fst (PaystackService.initializeTransaction rt email amount
                   metadata w))
  = outbound w
    ++ [AxiosPost (paystackConfig.baseUrl ++ "/transaction/initialize")%string
          (mkInitializePayload email amount metadata
             (CLIENT_URL rt ++ "/payment/callback")%string)].
Proof.
  intros [Hlo Hhi].
  unfold PaystackService.initializeTransaction.
  apply Z.ltb_ge in Hlo. rewrite Hlo.
  assert (Hgt : (amount >? paystackConfig.maxAmount) = false).
  { rewrite Z.gtb_ltb. apply Z.ltb_ge. exact Hhi. }
  rewrite Hgt. cbv zeta.
  rewrite outbound_try_catch by walk.
  apply outbound_send. walk.
Qed.

(** Out of range: 400, and the world is as it was. *)
Lemma initializePayment_out_of_range req w :
  let kobo := PaymentController.amountInKobo_of
                (PaymentController.orderTotal_of (req_amount req)) in
  kobo < 10000 \/ 50000000 < kobo ->
  exists resp,
    PaymentController.initializePayment rt req w = (w, Returned resp)
    /\ status resp = 400.
Proof.
  intros kobo Hr. unfold PaymentController.initializePayment, try_catch.
  cbv zeta. fold kobo.
  destruct (negb (truthy (orderId req)) || negb (is_string (orderId req))).
  - eexists. split; reflexivity.
  - destruct (kobo <? 10000) eqn:Hlo.
    + eexists. split; reflexivity.
    + destruct (kobo >? 50000000) eqn:Hhi.
      * eexists. split; reflexivity.
      * apply Z.ltb_ge in Hlo. rewrite Z.gtb_ltb in Hhi.
        apply Z.ltb_ge in Hhi. lia.
Qed.

(** In range: the provider is called with the amount in kobo. *)
Lemma initializePayment_in_range req w :
  let kobo := PaymentController.amountInKobo_of
                (PaymentController.orderTotal_of (req_amount req)) in
  10000 <= kobo <= 50000000 ->
  orderId_ok req = true ->
  outbound (fst (PaymentController.initializePayment rt req w))
  = outbound w ++ [initialize_call rt req].
Proof.
  intros kobo [Hlo Hhi] Hid.
  unfold orderId_ok in Hid. apply andb_true_iff in Hid.
  destruct Hid as [Ht Hs].
  unfold PaymentController.initializePayment. cbv zeta. fold kobo.
  rewrite Ht, Hs. simpl orb. cbv iota.
  pose proof Hlo as Hlo'. apply Z.ltb_ge in Hlo'. rewrite Hlo'.
  assert (Hgt : (kobo >? 50000000) = false).
  { rewrite Z.gtb_ltb. apply Z.ltb_ge. exact Hhi. }
  rewrite Hgt.
  rewrite outbound_try_catch by walk.
  rewrite outbound_bind by walk.
  apply initializeTransaction_outbound.
  unfold paystackConfig.minAmount, paystackConfig.maxAmount. lia.
Qed.

End Initialize.

(** C5.  An initialize request whose amount in kobo, [Math.round] of the
    product of the doubles [orderTotal] and 100, is below 10000 or above
    50000000 is answered 400 with nothing sent to the provider, nothing
    logged and the Order store untouched (the Order stays as it was and gets
    no reference); an amount from 10000 to 50000000 kobo passes the check of
    the controller and that of the service, and the provider is called with
    it. *)
Theorem amount_range_check :
  forall (rt : Runtime) (req : InitializeRequest) (w : World),
    let kobo := PaymentController.amountInKobo_of
                  (PaymentController.orderTotal_of (req_amount req)) in
    (kobo < paystackConfig.minAmount \/ paystackConfig.maxAmount < kobo ->
     exists resp,
       PaymentController.initializePayment rt req w = (w, Returned resp)
       /\ status resp = 400)
    /\ (paystackConfig.minAmount <= kobo <= paystackConfig.maxAmount ->
        orderId_ok req = true ->
        outbound (fst (PaymentController.initializePayment rt req w))
        = outbound w ++ [initialize_call rt req]).
Proof.
  intros rt req w kobo. split.
  - apply initializePayment_out_of_range.
  - apply initializePayment_in_range.
Qed.

Lemma amount_range_check_witness :
  (exists resp,
     PaymentController.initializePayment Sample.runtime
       (Sample.initialize_request (Some 50%Q)) Sample.world1
     = (Sample.world1, Returned resp)
     /\ status resp = 400)
  /\ outbound (fst (PaymentController.initializePayment Sample.runtime
                      (Sample.initialize_request (Some 15000%Q)) Sample.world1))
     = outbound Sample.world1
       ++ [initialize_call Sample.runtime
             (Sample.initialize_request (Some 15000%Q))].
Proof.
  split.
  - apply (proj1 (amount_range_check Sample.runtime
                    (Sample.initialize_request (Some 50%Q)) Sample.world1)).
    left. vm_compute. reflexivity.
  - apply (proj2 (amount_range_check Sample.runtime
                    (Sample.initialize_request (Some 15000%Q)) Sample.world1)).
    + vm_compute. split; intro H; discriminate H.
    + reflexivity.
Defined.

(** The scenario of the specification: 50 naira is refused with the message
    of the floor. *)
Example amount_50_refused :
  PaymentController.initializePayment Sample.runtime
    (Sample.initialize_request (Some 50%Q)) Sample.world1
  = (Sample.world1,
     Returned (respond 400
                 [("success", JSBool false);
                  ("message", JSString "Order amount must be at least ₦100")])).
Proof. vm_compute. reflexivity. Qed.

(** The conversion at two amounts whose product with 100 is no double:
    128.015 naira are 12801 kobo and 100.005 naira are 10001 kobo, as the
    multiplication of the source rounds them. *)
Example kobo_of_128_015 :
  PaymentController.amountInKobo_of (128015 # 1000) = 12801
  /\ PaymentController.amountInKobo_of (100005 # 1000) = 10001.
Proof. split; vm_compute; reflexivity. Qed.

Section DefaultTotal.

Variable rt : Runtime.

Lemma orderTotal_of_falsy amount :
  amount = None \/ (exists q, amount = Some q /\ (q == 0)%Q) ->
  PaymentController.orderTotal_of amount = 10000%Q.
Proof.
  intros [-> | (q & -> & Hq)]; [reflexivity |].
  unfold PaymentController.orderTotal_of, double.
  replace (Qnum q =? 0) with true; [reflexivity |].
  symmetry. apply Z.eqb_eq. unfold Qeq in Hq. simpl in Hq. lia.
Qed.

(** The answer of the handler when the provider accepts the
    initialization. *)
Lemma initializePayment_accepted req w m d :
  let total := PaymentController.orderTotal_of (req_amount req) in
  let kobo := PaymentController.amountInKobo_of total in
  10000 <= kobo <= 50000000 ->
  orderId_ok req = true ->
  match initialize_call rt req with
  | AxiosPost url payload =>
      axios_post rt url payload = Returned (mkEnvelope true m (Some d))
  | AxiosGet _ => False
  end ->
  snd (PaymentController.initializePayment rt req w)
  = Returned
      (respond 200
         [("success", JSBool true);
          ("message", JSString "Payment initialization successful");
          ("data", JSObject
             [("authorizationUrl", JSString (authorization_url d));
              ("accessCode", JSString (access_code d));
              ("reference", JSString (init_reference d));
              ("amount", JSNumber total);
              ("amountInKobo", JSNumber (inject_Z kobo))])]).
Proof.
  intros total kobo [Hlo Hhi] Hid Hpost.
  unfold orderId_ok in Hid. apply andb_true_iff in Hid.
  destruct Hid as [Ht Hs].
  unfold initialize_call in Hpost. fold total kobo in Hpost.
  unfold PaymentController.initializePayment. cbv zeta. fold total kobo.
  rewrite Ht, Hs. simpl orb. cbv iota.
  pose proof Hlo as Hlo'. apply Z.ltb_ge in Hlo'. rewrite Hlo'.
  assert (Hgt : (kobo >? 50000000) = false).
  { rewrite Z.gtb_ltb. apply Z.ltb_ge. exact Hhi. }
  rewrite Hgt.
  unfold PaystackService.initializeTransaction.
  unfold paystackConfig.minAmount, paystackConfig.maxAmount.
  rewrite Hlo', Hgt. cbv zeta.
  unfold try_catch, bind, send, lift. cbv beta iota. rewrite Hpost.
  reflexivity.
Qed.

End DefaultTotal.

(** C10.  When the initialize request has no amount, or the amount 0, the
    controller takes 10000 naira as the order total, whatever the Order store
    holds: the amount in kobo is [Math.round(10000 * 100)] = 1000000, the
    provider is called with 1000000, and the answer reports the amount 10000
    and 1000000 kobo. *)
Theorem default_order_total :
  forall (rt : Runtime) (req : InitializeRequest) (w : World),
    req_amount req = None
    \/ (exists q, req_amount req = Some q /\ (q == 0)%Q) ->
    orderId_ok req = true ->
    PaymentController.orderTotal_of (req_amount req) = 10000%Q
    /\ PaymentController.amountInKobo_of
         (PaymentController.orderTotal_of (req_amount req))
       = Math_round (10000 * 100)
    /\ Math_round (10000 * 100) = 1000000
    /\ (exists payload,
          amount payload = 1000000
          /\ outbound (fst (PaymentController.initializePayment rt req w))
             = outbound w
               ++ [AxiosPost
                     (paystackConfig.baseUrl ++ "/transaction/initialize")%string
                     payload]
          /\ forall m d,
               axios_post rt
                 (paystackConfig.baseUrl ++ "/transaction/initialize")%string
                 payload
               = Returned (mkEnvelope true m (Some d)) ->
               snd (PaymentController.initializePayment rt req w)
               = Returned
                   (respond 200
                      [("success", JSBool true);
                       ("message",
                        JSString "Payment initialization successful");
                       ("data", JSObject
                          [("authorizationUrl", JSString (authorization_url d));
                           ("accessCode", JSString (access_code d));
                           ("reference", JSString (init_reference d));
                           ("amount", JSNumber 10000);
                           ("amountInKobo", JSNumber (inject_Z 1000000))])])).
Proof.
  intros rt req w Hfalsy Hid.
  pose proof (orderTotal_of_falsy (req_amount req) Hfalsy) as Ht.
  assert (Hk : PaymentController.amountInKobo_of
                 (PaymentController.orderTotal_of (req_amount req)) = 1000000).
  { rewrite Ht. reflexivity. }
  split; [exact Ht |]. split; [rewrite Ht; reflexivity |].
  split; [reflexivity |].
  eexists. split; [| split].
  - shelve.
  - rewrite (initializePayment_in_range rt req w); [| rewrite Hk; lia | exact Hid].
    unfold initialize_call. reflexivity.
  - intros m d Hpost.
    rewrite (initializePayment_accepted rt req w m d);
      [| rewrite Hk; lia | exact Hid | exact Hpost].
    cbv zeta. rewrite Hk, Ht. reflexivity.
  Unshelve. simpl. exact Hk.
Qed.

Lemma default_order_total_witness :
  PaymentController.orderTotal_of (req_amount (Sample.initialize_request None))
  = 10000%Q
  /\ exists payload,
       amount payload = 1000000
       /\ outbound (fst (PaymentController.initializePayment Sample.runtime
                           (Sample.initialize_request None) Sample.world1))
          = [AxiosPost "https://api.paystack.co/transaction/initialize" payload].
Proof.
  destruct (default_order_total Sample.runtime (Sample.initialize_request None)
              Sample.world1 (or_introl eq_refl) eq_refl)
    as (Ht & _ & _ & payload & Ha & Ho & _).
  split; [exact Ht |].
  exists payload. split; [exact Ha | exact Ho].
Defined.

(** ** The verify endpoint *)

Section Verify.

Variable rt : Runtime.

Lemma length_ok_string reference :
  length_ok reference = true ->
  exists s, reference = JSString s
            /\ 5 <= Z.of_nat (String.length s) <= 255.
Proof.
  destruct reference; try discriminate. simpl. intro H.
  apply andb_true_iff in H. destruct H as [H1 H2].
  apply Z.leb_le in H1, H2. eauto.
Qed.

Lemma nonempty_of_length s : 5 <= Z.of_nat (String.length s) -> s <> "".
Proof. intros H ->. simpl in H. lia. Qed.

Lemma length_ok_validate reference :
  length_ok reference = true ->
  PaymentRoutes.validate_reference reference = None.
Proof.
  intro H. destruct (length_ok_string _ H) as (s & -> & Hlo & Hhi).
  simpl. apply nonempty_of_length in Hlo as Hne.
  apply String.eqb_neq in Hne. rewrite Hne.
  apply Z.ltb_ge in Hlo. rewrite Hlo.
  rewrite Z.gtb_ltb. apply Z.ltb_ge in Hhi. rewrite Hhi. reflexivity.
Qed.

Lemma validate_length_ok reference :
  PaymentRoutes.validate_reference reference = None ->
  length_ok reference = true.
Proof.
  destruct reference; try discriminate. simpl.
  destruct (String.eqb s ""); [discriminate |].
  destruct (Z.of_nat (String.length s) <? 5) eqn:Hlo; [discriminate |].
  destruct (Z.of_nat (String.length s) >? 255) eqn:Hhi; [discriminate |].
  intros _. apply Z.ltb_ge in Hlo. rewrite Z.gtb_ltb in Hhi.
  apply Z.ltb_ge in Hhi.
  apply andb_true_iff. split; apply Z.leb_le; assumption.
Qed.

Lemma length_ok_valid reference :
  length_ok reference = true ->
  truthy reference = true
  /\ PaystackService.invalid_reference reference = false.
Proof.
  intro H. destruct (length_ok_string _ H) as (s & -> & Hlo & Hhi).
  apply nonempty_of_length in Hlo as Hne.
  apply String.eqb_neq in Hne.
  unfold PaystackService.invalid_reference. simpl. rewrite Hne. simpl.
  split; [reflexivity |]. apply Z.ltb_ge. exact Hlo.
Qed.

(** The service refuses a reference of the wrong shape before it calls
    the provider. *)
Lemma verifyTransaction_invalid reference w :
  PaystackService.invalid_reference reference = true ->
  PaystackService.verifyTransaction rt reference w
  = (mkWorld (orders w)
       (logs w ++ [mkLog error "Paystack verification error"
                     [("error", JSString "Invalid transaction reference");
                      ("reference", reference)]])
       (outbound w),
     Thrown "Invalid transaction reference").
Proof.
  intro H. unfold PaystackService.verifyTransaction. rewrite H.
  reflexivity.
Qed.

(** Whatever the provider answers, a reference of the right length is
    sent to it. *)
Lemma verifyTransaction_outbound reference w :
  PaystackService.invalid_reference reference = false ->
  outbound (fst (PaystackService.verifyTransaction rt reference w))
  = outbound w ++ [AxiosGet (PaystackService.verify_url rt reference)].
Proof.
  intro H. unfold PaystackService.verifyTransaction. rewrite H. cbv zeta.
  rewrite outbound_try_catch by walk.
  apply outbound_send. walk.
Qed.

Lemma post_verify_outbound req w :
  length_ok (param_reference req) = true ->
  outbound (fst (PaymentRoutes.post_verify rt req w))
  = outbound w
    ++ [AxiosGet (PaystackService.verify_url rt (param_reference req))].
Proof.
  intro H. destruct (length_ok_valid _ H) as [Ht Hv].
  unfold PaymentRoutes.post_verify, PaymentRoutes.and_then,
    PaymentRoutes.validateVerifyPayment.
  rewrite (length_ok_validate _ H).
  unfold bind at 1, ret at 1.
  unfold PaymentController.verifyPayment. cbv zeta. rewrite Ht.
  simpl negb. cbv iota.
  rewrite outbound_try_catch by walk.
  rewrite outbound_bind by walk.
  apply verifyTransaction_outbound. exact Hv.
Qed.

Lemma post_verify_refused req w :
  length_ok (param_reference req) = false ->
  exists resp,
    PaymentRoutes.post_verify rt req w = (w, Returned resp)
    /\ status resp = 400.
Proof.
  intro H.
  unfold PaymentRoutes.post_verify, PaymentRoutes.and_then,
    PaymentRoutes.validateVerifyPayment.
  destruct (PaymentRoutes.validate_reference (param_reference req)) eqn:E.
  - eexists. split; reflexivity.
  - apply validate_length_ok in E. congruence.
Qed.

(** The endpoint on a transaction the provider reports. *)
Lemma post_verify_reported req w m tx :
  length_ok (param_reference req) = true ->
  axios_get rt (PaystackService.verify_url rt (param_reference req))
  = Returned (mkEnvelope true m (Some tx)) ->
  snd (PaymentRoutes.post_verify rt req w) = Returned (verify_answer tx)
  /\ orders (fst (PaymentRoutes.post_verify rt req w)) = orders w.
Proof.
  intros H Hget. split; [| apply post_verify_orders].
  destruct (length_ok_valid _ H) as [Ht Hv].
  unfold PaymentRoutes.post_verify, PaymentRoutes.and_then,
    PaymentRoutes.validateVerifyPayment.
  rewrite (length_ok_validate _ H).
  unfold bind at 1, ret at 1.
  unfold PaymentController.verifyPayment. cbv zeta. rewrite Ht.
  simpl negb. cbv iota.
  unfold PaystackService.verifyTransaction. rewrite Hv. cbv zeta.
  unfold try_catch, bind, send, lift. cbv beta iota. rewrite Hget.
  unfold verify_answer. simpl.
  destruct (String.eqb (tx_status tx) "success"); reflexivity.
Qed.

(** The endpoint when the provider reports no transaction: the call is
    refused, fails, or comes back without data. *)
Lemma post_verify_unreported req w :
  length_ok (param_reference req) = true ->
  (forall m tx,
      axios_get rt (PaystackService.verify_url rt (param_reference req))
      <> Returned (mkEnvelope true m (Some tx))) ->
  exists resp,
    snd (PaymentRoutes.post_verify rt req w) = Returned resp
    /\ status resp = 500.
Proof.
  intros H Hget.
  destruct (length_ok_valid _ H) as [Ht Hv].
  unfold PaymentRoutes.post_verify, PaymentRoutes.and_then,
    PaymentRoutes.validateVerifyPayment.
  rewrite (length_ok_validate _ H).
  unfold bind at 1, ret at 1.
  unfold PaymentController.verifyPayment. cbv zeta. rewrite Ht.
  simpl negb. cbv iota.
  unfold PaystackService.verifyTransaction. rewrite Hv. cbv zeta.
  unfold try_catch, bind, send, lift. cbv beta iota.
  destruct (axios_get rt
              (PaystackService.verify_url rt (param_reference req)))
    as [[[|] m [tx |]] | e] eqn:E;
    try (exfalso; exact (Hget m tx eq_refl));
    simpl; eexists; split; reflexivity.
Qed.

End Verify.

(** C9.  When the provider reports a transaction for the reference, the
    verify endpoint answers 400 with [success: false] and the status of the
    provider whenever that status is not ['success'], and 200 with the status,
    the amount and [paidAt] when it is ['success']; and it answers 200 only
    when the provider reported ['success']. *)
Theorem verify_endpoint_status :
  forall (rt : Runtime) (req : VerifyRequest) (w : World),
    (forall m tx,
        length_ok (param_reference req) = true ->
        axios_get rt (PaystackService.verify_url rt (param_reference req))
        = Returned (mkEnvelope true m (Some tx)) ->
        (tx_status tx <> "success" ->
         snd (PaymentRoutes.post_verify rt req w)
         = Returned
             (respond 400
                [("success", JSBool false);
                 ("message", JSString "Payment verification failed");
                 ("status", JSString (tx_status tx))]))
        /\ (tx_status tx = "success" ->
            snd (PaymentRoutes.post_verify rt req w)
            = Returned
                (respond 200
                   [("success", JSBool true);
                    ("message", JSString "Payment verified successfully");
                    ("data", JSObject
                       [("status", JSString "success");
                        ("amount", JSNumber (inject_Z (tx_amount tx) / 100));
                        ("depositPaid", JSBool true);
                        ("paidAt", nullable (tx_paid_at tx))])])))
    /\ (forall resp,
          snd (PaymentRoutes.post_verify rt req w) = Returned resp ->
          status resp = 200 ->
          exists m tx,
            axios_get rt (PaystackService.verify_url rt (param_reference req))
            = Returned (mkEnvelope true m (Some tx))
            /\ tx_status tx = "success").
Proof.
  intros rt req w. split.
  - intros m tx Hlen Hget.
    destruct (post_verify_reported rt req w m tx Hlen Hget) as [Hr _].
    rewrite Hr. unfold verify_answer. split; intro Hs.
    + apply String.eqb_neq in Hs. rewrite Hs. reflexivity.
    + rewrite Hs. reflexivity.
  - intros resp Hr H200.
    destruct (length_ok (param_reference req)) eqn:Hlen.
    + destruct (axios_get rt
                  (PaystackService.verify_url rt (param_reference req)))
        as [[[|] m [tx |]] | e] eqn:Hget.
      2-5: destruct (post_verify_unreported rt req w Hlen) as (r & Hr' & H500);
        [ intros m' tx' H'; rewrite Hget in H'; discriminate H'
        | rewrite Hr' in Hr; inversion Hr; subst r; lia ].
      destruct (post_verify_reported rt req w m tx Hlen Hget) as [Hr' _].
      rewrite Hr' in Hr. inversion Hr. subst resp.
      exists m, tx. split; [reflexivity |].
      unfold verify_answer in H200.
      destruct (String.eqb (tx_status tx) "success") eqn:Hs.
      * apply String.eqb_eq. exact Hs.
      * discriminate H200.
    + destruct (post_verify_refused rt req w Hlen) as (resp' & E & H400).
      rewrite E in Hr. simpl in Hr. inversion Hr. subst resp'. lia.
Qed.

Lemma verify_endpoint_status_witness :
  snd (PaymentRoutes.post_verify Sample.runtime
         (Sample.verify_call "ref_open1") Sample.world1)
  = Returned
      (respond 400
         [("success", JSBool false);
          ("message", JSString "Payment verification failed");
          ("status", JSString "abandoned")]).
Proof.
  refine (proj1 (proj1 (verify_endpoint_status Sample.runtime
                          (Sample.verify_call "ref_open1") Sample.world1)
                   (Some "Verification successful") Sample.abandoned
                   eq_refl eq_refl) _).
  vm_compute. intro H. discriminate H.
Defined.

(** C6, as the claim words it, fails: a reference of five characters that
    are not reference characters passes both checks and is sent to the
    provider. *)
Lemma shape_checked_before_network_fails :
  ~ shape_checked_before_network Sample.runtime.
Proof.
  intro H.
  specialize (H (Sample.verify_call "#$%^&") Sample.world1 eq_refl).
  vm_compute in H. discriminate H.
Qed.

Example odd_reference_is_sent :
  outbound (fst (PaymentRoutes.post_verify Sample.runtime
                   (Sample.verify_call "#$%^&") Sample.world1))
  = [AxiosGet "https://api.paystack.co/transaction/verify/%23%24%25%5E%26"].
Proof. vm_compute. reflexivity. Qed.

(** C6 (amended).  The shape check is on the type and the length of the
    reference only.  A reference that is not a string of 5 to 255 code units
    is answered 400 by the route with nothing sent to the provider and the
    world as it was, and the service throws [Invalid transaction reference]
    before its call for a reference that is not a string of at least 5 code
    units; every string of 5 to 255 code units, whatever its characters, is
    sent to the provider. *)
Theorem reference_length_checked_before_network :
  forall (rt : Runtime) (req : VerifyRequest) (w : World),
    (length_ok (param_reference req) = false ->
     exists resp,
       PaymentRoutes.post_verify rt req w = (w, Returned resp)
       /\ status resp = 400)
    /\ (PaystackService.invalid_reference (param_reference req) = true ->
        snd (PaystackService.verifyTransaction rt (param_reference req) w)
        = Thrown "Invalid transaction reference"
        /\ outbound (fst (PaystackService.verifyTransaction rt
                            (param_reference req) w))
           = outbound w)
    /\ (length_ok (param_reference req) = true ->
        outbound (fst (PaymentRoutes.post_verify rt req w))
        = outbound w
          ++ [AxiosGet (PaystackService.verify_url rt (param_reference req))]).
Proof.
  intros rt req w. split; [| split].
  - apply post_verify_refused.
  - intro H. rewrite (verifyTransaction_invalid rt _ w H). split; reflexivity.
  - apply post_verify_outbound.
Qed.

Lemma reference_length_checked_before_network_witness :
  (exists resp,
     PaymentRoutes.post_verify Sample.runtime (Sample.verify_call "ref1")
       Sample.world1
     = (Sample.world1, Returned resp)
     /\ status resp = 400)
  /\ outbound (fst (PaymentRoutes.post_verify Sample.runtime
                      (Sample.verify_call "#$%^&") Sample.world1))
     = outbound Sample.world1
       ++ [AxiosGet (PaystackService.verify_url Sample.runtime
                       (JSString "#$%^&"))].
Proof.
  split.
  - exact (proj1 (reference_length_checked_before_network Sample.runtime
                    (Sample.verify_call "ref1") Sample.world1) eq_refl).
  - exact (proj2 (proj2 (reference_length_checked_before_network
                           Sample.runtime (Sample.verify_call "#$%^&")
                           Sample.world1)) eq_refl).
Defined.

(** ** Repeated verification *)

Section Repeated.

Variable rt : Runtime.

Lemma deliver_verify req w :
  deliver rt (VerifyCall req) w
  = (fst (PaymentRoutes.post_verify rt req w),
     match snd (PaymentRoutes.post_verify rt req w) with
     | Returned resp => Returned (PaymentRoutes.Arrived resp)
     | Thrown e => Thrown e
     end).
Proof.
  unfold deliver, bind, ret.
  destruct (PaymentRoutes.post_verify rt req w) as [w1 [resp | e]];
    reflexivity.
Qed.

End Repeated.

Lemma run_each_cons rt d ds w :
  run_each ((rt, d) :: ds) w
  = (fst (run_each ds (fst (deliver rt d w))),
     snd (deliver rt d w) :: snd (run_each ds (fst (deliver rt d w)))).
Proof.
  simpl. destruct (deliver rt d w) as [w1 r]. simpl.
  destruct (run_each ds w1) as [w2 rs]. reflexivity.
Qed.

(** C7, as the claim words it, fails: the Order of the reference is
    completed, and of two verify calls for it the first is answered 200 with
    the transaction of the provider, the second, made while the provider does
    not answer, 500. *)
Lemma verify_idempotent_once_completed_fails :
  ~ verify_idempotent_once_completed.
Proof.
  intro H.
  destruct (H Sample.world3 "ref_abc123" Sample.order3
              [(Sample.runtime, Sample.verify_call "ref_abc123");
               (Sample.runtime_down, Sample.verify_call "ref_abc123")])
    as [[answer Hall] _].
  - reflexivity.
  - reflexivity.
  - repeat constructor.
  - vm_compute in Hall.
    inversion Hall as [| r1 l1 H1 Hrest]. subst.
    inversion Hrest as [| r2 l2 H2 _]. subst.
    rewrite <- H1 in H2. discriminate H2.
Qed.

(** The two answers of that run. *)
Example verify_twice_completed :
  map (fun r => match r with
                | Returned (PaymentRoutes.Arrived resp) => status resp
                | _ => 0
                end)
      (snd (run_each
              [(Sample.runtime, VerifyCall (Sample.verify_call "ref_abc123"));
               (Sample.runtime_down,
                VerifyCall (Sample.verify_call "ref_abc123"))]
              Sample.world3))
  = [200; 500].
Proof. vm_compute. reflexivity. Qed.

(** Nor need the provider fail: once it reports the payment as reversed,
    the verify call for the completed Order is answered 400. *)
Example verify_after_reversal :
  map (fun r => match r with
                | Returned (PaymentRoutes.Arrived resp) => status resp
                | _ => 0
                end)
      (snd (run_each
              [(Sample.runtime, VerifyCall (Sample.verify_call "ref_abc123"));
               (Sample.runtime_reversed,
                VerifyCall (Sample.verify_call "ref_abc123"))]
              Sample.world3))
  = [200; 400].
Proof. vm_compute. reflexivity. Qed.

(** C7 (amended).  The verify endpoint does not look at the Order: for a
    reference whose Order is completed or not, every call asks the provider
    again and answers from what the provider says then.  [n] successive
    calls for a reference the provider reports as paid with the same
    transaction at each of them are each answered 200 with the same status
    [success], amount and [paidAt]; each sends one request to the provider,
    and none changes the Order store. *)
Theorem verify_relays_the_provider :
  forall (reference userId : string) (tx : Transaction) (rts : list Runtime)
         (w : World),
    length_ok (JSString reference) = true ->
    Forall (fun rt => paid_at_provider rt reference tx) rts ->
    let req := mkVerifyRequest (JSString reference) userId in
    let calls := map (fun rt => (rt, VerifyCall req)) rts in
    snd (run_each calls w)
    = map (fun _ =>
             Returned
               (PaymentRoutes.Arrived
                  (respond 200
                     [("success", JSBool true);
                      ("message", JSString "Payment verified successfully");
                      ("data", JSObject
                         [("status", JSString "success");
                          ("amount", JSNumber (inject_Z (tx_amount tx) / 100));
                          ("depositPaid", JSBool true);
                          ("paidAt", nullable (tx_paid_at tx))])])))
          rts
    /\ orders (fst (run_each calls w)) = orders w
    /\ outbound (fst (run_each calls w))
       = outbound w
         ++ map (fun rt =>
                   AxiosGet (PaystackService.verify_url rt (JSString reference)))
                rts.
Proof.
  intros reference userId tx rts w Hlen Hpaid req calls.
  split; [| split; [apply run_each_orders |]]; subst calls;
    revert w; induction Hpaid as [| rt rts [[m Hget] Hs] _ IH]; intro w;
    try reflexivity.
  - cbn [map]. rewrite run_each_cons, deliver_verify.
    destruct (post_verify_reported rt req w m tx Hlen Hget) as [Hr _].
    rewrite Hr. specialize (IH (fst (PaymentRoutes.post_verify rt req w))).
    destruct (run_each _ _) as [w2 rs]. cbn [snd] in *. rewrite IH.
    unfold verify_answer. rewrite Hs. reflexivity.
  - cbn [map run_each fst]. symmetry. apply app_nil_r.
  - cbn [map]. rewrite run_each_cons, deliver_verify.
    specialize (IH (fst (PaymentRoutes.post_verify rt req w))).
    destruct (run_each _ _) as [w2 rs]. cbn [fst] in *. rewrite IH.
    rewrite (post_verify_outbound rt req w Hlen).
    rewrite <- app_assoc. reflexivity.
Qed.

Lemma verify_relays_the_provider_witness :
  snd (run_each
         (map (fun rt =>
                 (rt, VerifyCall (mkVerifyRequest (JSString "ref_abc123")
                                    "user1")))
              [Sample.runtime; Sample.runtime; Sample.runtime])
         Sample.world3)
  = map (fun _ =>
           Returned
             (PaymentRoutes.Arrived
                (respond 200
                   [("success", JSBool true);
                    ("message", JSString "Payment verified successfully");
                    ("data", JSObject
                       [("status", JSString "success");
                        ("amount", JSNumber (inject_Z 1500000 / 100));
                        ("depositPaid", JSBool true);
                        ("paidAt", JSString "2025-12-18T10:30:00Z")])])))
        [Sample.runtime; Sample.runtime; Sample.runtime].
Proof.
  refine (proj1 (verify_relays_the_provider "ref_abc123" "user1" Sample.paid
                   [Sample.runtime; Sample.runtime; Sample.runtime]
                   Sample.world3 eq_refl _)).
  repeat constructor; exists (Some "Verification successful"); reflexivity.
Defined.

(* ================================================================= *)
(** * More of the code *)

(** ** The service *)

Section ServiceFacts.

Variable rt : Runtime.

(** [parseWebhookEvent] leaves the world alone.  It throws [Invalid webhook
    event] exactly when the event is falsy or has no truthy [event]
    property; an event that passes this test and whose [data] is [undefined]
    or [null] makes it throw a TypeError instead; every other event is
    returned with the properties of its [data], and with a truthy
    [metadata]. *)
Theorem parseWebhookEvent_cases :
  forall (event : jsval) (w : World),
    let named_event :=
      match event with
      | JSObject fields =>
          match assoc "event" fields with
          | Some e => truthy e
          | None => false
          end
      | _ => false
      end in
    let data :=
      match event with
      | JSObject fields =>
          match assoc "data" fields with Some d => d | None => JSUndefined end
      | _ => JSUndefined
      end in
    fst (PaystackService.parseWebhookEvent event w) = w
    /\ (named_event = false ->
        snd (PaystackService.parseWebhookEvent event w)
        = Thrown "Invalid webhook event")
    /\ (named_event = true -> data = JSUndefined \/ data = JSNull ->
        exists e,
          snd (PaystackService.parseWebhookEvent event w) = Thrown e
          /\ e <> "Invalid webhook event")
    /\ (named_event = true -> data <> JSUndefined -> data <> JSNull ->
        exists ev,
          snd (PaystackService.parseWebhookEvent event w) = Returned ev
          /\ PaystackService.ev_data ev = data
          /\ get_prop data "reference"
             = Returned (PaystackService.ev_reference ev)
          /\ get_prop data "amount" = Returned (PaystackService.ev_amount ev)
          /\ get_prop data "status" = Returned (PaystackService.ev_status ev)
          /\ truthy (PaystackService.ev_event ev) = true
          /\ truthy (PaystackService.ev_metadata ev) = true).
Proof.
  intros event w named_event data.
  unfold PaystackService.parseWebhookEvent, bind, lift, ret, throw.
  destruct event as [| | b | q | s | items | fields].
  1-6: simpl; repeat split; try reflexivity; intros; try discriminate.
  all: try match goal with
         | |- context [if ?c then _ else _] => destruct c; reflexivity
         end.
  simpl in named_event, data. simpl.
  destruct (assoc "event" fields) as [e |] eqn:He; simpl.
  2:{ subst named_event. repeat split; try reflexivity; intros; discriminate. }
  subst named_event. destruct (truthy e) eqn:Ht; simpl.
  2:{ repeat split; try reflexivity; intros; discriminate. }
  subst data.
  destruct (assoc "data" fields) as [d |] eqn:Hd.
  2:{ simpl. split; [reflexivity |]. split; [intro H; discriminate H |].
      split.
      - intros _ _. eexists. split; [reflexivity | discriminate].
      - intros _ H1. exfalso. apply H1. reflexivity. }
  destruct d; simpl.
  all: split; [reflexivity |]; split; [intro H; discriminate H |]; split;
    [ intros _ [H | H];
      first [ discriminate H
            | eexists; split; [reflexivity | discriminate] ]
    | intros _ H1 H2;
      first
        [ exfalso; apply H1; reflexivity
        | exfalso; apply H2; reflexivity
        | eexists; split; [reflexivity |]; simpl; repeat split;
          try exact Ht; unfold js_or;
          match goal with
          | |- truthy (if truthy ?m then _ else _) = true =>
              destruct (truthy m) eqn:Hm; [exact Hm | reflexivity]
          end ] ].
Qed.

(** [initializeTransaction] sends at most one request to the provider,
    and never one whose amount is outside the limits of the configuration:
    out of range it throws before the call. *)
Theorem initializeTransaction_within_limits :
  forall (email : string) (amount : Z) (metadata : jsval) (w : World),
    exists added,
      outbound (fst (PaystackService.initializeTransaction rt email amount
                       metadata w))
      = outbound w ++ added
      /\ Forall within_limits added
      /\ (length added <= 1)%nat
      /\ (added = [] <->
          amount < paystackConfig.minAmount
          \/ paystackConfig.maxAmount < amount).
Proof.
  intros email amount metadata w.
  destruct (Z_lt_dec amount paystackConfig.minAmount) as [Hlo | Hlo].
  - exists []. rewrite app_nil_r. repeat split; auto.
    unfold PaystackService.initializeTransaction.
    apply Z.ltb_lt in Hlo. rewrite Hlo. reflexivity.
  - destruct (Z_lt_dec paystackConfig.maxAmount amount) as [Hhi | Hhi].
    + exists []. rewrite app_nil_r. repeat split; auto.
      unfold PaystackService.initializeTransaction.
      apply Z.nlt_ge, Z.ltb_ge in Hlo. rewrite Hlo.
      rewrite Z.gtb_ltb. apply Z.ltb_lt in Hhi. rewrite Hhi. reflexivity.
    + eexists. split; [| split; [| split; [| split]]].
      * apply initializeTransaction_outbound. lia.
      * constructor; [| constructor]. simpl. lia.
      * simpl. lia.
      * intro H. discriminate H.
      * intros [H | H]; contradiction.
Qed.

(** Every call of [initializeTransaction] writes exactly one line to the
    log: an [info] line with the reference when it returns, an [error] line
    with the message of the error it rethrows when it throws. *)
Theorem initializeTransaction_reports :
  forall (email : string) (amount : Z) (metadata : jsval) (w : World),
    exists entry,
      logs (fst (PaystackService.initializeTransaction rt email amount
                   metadata w))
      = logs w ++ [entry]
      /\ match snd (PaystackService.initializeTransaction rt email amount
                      metadata w) with
         | Returned result =>
             level entry = info
             /\ assoc "reference" (meta entry)
                = Some (JSString (PaystackService.reference result))
         | Thrown message =>
             level entry = error
             /\ assoc "error" (meta entry) = Some (JSString message)
         end.
Proof.
  intros email amount metadata w.
  unfold PaystackService.initializeTransaction, try_catch, bind, send, lift,
    logger, ret, throw.
  destruct (amount <? paystackConfig.minAmount).
  { eexists. split; [reflexivity | split; reflexivity]. }
  destruct (amount >? paystackConfig.maxAmount).
  { eexists. split; [reflexivity | split; reflexivity]. }
  cbv beta iota zeta.
  destruct (axios_post rt _ _) as [[[|] m [d |]] | e];
    simpl; eexists; (split; [reflexivity | split; reflexivity]).
Qed.

(** How a failure of the provider surfaces from [initializeTransaction],
    for an amount within the limits: an error of the request is rethrown
    with its message; a refusal is thrown with the message of the provider,
    or with [Failed to initialize transaction] when the provider gives none
    or an empty one. *)
Theorem initializeTransaction_failures :
  forall (email : string) (amount : Z) (metadata : jsval) (w : World),
    paystackConfig.minAmount <= amount <= paystackConfig.maxAmount ->
    let url := (paystackConfig.baseUrl ++ "/transaction/initialize")%string in
    let payload :=
      mkInitializePayload email amount metadata
        (CLIENT_URL rt ++ "/payment/callback")%string in
    let result :=
      snd (PaystackService.initializeTransaction rt email amount metadata w) in
    (forall e, axios_post rt url payload = Thrown e -> result = Thrown e)
    /\ (forall m d,
          axios_post rt url payload = Returned (mkEnvelope false (Some m) d) ->
          m <> "" -> result = Thrown m)
    /\ (forall m d,
          axios_post rt url payload = Returned (mkEnvelope false m d) ->
          m = None \/ m = Some "" ->
          result = Thrown "Failed to initialize transaction")
    /\ (forall m d,
          axios_post rt url payload = Returned (mkEnvelope true m (Some d)) ->
          result
          = Returned (PaystackService.mkInitializeResult
                        (authorization_url d) (access_code d)
                        (init_reference d))).
Proof.
  intros email amount metadata w [Hlo Hhi] url payload result.
  subst result.
  unfold PaystackService.initializeTransaction.
  apply Z.ltb_ge in Hlo. rewrite Hlo.
  rewrite Z.gtb_ltb. apply Z.ltb_ge in Hhi. rewrite Hhi.
  cbv zeta. fold url. fold payload.
  unfold try_catch, bind, send, lift, logger, ret, throw. cbv beta iota.
  repeat split.
  - intros e H. rewrite H. reflexivity.
  - intros m d H Hm. rewrite H. simpl.
    apply String.eqb_neq in Hm. rewrite Hm. reflexivity.
  - intros m d H [-> | ->]; rewrite H; reflexivity.
  - intros m d H. rewrite H. reflexivity.
Qed.

(** Every call of [verifyTransaction] ends by writing a line to the log:
    an [info] line with the status of the transaction when it returns, and
    then the metadata it returns is truthy; an [error] line with the message
    of the error it rethrows when it throws. *)
Theorem verifyTransaction_reports :
  forall (reference : jsval) (w : World),
    exists earlier entry,
      logs (fst (PaystackService.verifyTransaction rt reference w))
      = logs w ++ earlier ++ [entry]
      /\ match snd (PaystackService.verifyTransaction rt reference w) with
         | Returned v =>
             level entry = info
             /\ assoc "status" (meta entry)
                = Some (JSString (PaystackService.v_status v))
             /\ truthy (PaystackService.v_metadata v) = true
         | Thrown message =>
             level entry = error
             /\ assoc "error" (meta entry) = Some (JSString message)
         end.
Proof.
  intros reference w. exists [].
  unfold PaystackService.verifyTransaction, try_catch, bind, send, lift,
    logger, ret, throw.
  destruct (PaystackService.invalid_reference reference).
  { eexists. split; [reflexivity | split; reflexivity]. }
  cbv beta iota zeta.
  destruct (axios_get rt _) as [[[|] m [tx |]] | e];
    simpl; eexists;
    (split; [reflexivity | repeat split; try reflexivity]).
  unfold js_or. destruct (truthy (tx_metadata tx)) eqn:H; [exact H | reflexivity].
Qed.

End ServiceFacts.

(** ** The controller *)

(** Walks down the [try] block of a handler for a postcondition. *)
Ltac post_walk :=
  repeat first
    [ progress intros
    | progress cbv zeta
    | apply post_throw
    | apply post_ret
    | apply post_bind
    | match goal with
      | |- post _ (if ?b then _ else _) => destruct b
      | |- post _ (match ?x with _ => _ end) => destruct x
      end ].

Section ControllerFacts.

Variable rt : Runtime.

(** [initializePayment] always answers, in one of three ways: 400 with the
    world as it was; 200 after one call the provider accepted; 500 after one
    call the provider did not accept.  The 500 never comes from the range
    check of the service, which the check of the controller shadows. *)
Theorem initializePayment_cases :
  forall (req : InitializeRequest) (w : World),
    exists resp,
      snd (PaymentController.initializePayment rt req w) = Returned resp
      /\ ((status resp = 400
           /\ fst (PaymentController.initializePayment rt req w) = w)
          \/ (status resp = 200
              /\ outbound (fst (PaymentController.initializePayment rt req w))
                 = outbound w ++ [initialize_call rt req]
              /\ exists d, provider_accepts rt req d)
          \/ (status resp = 500
              /\ outbound (fst (PaymentController.initializePayment rt req w))
                 = outbound w ++ [initialize_call rt req]
              /\ forall d, ~ provider_accepts rt req d)).
Proof.
  intros req w.
  set (kobo := PaymentController.amountInKobo_of
                 (PaymentController.orderTotal_of (req_amount req))).
  destruct (orderId_ok req) eqn:Hid.
  - destruct (Z_lt_dec kobo 10000) as [Hlo | Hlo].
    { destruct (initializePayment_out_of_range rt req w (or_introl Hlo))
        as (resp & E & H400).
      exists resp. rewrite E. split; [reflexivity | left; auto]. }
    destruct (Z_lt_dec 50000000 kobo) as [Hhi | Hhi].
    { destruct (initializePayment_out_of_range rt req w (or_intror Hhi))
        as (resp & E & H400).
      exists resp. rewrite E. split; [reflexivity | left; auto]. }
    assert (Hr : 10000 <= kobo <= 50000000) by lia.
    pose proof (initializePayment_in_range rt req w Hr Hid) as Hout.
    rewrite Hout.
    unfold provider_accepts, initialize_call. fold kobo.
    pose proof Hid as Hid'. unfold orderId_ok in Hid'.
    apply andb_true_iff in Hid'. destruct Hid' as [Ht Hs].
    unfold PaymentController.initializePayment. cbv zeta. fold kobo.
    rewrite Ht, Hs. simpl orb. cbv iota.
    destruct Hr as [Hlo' Hhi'].
    apply Z.ltb_ge in Hlo'. rewrite Hlo'.
    rewrite Z.gtb_ltb. apply Z.ltb_ge in Hhi'. rewrite Hhi'.
    unfold PaystackService.initializeTransaction.
    unfold paystackConfig.minAmount, paystackConfig.maxAmount.
    rewrite Hlo'. rewrite Z.gtb_ltb, Hhi'. cbv zeta.
    unfold try_catch, bind, send, lift. cbv beta iota.
    destruct (axios_post rt _ _) as [[[|] m [d |]] | e] eqn:Hpost;
      simpl; eexists; (split; [reflexivity |]).
    + right. left. repeat split. exists d, m. reflexivity.
    + right. right. repeat split. intros d [m' H]. discriminate H.
    + right. right. repeat split. intros d' [m' H]. discriminate H.
    + right. right. repeat split. intros d' [m' H]. discriminate H.
    + right. right. repeat split. intros d' [m' H]. discriminate H.
  - unfold orderId_ok in Hid.
    unfold PaymentController.initializePayment, try_catch. cbv zeta.
    replace (negb (truthy (orderId req)) || negb (is_string (orderId req)))
      with true
      by (destruct (truthy (orderId req)), (is_string (orderId req));
          simpl in *; congruence).
    eexists. split; [reflexivity |]. left. split; reflexivity.
Qed.

(** The error text of a 500 answer of [initializePayment] and of
    [verifyPayment] is given to the client in development only: elsewhere
    the [error] member is [undefined], and the answer is the same for every
    failure. *)
Theorem errors_disclosed_in_development_only :
  development rt = false ->
  (forall (req : InitializeRequest) (w : World) (resp : Response),
      snd (PaymentController.initializePayment rt req w) = Returned resp ->
      status resp = 500 ->
      resp = respond 500 [("success", JSBool false);
                          ("message", JSString "Failed to initialize payment");
                          ("error", JSUndefined)])
  /\ (forall (req : VerifyRequest) (w : World) (resp : Response),
        snd (PaymentController.verifyPayment rt req w) = Returned resp ->
        status resp = 500 ->
        resp = respond 500 [("success", JSBool false);
                            ("message", JSString "Payment verification failed");
                            ("error", JSUndefined)]).
Proof.
  intro Hdev. split.
  - intros req w resp Hr H500.
    assert (A : answers
                  (fun r => status r = 500 ->
                            r = respond 500
                                  [("success", JSBool false);
                                   ("message",
                                    JSString "Failed to initialize payment");
                                   ("error", JSUndefined)])
                  (PaymentController.initializePayment rt req)).
    { unfold PaymentController.initializePayment.
      apply answers_try_catch.
      - post_walk; simpl in *; congruence.
      - intro e. apply answers_bind; [apply returns_logger |].
        intros _. apply answers_ret. intros _.
        unfold PaymentController.dev_error. rewrite Hdev. reflexivity. }
    destruct (A w) as (r & Hr' & HP). rewrite Hr' in Hr.
    inversion Hr. subst r. auto.
  - intros req w resp Hr H500.
    assert (A : answers
                  (fun r => status r = 500 ->
                            r = respond 500
                                  [("success", JSBool false);
                                   ("message",
                                    JSString "Payment verification failed");
                                   ("error", JSUndefined)])
                  (PaymentController.verifyPayment rt req)).
    { unfold PaymentController.verifyPayment.
      apply answers_try_catch.
      - post_walk; simpl in *; congruence.
      - intro e. apply answers_bind; [apply returns_logger |].
        intros _. apply answers_ret. intros _.
        unfold PaymentController.dev_error. rewrite Hdev. reflexivity. }
    destruct (A w) as (r & Hr' & HP). rewrite Hr' in Hr.
    inversion Hr. subst r. auto.
Qed.

End ControllerFacts.

(** ** The webhook, for every request *)

Section WebhookFacts.

Variable rt : Runtime.

(** Behind [captureRawBody]: the signature middleware and the handler
    answer 200 or 401, and 200 only for a signed payload. *)
Lemma behind_capture req1 w0 :
  exists resp,
    snd (PaymentRoutes.and_then (PaymentRoutes.verifyWebhookSignature req1)
           (PaymentController.handleWebhook rt) w0) = Returned resp
    /\ (status resp = 200 \/ status resp = 401)
    /\ (status resp = 200 ->
        exists s payload,
          header req1 "x-paystack-signature" = JSString s
          /\ s <> "" /\ payload <> ""
          /\ s = hmac_sha512_hex rt (secretKey rt) payload
          /\ PaymentController.signed_payload rt req1 = JSString payload).
Proof.
  unfold PaymentRoutes.and_then, PaymentRoutes.verifyWebhookSignature.
  destruct (truthy (header req1 "x-paystack-signature")) eqn:Hsig;
    simpl negb; cbv iota.
  - unfold bind at 1, ret at 1.
    rewrite handleWebhook_answer. rewrite Hsig. simpl negb. cbv iota.
    destruct (accepts rt (header req1 "x-paystack-signature")
                (PaymentController.signed_payload rt req1)) eqn:Ha.
    + eexists. split; [reflexivity |].
      assert (H200 :
        status (match snd (PaystackService.parseWebhookEvent (body req1) w0)
                with
                | Returned _ => webhook_processed
                | Thrown _ => webhook_processing_error
                end) = 200).
      { destruct (snd (PaystackService.parseWebhookEvent _ w0));
          reflexivity. }
      rewrite H200. split; [auto |]. intros _.
      destruct (accepts_signed _ _ _ Ha)
        as (s & payload & Hs & Hne & Hp & Hpne & Heq).
      exists s, payload. auto.
    + exists webhook_invalid_signature.
      split; [reflexivity |]. split; [auto |]. intro H. discriminate H.
  - eexists. split; [reflexivity |]. split; [auto |].
    intro H. discriminate H.
Qed.

(** The route behind a request [captureRawBody] hands on. *)
Lemma post_webhook_handed_on req w req1 :
  PaymentRoutes.captureRawBody rt req w
  = (w, Returned (PaymentRoutes.Arrived (PaymentRoutes.Next req1))) ->
  snd (PaymentRoutes.post_webhook rt req w)
  = match snd (PaymentRoutes.and_then
                 (PaymentRoutes.verifyWebhookSignature req1)
                 (PaymentController.handleWebhook rt) w) with
    | Returned resp => Returned (PaymentRoutes.Arrived resp)
    | Thrown e => Thrown e
    end.
Proof.
  intro Hc. unfold PaymentRoutes.post_webhook, PaymentRoutes.when_arrived.
  unfold bind at 1. rewrite Hc. unfold bind at 1.
  destruct (PaymentRoutes.and_then _ _ w) as [w1 [resp | e]]; reflexivity.
Qed.

End WebhookFacts.

(** The webhook route, for every request the router hands it: it never
    calls the provider.  When the stream of the request has already ended it
    does nothing: no answer, no log line.  When the stream is still to be
    read it answers 200, 400 or 401; 400 exactly when the content type says
    JSON and the text of the chunks does not parse; and 200 only when the
    signature header is the digest of a non-empty payload, which is the text
    of the chunks whenever that text is not empty. *)
Theorem post_webhook_sound :
  forall (rt : Runtime) (req : WebhookRequest) (w : World),
    outbound (fst (PaymentRoutes.post_webhook rt req w)) = outbound w
    /\ (ended req = true ->
        PaymentRoutes.post_webhook rt req w = (w, Returned PaymentRoutes.Never))
    /\ (ended req = false ->
        exists resp,
          snd (PaymentRoutes.post_webhook rt req w)
          = Returned (PaymentRoutes.Arrived resp)
          /\ (status resp = 200 \/ status resp = 400 \/ status resp = 401)
          /\ (status resp = 400 <->
              json_content req = true
              /\ exists e, JSON_parse rt (captured_text rt req) = Thrown e)
          /\ (status resp = 200 ->
              exists s payload,
                header req "x-paystack-signature" = JSString s
                /\ s <> "" /\ payload <> ""
                /\ s = hmac_sha512_hex rt (secretKey rt) payload
                /\ (captured_text rt req <> "" ->
                    payload = captured_text rt req))).
Proof.
  intros rt req w.
  split; [apply post_webhook_offline |].
  split; [apply post_webhook_ended |].
  intro Hended.
  assert (Hnext :
    forall b1,
      PaymentRoutes.captureRawBody rt req w
      = (w, Returned (PaymentRoutes.Arrived (PaymentRoutes.Next
                        (mkWebhookRequest (headers req) (chunks req) true
                           (JSString (captured_text rt req)) b1)))) ->
      ~ (json_content req = true
         /\ exists e, JSON_parse rt (captured_text rt req) = Thrown e) ->
      exists resp,
        snd (PaymentRoutes.post_webhook rt req w)
        = Returned (PaymentRoutes.Arrived resp)
        /\ (status resp = 200 \/ status resp = 400 \/ status resp = 401)
        /\ (status resp = 400 <->
            json_content req = true
            /\ exists e, JSON_parse rt (captured_text rt req) = Thrown e)
        /\ (status resp = 200 ->
            exists s payload,
              header req "x-paystack-signature" = JSString s
              /\ s <> "" /\ payload <> ""
              /\ s = hmac_sha512_hex rt (secretKey rt) payload
              /\ (captured_text rt req <> "" ->
                  payload = captured_text rt req))).
  { intros b1 Hc Hno400.
    destruct (behind_capture rt
                (mkWebhookRequest (headers req) (chunks req) true
                   (JSString (captured_text rt req)) b1) w)
      as (resp & Hr & Hst & H200).
    exists resp.
    rewrite (post_webhook_handed_on rt req w _ Hc), Hr.
    split; [reflexivity |]. split; [tauto |]. split.
    - split; [intro H; destruct Hst as [E | E]; rewrite E in H;
              discriminate H | intro H; contradiction].
    - intro H. destruct (H200 H) as (s & payload & Hs & Hne & Hpne & Heq & Hp).
      exists s, payload. repeat split; auto.
      intro Hraw. apply String.eqb_neq in Hraw.
      unfold PaymentController.signed_payload, js_or in Hp.
      simpl in Hp. rewrite Hraw in Hp. simpl in Hp. congruence. }
  pose proof (captureRawBody_eq rt req w) as Hc. rewrite Hended in Hc.
  destruct (json_content req) eqn:Hj.
  - destruct (JSON_parse rt (captured_text rt req)) as [parsed | e] eqn:Hp.
    + apply (Hnext parsed Hc). intros [_ [e He]]. discriminate He.
    + unfold PaymentRoutes.post_webhook, PaymentRoutes.when_arrived.
      unfold bind at 1. rewrite Hc.
      eexists. split; [reflexivity |]. split; [auto |]. split.
      * split; [eauto | reflexivity].
      * intro H. discriminate H.
  - apply (Hnext (body req) Hc). intros [H _]. discriminate H.
Qed.

(** Under [server.js] the webhook route answers no post that a body parser
    takes, that is no unread post with a body and the media type
    [application/json] or [application/x-www-form-urlencoded]: either the
    parser refuses it and the error handler answers, or the parser hands it
    on with its stream read and the route neither answers it, nor logs, nor
    calls the provider.  A post no parser takes reaches the route as it was
    sent. *)
Theorem parsed_posts_are_not_answered :
  forall (rt : Runtime) (req : WebhookRequest) (w : World),
    (Server.reads_json req = true \/ Server.reads_urlencoded req = true ->
     Server.webhook rt req w = (w, Returned Server.ByErrorHandler)
     \/ Server.webhook rt req w
        = (w, Returned (Server.ByRoute PaymentRoutes.Never)))
    /\ (Server.reads_json req = false ->
        Server.reads_urlencoded req = false ->
        Server.webhook rt req w
        = bind (PaymentRoutes.post_webhook rt req)
            (fun a => ret (Server.ByRoute a)) w).
Proof.
  intros rt req w. unfold Server.webhook. split.
  - intro H.
    destruct (body_parsers_read rt req H)
      as [E | (req1 & E & Hended & _)]; rewrite E.
    + left. reflexivity.
    + right. unfold bind. rewrite (post_webhook_ended rt req1 w Hended).
      reflexivity.
  - intros Hj Hu. rewrite (body_parsers_skip rt req Hj Hu). reflexivity.
Qed.

(** A signed form post is read by [express.urlencoded()] and not answered
    either. *)
Example form_post_is_not_answered :
  Server.webhook Sample.runtime Sample.form_post Sample.world1
  = (Sample.world1, Returned (Server.ByRoute PaymentRoutes.Never)).
Proof. vm_compute. reflexivity. Qed.

(** A webhook post whose stream reaches [captureRawBody], with no chunk
    ending within a character and a body that is well-formed JSON, is
    answered 200 when its signature header is the digest of the body,
    whatever the event is and whether or not its processing throws, and 401
    when it is not: header missing, empty or different from the digest. *)
Theorem unread_webhook_answers_200_or_401 :
  forall (rt : Runtime) (req : WebhookRequest) (w : World),
    ended req = false ->
    whole_characters rt req ->
    well_formed_json rt (wire_text rt req) ->
    exists resp,
      snd (PaymentRoutes.post_webhook rt req w)
      = Returned (PaymentRoutes.Arrived resp)
      /\ status resp = if signature_verifies rt req then 200 else 401.
Proof.
  intros rt req w Hended Hwhole [Hne [parsed Hp]].
  unfold whole_characters in Hwhole.
  assert (Hc : exists b,
             PaymentRoutes.captureRawBody rt req w
             = (w, Returned (PaymentRoutes.Arrived (PaymentRoutes.Next
                      (mkWebhookRequest (headers req) (chunks req) true
                         (JSString (wire_text rt req)) b))))).
  { rewrite captureRawBody_eq, Hended, Hwhole.
    destruct (json_content req); [rewrite Hp |]; eauto. }
  destruct Hc as [b Hc].
  rewrite (post_webhook_handed_on rt req w _ Hc).
  unfold PaymentRoutes.and_then, PaymentRoutes.verifyWebhookSignature.
  unfold signature_verifies.
  replace (header (mkWebhookRequest (headers req) (chunks req) true
                     (JSString (wire_text rt req)) b) "x-paystack-signature")
    with (header req "x-paystack-signature") by reflexivity.
  destruct (header req "x-paystack-signature") as [| | | | s | |] eqn:Hh;
    try (unfold header in Hh;
         destruct (assoc "x-paystack-signature" (headers req));
         discriminate Hh).
  - eexists. split; reflexivity.
  - simpl truthy. destruct (String.eqb s "") eqn:Hs; simpl negb; cbv iota.
    + eexists. split; reflexivity.
    + unfold bind at 1, ret at 1. rewrite handleWebhook_answer.
      replace (header (mkWebhookRequest (headers req) (chunks req) true
                         (JSString (wire_text rt req)) b)
                 "x-paystack-signature")
        with (JSString s) by (rewrite <- Hh; reflexivity).
      simpl truthy. rewrite Hs. simpl negb. cbv iota.
      unfold PaymentController.signed_payload, js_or. simpl rawBody.
      simpl truthy. pose proof Hne as Hne'. apply String.eqb_neq in Hne'.
      rewrite Hne'. simpl negb. cbv iota.
      apply String.eqb_neq in Hs.
      rewrite (accepts_text rt s (wire_text rt req) Hs Hne).
      simpl andb.
      destruct (String.eqb s
                  (hmac_sha512_hex rt (secretKey rt) (wire_text rt req))).
      * destruct (snd (PaystackService.parseWebhookEvent _ w));
          eexists; split; reflexivity.
      * eexists. split; reflexivity.
Qed.

(** The two cases the claim on the answers names, evaluated on the route:
    an event of an unknown type, and an event whose processing throws. *)
Example unknown_event_200 :
  snd (PaymentRoutes.post_webhook Sample.runtime
         (Sample.unread_post Sample.subscription_create) Sample.world1)
  = Returned (PaymentRoutes.Arrived webhook_processed).
Proof. vm_compute. reflexivity. Qed.

Example throwing_event_200 :
  snd (PaymentRoutes.post_webhook Sample.runtime
         (Sample.unread_post Sample.no_data) Sample.world1)
  = Returned (PaymentRoutes.Arrived webhook_processing_error).
Proof. vm_compute. reflexivity. Qed.

(** [handleWebhook] for every request, header or not: 400 without a
    signature header; 401 when the verifier refuses the header; 200 when it
    accepts, with [success: true] if the event could be parsed and
    [success: false] if parsing threw. *)
Theorem handleWebhook_cases :
  forall (rt : Runtime) (req : WebhookRequest) (w : World),
    let signature := header req "x-paystack-signature" in
    let accepted :=
      accepts rt signature (PaymentController.signed_payload rt req) in
    let parsed := snd (PaystackService.parseWebhookEvent (body req) w) in
    exists resp,
      snd (PaymentController.handleWebhook rt req w) = Returned resp
      /\ (truthy signature = false -> resp = webhook_missing_signature)
      /\ (truthy signature = true -> accepted = false ->
          resp = webhook_invalid_signature)
      /\ (accepted = true ->
          (forall ev, parsed = Returned ev -> resp = webhook_processed)
          /\ (forall e, parsed = Thrown e -> resp = webhook_processing_error)).
Proof.
  intros rt req w signature accepted parsed.
  rewrite handleWebhook_answer. fold signature accepted parsed.
  eexists. split; [reflexivity |].
  destruct (truthy signature) eqn:Hs; simpl negb; cbv iota.
  - destruct accepted eqn:Ha.
    + split; [intro H; discriminate H |].
      split; [intros _ H; discriminate H |].
      intros _. split.
      * intros ev H. rewrite H. reflexivity.
      * intros e H. rewrite H. reflexivity.
    + split; [intro H; discriminate H |].
      split; [reflexivity |]. intro H. discriminate H.
  - assert (Ha : accepted = false).
    { subst accepted. unfold accepts. rewrite Hs. reflexivity. }
    rewrite Ha. split; [reflexivity |].
    split; [intro H; discriminate H |]. intro H. discriminate H.
Qed.

(** [dispatch] never throws and writes exactly one line to the log for
    every event, of a known type or not, and touches nothing else. *)
Theorem dispatch_logs_one_line :
  forall (event : PaystackService.WebhookEvent) (w : World),
    exists entry,
      PaymentController.dispatch event w
      = (mkWorld (orders w) (logs w ++ [entry]) (outbound w), Returned tt).
Proof.
  intros event w.
  unfold PaymentController.dispatch, PaymentController.handleChargeSuccess,
    PaymentController.handleChargeFailed,
    PaymentController.handleTransferSuccess,
    PaymentController.handleTransferFailed, try_catch, bind, lift, logger.
  repeat match goal with
         | |- context [if ?b then _ else _] => destruct b
         end;
    repeat match goal with
           | |- context [get_prop ?v ?k] => destruct (get_prop v k)
           end;
    eexists; reflexivity.
Qed.

(** The check of the verify route covers the check of the service: a
    reference the route lets through passes both tests of the handler and
    of the service, and the only references the service would take and the
    route refuses are strings of more than 255 code units. *)
Theorem route_check_covers_service_check :
  forall reference : jsval,
    (PaymentRoutes.validate_reference reference = None ->
     truthy reference = true
     /\ PaystackService.invalid_reference reference = false)
    /\ (PaystackService.invalid_reference reference = false ->
        PaymentRoutes.validate_reference reference <> None ->
        exists s, reference = JSString s
                  /\ 255 < Z.of_nat (String.length s)).
Proof.
  intro reference. split.
  - intro H. apply length_ok_valid. apply validate_length_ok. exact H.
  - unfold PaystackService.invalid_reference. intro Hinv.
    apply orb_false_iff in Hinv. destruct Hinv as [H12 Hlo].
    apply orb_false_iff in H12. destruct H12 as [Ht Hstr].
    destruct reference as [| | b | q | s | items | fields];
      simpl in Hstr; try discriminate Hstr.
    simpl in Ht. apply negb_false_iff, negb_true_iff in Ht.
    simpl. rewrite Ht, Hlo.
    destruct (Z.of_nat (String.length s) >? 255) eqn:Hhi.
    + intros _. exists s. split; [reflexivity |].
      rewrite Z.gtb_ltb in Hhi. apply Z.ltb_lt. exact Hhi.
    + intro H. exfalso. apply H. reflexivity.
Qed.

(** ** The initialize route *)

Section InitializeRouteFacts.

Variable rt : Runtime.

Lemma details_nil req :
  InitializeRoute.details rt req = [] <->
  InitializeRoute.validate_orderId (orderId req) = []
  /\ InitializeRoute.validate_amount (req_amount req) = [].
Proof.
  unfold InitializeRoute.details. split.
  - intro H. apply app_eq_nil in H. destruct H as [H1 H2].
    apply map_eq_nil in H1, H2. auto.
  - intros [-> ->]. reflexivity.
Qed.

Lemma validate_orderId_nil v :
  InitializeRoute.validate_orderId v = [] ->
  exists s, v = JSString s /\ String.length s = 24%nat
            /\ all_chars InitializeRoute.hex_char s = true.
Proof.
  destruct v as [| | b | q | s | items | fields]; simpl; try discriminate.
  destruct (String.eqb s ""); [discriminate |].
  destruct (all_chars InitializeRoute.hex_char s) eqn:Hx; [| discriminate].
  destruct (String.length s =? 24)%nat eqn:Hl; [| discriminate].
  intros _. exists s. apply Nat.eqb_eq in Hl. repeat split; auto.
Qed.

(** [double] keeps the sign: a number that rounds to a positive double is
    positive. *)
Lemma double_positive (q : Q) : (0 < double q)%Q -> (0 < q)%Q.
Proof.
  unfold double.
  destruct (Qnum q =? 0) eqn:Hz;
    [intro H; exact (False_ind _ (Qlt_irrefl 0 H)) |].
  cbv zeta.
  set (e := Z.max _ (-1074)).
  set (num := Z.abs (Qnum q) * 2 ^ Z.max 0 (- e)).
  set (den := Z.pos (Qden q) * 2 ^ Z.max 0 e).
  assert (Hnum : 0 <= num).
  { subst num. apply Z.mul_nonneg_nonneg; [apply Z.abs_nonneg |].
    apply Z.pow_nonneg. lia. }
  assert (Hden : 0 < den).
  { subst den. apply Z.mul_pos_pos; [reflexivity |].
    apply Z.pow_pos_nonneg; lia. }
  assert (Hm : 0 <= nearest_even num den).
  { pose proof (Z.div_pos num den Hnum Hden) as Hd.
    unfold nearest_even. cbv zeta.
    destruct (2 * (num mod den) <? den); [exact Hd |].
    destruct (den <? 2 * (num mod den)); [lia |].
    destruct (Z.even (num / den)); lia. }
  assert (Hp : (0 < 2 ^ e)%Q) by (apply Qpower_0_lt; reflexivity).
  intro H.
  destruct (Z_lt_le_dec 0 (Qnum q)) as [Hpos | Hneg].
  - unfold Qlt. simpl. lia.
  - exfalso.
    assert (Hk : Z.sgn (Qnum q) * nearest_even num den <= 0).
    { apply Z.eqb_neq in Hz.
      replace (Z.sgn (Qnum q)) with (-1) by (symmetry; apply Z.sgn_neg; lia).
      lia. }
    apply (Qlt_irrefl 0).
    eapply Qlt_le_trans; [exact H |].
    apply Qle_trans with (0 * 2 ^ e)%Q;
      [| rewrite Qmult_0_l; apply Qle_refl].
    apply Qmult_le_compat_r; [| apply Qlt_le_weak; exact Hp].
    change 0%Q with (inject_Z 0). rewrite <- Zle_Qle. exact Hk.
Qed.

Lemma validate_amount_nil a :
  InitializeRoute.validate_amount a = [] ->
  forall q, a = Some q -> (0 < double q)%Q /\ (0 < q)%Q.
Proof.
  intros H q ->. unfold InitializeRoute.validate_amount in H. cbv zeta in H.
  destruct (InitializeRoute.infinite (double q)); [discriminate |].
  destruct (negb (Qle_bool (double q)
                    (inject_Z InitializeRoute.MAX_SAFE_INTEGER))
            || negb (Qle_bool (inject_Z (- InitializeRoute.MAX_SAFE_INTEGER))
                       (double q))); [discriminate |].
  destruct (Qle_bool (double q) 0) eqn:Hq; [discriminate |].
  assert (Hpos : (0 < double q)%Q).
  { apply Qnot_le_lt. intro Hle. apply Qle_bool_iff in Hle. congruence. }
  split; [exact Hpos | apply double_positive; exact Hpos].
Qed.

(** A request [validateInitializePayment] lets through is handed on as it
    is, with the world untouched; its [orderId] is a string of 24
    hexadecimal digits, so the test of the handler on [orderId] passes, and
    its amount is absent or positive, so the handler takes the default total
    only when the amount is absent. *)
Theorem validated_initialize_request :
  forall (req req1 : InitializeRequest) (w w1 : World),
    InitializeRoute.validateInitializePayment rt req w
    = (w1, Returned (PaymentRoutes.Next req1)) ->
    req1 = req /\ w1 = w
    /\ (exists s, orderId req = JSString s /\ String.length s = 24%nat
                  /\ all_chars InitializeRoute.hex_char s = true)
    /\ orderId_ok req = true
    /\ (forall q, req_amount req = Some q ->
                  (0 < q)%Q /\ PaymentController.orderTotal_of (Some q) = q).
Proof.
  intros req req1 w w1.
  unfold InitializeRoute.validateInitializePayment.
  destruct (InitializeRoute.details rt req) eqn:Hd;
    [| intro H; inversion H].
  intro H. inversion H. subst.
  apply details_nil in Hd. destruct Hd as [Ho Ha].
  destruct (validate_orderId_nil _ Ho) as (s & Hs & Hl & Hx).
  repeat split; eauto.
  - unfold orderId_ok. rewrite Hs. simpl.
    destruct s; [discriminate Hl | reflexivity].
  - exact (proj2 (validate_amount_nil _ Ha q H0)).
  - pose proof (proj1 (validate_amount_nil _ Ha q H0)) as Hq.
    unfold PaymentController.orderTotal_of.
    destruct (Qeq_bool (double q) 0) eqn:E; [| reflexivity].
    apply Qeq_bool_iff in E. rewrite E in Hq.
    exfalso. exact (Qlt_irrefl 0 Hq).
Qed.

End InitializeRouteFacts.

Section InitializeEndToEnd.

Variable rt : Runtime.

(** The initialize route, validation and handler together: a request that
    fails the schema is answered 400 with the list of its errors and a valid
    request whose amount in kobo is out of range is answered 400, both with
    the world as it was; a valid request in range makes exactly one call to
    the provider, with the amount in kobo. *)
Theorem post_initialize_cases :
  forall (req : InitializeRequest) (w : World),
    let kobo := PaymentController.amountInKobo_of
                  (PaymentController.orderTotal_of (req_amount req)) in
    (InitializeRoute.details rt req <> [] ->
     InitializeRoute.post_initialize rt req w
     = (w, Returned
             (respond 400
                [("success", JSBool false);
                 ("message", JSString "Validation failed");
                 ("errors", JSArray (InitializeRoute.details rt req))])))
    /\ (InitializeRoute.details rt req = [] ->
        kobo < 10000 \/ 50000000 < kobo ->
        exists resp,
          InitializeRoute.post_initialize rt req w = (w, Returned resp)
          /\ status resp = 400)
    /\ (InitializeRoute.details rt req = [] ->
        10000 <= kobo <= 50000000 ->
        outbound (fst (InitializeRoute.post_initialize rt req w))
        = outbound w ++ [initialize_call rt req]).
Proof.
  intros req w kobo.
  unfold InitializeRoute.post_initialize, PaymentRoutes.and_then,
    InitializeRoute.validateInitializePayment.
  split; [| split].
  - intro H. destruct (InitializeRoute.details rt req); [contradiction |].
    reflexivity.
  - intros H Hr. rewrite H. unfold bind at 1, ret at 1.
    apply initializePayment_out_of_range. exact Hr.
  - intros H Hr.
    pose proof (validated_orderId := H). apply details_nil in validated_orderId.
    destruct validated_orderId as [Ho _].
    destruct (validate_orderId_nil _ Ho) as (s & Hs & Hl & Hx).
    rewrite H. unfold bind at 1, ret at 1.
    apply initializePayment_in_range; [exact Hr |].
    unfold orderId_ok. rewrite Hs. simpl.
    destruct s; [discriminate Hl | reflexivity].
Qed.

End InitializeEndToEnd.

(** ** Naira and kobo, on doubles *)

(** [2^l <= a / d] for [l] the binary exponent of [a / d]. *)
Lemma binary_exponent_below (a d : Z) :
  0 < a -> 0 < d ->
  let l := binary_exponent a d in
  d * 2 ^ Z.max 0 l <= a * 2 ^ Z.max 0 (- l).
Proof.
  intros Ha Hd. unfold binary_exponent. cbv zeta.
  set (l0 := Z.log2 a - Z.log2 d).
  destruct (a * 2 ^ Z.max 0 (- l0) <? d * 2 ^ Z.max 0 l0) eqn:Ht.
  - destruct (Z.log2_spec a Ha) as [Hla _].
    destruct (Z.log2_spec d Hd) as [_ Hld].
    pose proof (Z.log2_nonneg a) as Hna. pose proof (Z.log2_nonneg d) as Hnd.
    destruct (Z_le_gt_dec 1 l0) as [Hl | Hl].
    + rewrite (Z.max_r 0 (l0 - 1)) by lia.
      rewrite (Z.max_l 0 (- (l0 - 1))) by lia.
      rewrite Z.mul_1_r.
      apply Z.lt_le_incl. apply Z.lt_le_trans with (2 ^ Z.log2 a); [| exact Hla].
      replace (Z.log2 a) with (Z.succ (Z.log2 d) + (l0 - 1)) by (subst l0; lia).
      rewrite Z.pow_add_r by lia.
      apply Z.mul_lt_mono_pos_r; [apply Z.pow_pos_nonneg; lia | exact Hld].
    + rewrite (Z.max_l 0 (l0 - 1)) by lia.
      rewrite (Z.max_r 0 (- (l0 - 1))) by lia.
      rewrite Z.mul_1_r.
      apply Z.lt_le_incl. apply Z.lt_le_trans with (2 ^ Z.succ (Z.log2 d)); [exact Hld |].
      replace (Z.succ (Z.log2 d)) with (Z.log2 a + (- (l0 - 1))) by (subst l0; lia).
      rewrite Z.pow_add_r by lia.
      apply Z.mul_le_mono_nonneg_r; [apply Z.pow_nonneg; lia | exact Hla].
  - apply Z.ltb_ge in Ht. exact Ht.
Qed.

(** The nearest integer is within a half. *)
Lemma nearest_even_near (num den : Z) :
  0 < den ->
  let m := nearest_even num den in
  - den <= 2 * (m * den - num) <= den.
Proof.
  intros Hden. unfold nearest_even. cbv zeta.
  pose proof (Z.div_mod num den ltac:(lia)) as Hdm.
  pose proof (Z.mod_pos_bound num den Hden) as Hr.
  destruct (2 * (num mod den) <? den) eqn:H1.
  - apply Z.ltb_lt in H1. nia.
  - apply Z.ltb_ge in H1.
    destruct (den <? 2 * (num mod den)) eqn:H2.
    + apply Z.ltb_lt in H2. nia.
    + apply Z.ltb_ge in H2.
      destruct (Z.even (num / den)); nia.
Qed.

(** The scaled number is at least [2^52]: the mantissa has its 53 bits. *)
Lemma scaled_above (a d : Z) :
  0 < a -> 0 < d -> d <= a * 2 ^ 1022 ->
  let e := Z.max (binary_exponent a d - 52) (-1074) in
  d * 2 ^ Z.max 0 e * 2 ^ 52 <= a * 2 ^ Z.max 0 (- e).
Proof.
  intros Ha Hd Hn. cbv zeta.
  pose proof (binary_exponent_below a d Ha Hd) as Hl. cbv zeta in Hl.
  set (l := binary_exponent a d) in *.
  destruct (Z_le_gt_dec (-1074) (l - 52)) as [Hc | Hc].
  - rewrite (Z.max_l (l - 52)) by lia.
    destruct (Z_le_gt_dec 52 l) as [H52 | H52].
    + rewrite (Z.max_r 0 (l - 52)), (Z.max_l 0 (- (l - 52))) by lia.
      rewrite (Z.max_r 0 l), (Z.max_l 0 (- l)) in Hl by lia.
      rewrite <- Z.mul_assoc, <- Z.pow_add_r by lia.
      replace (l - 52 + 52) with l by lia. exact Hl.
    + rewrite (Z.max_l 0 (l - 52)), (Z.max_r 0 (- (l - 52))) by lia.
      rewrite Z.pow_0_r, Z.mul_1_r.
      destruct (Z_le_gt_dec 0 l) as [H0 | H0].
      * rewrite (Z.max_r 0 l), (Z.max_l 0 (- l)) in Hl by lia.
        rewrite Z.pow_0_r, Z.mul_1_r in Hl.
        replace 52 with (l + (52 - l)) at 1 by lia.
        rewrite Z.pow_add_r, Z.mul_assoc by lia.
        replace (- (l - 52)) with (52 - l) by lia.
        apply Z.mul_le_mono_nonneg_r; [apply Z.pow_nonneg; lia | exact Hl].
      * rewrite (Z.max_l 0 l), (Z.max_r 0 (- l)) in Hl by lia.
        rewrite Z.pow_0_r, Z.mul_1_r in Hl.
        replace (- (l - 52)) with (- l + 52) by lia.
        rewrite Z.pow_add_r, Z.mul_assoc by lia.
        apply Z.mul_le_mono_nonneg_r; [apply Z.pow_nonneg; lia | exact Hl].
  - rewrite (Z.max_r (l - 52)) by lia.
    change (Z.max 0 (-1074)) with 0. change (Z.max 0 (- -1074)) with 1074.
    rewrite Z.pow_0_r, Z.mul_1_r.
    replace 1074 with (1022 + 52) by lia.
    rewrite Z.pow_add_r, Z.mul_assoc by lia.
    apply Z.mul_le_mono_nonneg_r; [apply Z.pow_nonneg; lia | exact Hn].
Qed.

Lemma pow2_split (e : Z) :
  (2 ^ e == inject_Z (2 ^ Z.max 0 e) / inject_Z (2 ^ Z.max 0 (- e)))%Q.
Proof.
  destruct (Z_le_gt_dec 0 e) as [H | H].
  - rewrite (Z.max_r 0 e), (Z.max_l 0 (- e)) by lia.
    rewrite Zpower_Qpower by exact H.
    change (inject_Z (2 ^ 0)) with 1%Q. change (inject_Z 2) with 2%Q.
    generalize (2 ^ e)%Q. intro x. field.
  - rewrite (Z.max_l 0 e), (Z.max_r 0 (- e)) by lia.
    change (inject_Z (2 ^ 0)) with 1%Q.
    rewrite Zpower_Qpower by lia.
    change (inject_Z 2) with 2%Q.
    replace e with (- - e) at 1 by lia.
    rewrite Qpower_opp.
    assert (Hx : ~ (2 ^ (- e) == 0)%Q) by (apply Qpower_not_0; discriminate).
    revert Hx. generalize (2 ^ (- e))%Q. intros x Hx. field. exact Hx.
Qed.

Lemma Qle_fraction (A B C D : Z) :
  0 < B -> 0 < D -> A * D <= C * B ->
  (inject_Z A / inject_Z B <= inject_Z C / inject_Z D)%Q.
Proof.
  intros HB HD H.
  assert (HBq : (0 < inject_Z B)%Q) by (change 0%Q with (inject_Z 0); rewrite <- Zlt_Qlt; exact HB).
  assert (HDq : (0 < inject_Z D)%Q) by (change 0%Q with (inject_Z 0); rewrite <- Zlt_Qlt; exact HD).
  apply Qle_shift_div_r; [exact HBq |].
  setoid_replace (inject_Z C / inject_Z D * inject_Z B)%Q
    with (inject_Z (C * B) / inject_Z D)%Q
    by (rewrite inject_Z_mult; field; intro E; rewrite E in HDq;
        exact (Qlt_irrefl 0 HDq)).
  apply Qle_shift_div_l; [exact HDq |].
  rewrite <- inject_Z_mult, <- Zle_Qle. exact H.
Qed.

(** The relative error of the rounding: at most [2^-53], for a positive
    number that is no less than the least normal double. *)
Lemma double_near (q : Q) :
  (0 < q)%Q -> (1 # 2 ^ 1022 <= q)%Q ->
  (q * (1 - (1 # 2 ^ 53)) <= double q)%Q
  /\ (double q <= q * (1 + (1 # 2 ^ 53)))%Q.
Proof.
  destruct q as [n d']. intros Hpos Hnormal.
  assert (Hn : 0 < n) by (unfold Qlt in Hpos; simpl in Hpos; lia).
  assert (Hd : 0 < Z.pos d') by reflexivity.
  assert (Hlow : Z.pos d' <= n * 2 ^ 1022).
  { unfold Qle in Hnormal. simpl Qnum in Hnormal. simpl Qden in Hnormal.
    rewrite Pos2Z.inj_pow in Hnormal. lia. }
  unfold double. simpl Qnum. simpl Qden.
  replace (n =? 0) with false by (symmetry; apply Z.eqb_neq; lia).
  rewrite (Z.abs_eq n) by lia. rewrite (Z.sgn_pos n) by lia.
  cbv zeta.
  pose proof (scaled_above n (Z.pos d') Hn Hd Hlow) as Habove.
  cbv zeta in Habove.
  set (e := Z.max (binary_exponent n (Z.pos d') - 52) (-1074)) in *.
  set (Pp := 2 ^ Z.max 0 e) in *. set (Pn := 2 ^ Z.max 0 (- e)) in *.
  assert (HPp : 0 < Pp) by (apply Z.pow_pos_nonneg; lia).
  assert (HPn : 0 < Pn) by (apply Z.pow_pos_nonneg; lia).
  pose proof (nearest_even_near (n * Pn) (Z.pos d' * Pp) ltac:(nia)) as Hnear.
  cbv zeta in Hnear.
  set (m := nearest_even (n * Pn) (Z.pos d' * Pp)) in *.
  rewrite Z.mul_1_l.
  assert (E1 : (inject_Z m * 2 ^ e == inject_Z (m * Pp) / inject_Z Pn)%Q).
  { rewrite pow2_split. fold Pp Pn. rewrite inject_Z_mult. field.
    intro E. assert (H0 : (0 < inject_Z Pn)%Q)
      by (change 0%Q with (inject_Z 0); rewrite <- Zlt_Qlt; exact HPn).
    rewrite E in H0. exact (Qlt_irrefl 0 H0). }
  assert (E2 : forall c : Z,
             ((n # d') * (inject_Z c / inject_Z (2 ^ 53))
              == inject_Z (n * c) / inject_Z (Z.pos d' * 2 ^ 53))%Q).
  { intro c. rewrite (Qmake_Qdiv n d'), !inject_Z_mult. field.
    split; discriminate. }
  change (2 ^ 52) with 4503599627370496 in Habove.
  set (t := m * (Z.pos d' * Pp)) in *.
  split.
  - setoid_replace (1 - (1 # 2 ^ 53))%Q
      with (inject_Z (2 ^ 53 - 1) / inject_Z (2 ^ 53))%Q by reflexivity.
    rewrite E1, E2. apply Qle_fraction; [lia | exact HPn |].
    change (2 ^ 53) with 9007199254740992.
    replace (m * Pp * (Z.pos d' * 9007199254740992)) with (t * 9007199254740992)
      by (subst t; ring).
    replace (n * (9007199254740992 - 1) * Pn) with ((n * Pn) * 9007199254740991)
      by ring.
    lia.
  - setoid_replace (1 + (1 # 2 ^ 53))%Q
      with (inject_Z (2 ^ 53 + 1) / inject_Z (2 ^ 53))%Q by reflexivity.
    rewrite E1, E2. apply Qle_fraction; [exact HPn | lia |].
    change (2 ^ 53) with 9007199254740992.
    replace (m * Pp * (Z.pos d' * 9007199254740992)) with (t * 9007199254740992)
      by (subst t; ring).
    replace (n * (9007199254740992 + 1) * Pn) with ((n * Pn) * 9007199254740993)
      by ring.
    lia.
Qed.

Lemma Math_round_unique (x : Q) (k : Z) :
  (inject_Z k - (1 # 2) <= x)%Q -> (x < inject_Z k + (1 # 2))%Q ->
  Math_round x = k.
Proof.
  intros Hlo Hhi. unfold Math_round.
  pose proof (Qfloor_le (x + (1 # 2))) as Hf.
  pose proof (Qlt_floor (x + (1 # 2))) as Hc.
  assert (A : (inject_Z (Qfloor (x + (1 # 2))) < inject_Z (k + 1))%Q).
  { rewrite inject_Z_plus. change (inject_Z 1) with 1%Q. lra. }
  assert (B : (inject_Z k < inject_Z (Qfloor (x + (1 # 2)) + 1))%Q) by lra.
  rewrite <- Zlt_Qlt in A, B. lia.
Qed.

(** The amount the verify endpoint reports, [amount / 100] of the kobo of
    the provider, given back to the initialize handler as its amount, is
    converted to the same kobo, for every amount up to [2^50] kobo:
    [Math.round] undoes the two roundings of the doubles, of the quotient and
    of the product.  The amount 0 is taken as absent and replaced by the
    default total. *)
Theorem reported_amount_round_trip :
  forall k : Z,
    (0 < k <= 2 ^ 50 ->
     PaymentController.amountInKobo_of
       (PaymentController.orderTotal_of (Some (inject_Z k / 100)%Q)) = k)
    /\ PaymentController.amountInKobo_of
         (PaymentController.orderTotal_of (Some (inject_Z 0 / 100)%Q))
       = 1000000.
Proof.
  intro k. split; [| vm_compute; reflexivity].
  intros [Hk Hmax].
  assert (HK1 : (1 <= inject_Z k)%Q)
    by (change 1%Q with (inject_Z 1); rewrite <- Zle_Qle; lia).
  assert (HK2 : (inject_Z k <= 1125899906842624)%Q)
    by (change 1125899906842624%Q with (inject_Z (2 ^ 50));
        rewrite <- Zle_Qle; exact Hmax).
  assert (Hq : (inject_Z k / 100 * 100 == inject_Z k)%Q) by field.
  revert Hq. generalize (inject_Z k / 100)%Q. intros q Hq.
  assert (Hnormal : forall x : Q, (1 # 100 <= x)%Q -> (1 # 2 ^ 1022 <= x)%Q).
  { intros x Hx. apply Qle_trans with (1 # 100)%Q; [| exact Hx].
    vm_compute. discriminate. }
  assert (Hqpos : (0 < q)%Q) by lra.
  assert (Hqn : (1 # 2 ^ 1022 <= q)%Q) by (apply Hnormal; lra).
  destruct (double_near q Hqpos Hqn) as [H1 H2].
  change (1 # 2 ^ 53)%Q with (1 # 9007199254740992)%Q in H1, H2.
  clear Hqn.
  assert (Ht : PaymentController.orderTotal_of (Some q) = q).
  { unfold PaymentController.orderTotal_of.
    destruct (Qeq_bool (double q) 0) eqn:E; [| reflexivity].
    exfalso. apply Qeq_bool_iff in E. rewrite E in H1. lra. }
  rewrite Ht. unfold PaymentController.amountInKobo_of.
  revert H1 H2. generalize (double q). intros x1 H1 H2.
  assert (Hppos : (0 < x1 * 100)%Q) by lra.
  assert (Hpn : (1 # 2 ^ 1022 <= x1 * 100)%Q) by (apply Hnormal; lra).
  destruct (double_near (x1 * 100) Hppos Hpn) as [H3 H4].
  change (1 # 2 ^ 53)%Q with (1 # 9007199254740992)%Q in H3, H4.
  clear Hpn Hnormal.
  apply Math_round_unique; lra.
Qed.

(** Beyond [2^52] kobo the doubles are too far apart: this amount comes
    back one kobo higher. *)
Example round_trip_beyond_2_52 :
  PaymentController.amountInKobo_of
    (PaymentController.orderTotal_of
       (Some (inject_Z 7922868839959579 / 100)%Q))
  = 7922868839959580.
Proof. vm_compute. reflexivity. Qed.

(** ** The rate limiter *)

Lemma Qfloor_zero (x : Q) : (0 <= x)%Q -> (x < 1)%Q -> Qfloor x = 0.
Proof.
  intros H0 H1.
  pose proof (Qfloor_le x) as Hle. pose proof (Qlt_floor x) as Hlt.
  assert (A : (inject_Z (Qfloor x) < inject_Z 1)%Q).
  { eapply Qle_lt_trans; [exact Hle | exact H1]. }
  assert (B : (inject_Z 0 < inject_Z (Qfloor x + 1))%Q).
  { eapply Qle_lt_trans; [exact H0 | exact Hlt]. }
  rewrite <- Zlt_Qlt in A, B. lia.
Qed.

Lemma Qfloor_positive (x : Q) : (1 <= x)%Q -> 1 <= Qfloor x.
Proof.
  intro H. change 1 with (Qfloor 1). apply Qfloor_resp_le. exact H.
Qed.

(** When the limiter rejects a request with [msBeforeNext] milliseconds to
    wait, the 429 answer never says to retry after 0 seconds: below half a
    second it says 900, from half a second on the milliseconds rounded to
    seconds, which is at least 1. *)
Theorem retryAfter_is_never_zero :
  forall (consume : jsval -> RateLimiter.Consume) (ip remoteAddress : jsval)
         (ms : Q),
    consume (js_or ip remoteAddress) = RateLimiter.RejectedRes (Some ms) ->
    (0 <= ms)%Q ->
    exists seconds,
      RateLimiter.rateLimiterMiddleware consume ip remoteAddress
      = PaymentRoutes.Respond
          (respond 429
             [("success", JSBool false);
              ("message",
               JSString "Too many requests. Please try again later.");
              ("retryAfter", JSNumber (inject_Z seconds))])
      /\ 1 <= seconds
      /\ ((ms < 500)%Q -> seconds = 900)
      /\ ((500 <= ms)%Q -> seconds = Math_round (ms / 1000)).
Proof.
  intros consume ip remoteAddress ms Hc Hms.
  unfold RateLimiter.rateLimiterMiddleware. cbv zeta. rewrite Hc.
  eexists. split; [reflexivity |].
  unfold RateLimiter.retryAfter, Math_round. cbv zeta.
  assert (Hd : (ms / 1000 == ms * (1 # 1000))%Q) by field.
  destruct (Qlt_le_dec ms 500) as [Hlt | Hge].
  - rewrite (Qfloor_zero (ms / 1000 + (1 # 2))) by (rewrite Hd; lra).
    simpl. split; [lia |]. split; [reflexivity |]. intro H. lra.
  - pose proof (Qfloor_positive (ms / 1000 + (1 # 2))) as Hp.
    assert (H1 : 1 <= Qfloor (ms / 1000 + (1 # 2)))
      by (apply Hp; rewrite Hd; lra).
    destruct (Qfloor (ms / 1000 + (1 # 2)) =? 0) eqn:E.
    + apply Z.eqb_eq in E. lia.
    + split; [exact H1 |]. split; [intro H; lra | reflexivity].
Qed.

(** ** Authentication *)

Lemma split_space_head (t : string) :
  exists rest, Auth.split_space t = first_word t :: rest.
Proof.
  induction t as [| c t [rest IH]]; simpl.
  - exists []. reflexivity.
  - destruct (Ascii.eqb c " ").
    + eexists. reflexivity.
    + rewrite IH. eexists. reflexivity.
Qed.

Lemma split_bearer (t : string) :
  nth_error (Auth.split_space ("Bearer " ++ t)) 1 = Some (first_word t).
Proof.
  destruct (split_space_head t) as [rest H].
  simpl. rewrite H. reflexivity.
Qed.

Lemma prefix_append (p : string) : forall s,
  prefix p s = true -> exists t, s = (p ++ t)%string.
Proof.
  induction p as [| a p IH]; intros s H.
  - exists s. reflexivity.
  - destruct s as [| b s]; simpl in H; [discriminate |].
    destruct (ascii_dec a b) as [-> | _]; [| discriminate].
    destruct (IH s H) as [t ->]. exists t. reflexivity.
Qed.

Lemma first_word_idempotent (t : string) :
  first_word (first_word t) = first_word t.
Proof.
  induction t as [| c t IH]; simpl; [reflexivity |].
  destruct (Ascii.eqb c " ") eqn:E; simpl; [reflexivity |].
  rewrite E, IH. reflexivity.
Qed.

Section AuthFacts.

Variable jwt_verify : string -> Auth.named jsval.
Variable findById : jsval -> Auth.named (option Auth.User).

(** [isAuth] lets a request through only with a header [Bearer] followed
    by a non-empty word that [jwt.verify] accepts and whose [id] is the id
    of a user in the database, and the user it attaches is that one; every
    other request is answered 401 or 500. *)
Theorem isAuth_admits_only_verified :
  forall authHeader : jsval,
    match Auth.isAuth jwt_verify findById authHeader with
    | PaymentRoutes.Next user =>
        exists t decoded id,
          authHeader = JSString ("Bearer " ++ t)
          /\ first_word t <> ""
          /\ jwt_verify (first_word t) = Auth.Gave decoded
          /\ get_prop decoded "id" = Returned id
          /\ findById id = Auth.Gave (Some user)
    | PaymentRoutes.Respond r => status r = 401 \/ status r = 500
    end.
Proof.
  intro authHeader. unfold Auth.isAuth. cbv zeta.
  destruct (truthy authHeader) eqn:Ht; simpl negb; cbv iota; [| auto].
  destruct authHeader as [| | b | q | h | items | fields]; auto.
  destruct (prefix "Bearer " h) eqn:Hp; simpl negb; cbv iota; [| auto].
  destruct (prefix_append _ _ Hp) as [t ->].
  rewrite split_bearer.
  destruct (first_word t) as [| c token] eqn:Hw; [auto |].
  unfold Auth.verify_and_fetch.
  destruct (jwt_verify (String c token)) as [decoded | name message] eqn:Hj.
  - destruct (get_prop decoded "id") as [id | message] eqn:Hid.
    + destruct (findById id) as [[user |] | name message] eqn:Hf.
      * exists t, decoded, id. rewrite Hw. repeat split; auto. discriminate.
      * auto.
      * destruct (String.eqb name "TokenExpiredError"); [auto |].
        destruct (String.eqb name "JsonWebTokenError"); auto.
    + simpl. auto.
  - destruct (String.eqb name "TokenExpiredError"); [auto |].
    destruct (String.eqb name "JsonWebTokenError"); auto.
Qed.

(** Of what follows [Bearer ] in the header, [isAuth] reads the first word
    only: the rest is ignored, and a header with nothing or with a second
    space right after [Bearer ] is refused for its format before the token
    is looked at. *)
Theorem isAuth_reads_first_word :
  forall t : string,
    Auth.isAuth jwt_verify findById (JSString ("Bearer " ++ t))
    = Auth.isAuth jwt_verify findById (JSString ("Bearer " ++ first_word t))
    /\ (first_word t = "" ->
        Auth.isAuth jwt_verify findById (JSString ("Bearer " ++ t))
        = PaymentRoutes.Respond
            (Auth.denied "Access denied. Invalid token format.")).
Proof.
  intro t.
  assert (E : forall u,
    Auth.isAuth jwt_verify findById (JSString ("Bearer " ++ u))
    = match first_word u with
      | EmptyString =>
          PaymentRoutes.Respond
            (Auth.denied "Access denied. Invalid token format.")
      | token =>
          match Auth.verify_and_fetch jwt_verify findById token with
          | Auth.Gave step => step
          | Auth.Threw name _ =>
              if String.eqb name "TokenExpiredError" then
                PaymentRoutes.Respond
                  (respond 401
                     [("success", JSBool false);
                      ("message",
                       JSString "Token expired. Please login again.");
                      ("expired", JSBool true)])
              else if String.eqb name "JsonWebTokenError" then
                PaymentRoutes.Respond
                  (Auth.denied "Invalid token. Please login again.")
              else
                PaymentRoutes.Respond
                  (respond 500 [("success", JSBool false);
                                ("message", JSString "Authentication failed")])
          end
      end).
  { intro u. unfold Auth.isAuth. cbv zeta.
    change (truthy (JSString ("Bearer " ++ u))) with true.
    change (prefix "Bearer " ("Bearer " ++ u)) with (prefix "" u).
    replace (prefix "" u) with true by (destruct u; reflexivity).
    simpl negb. cbv iota. rewrite split_bearer.
    destruct (first_word u); reflexivity. }
  split.
  - rewrite (E t), (E (first_word t)), first_word_idempotent. reflexivity.
  - intro H. rewrite (E t), H. reflexivity.
Qed.

End AuthFacts.

(** ** The private endpoints, end to end *)

Section EndpointFacts.

Variable jwt_verify : string -> Auth.named jsval.
Variable findById : jsval -> Auth.named (option Auth.User).
Variable consume : jsval -> RateLimiter.Consume.
Variable rt : Runtime.

Lemma admitted_next c user :
  Endpoints.admitted jwt_verify findById consume c = PaymentRoutes.Next user ->
  Auth.isAuth jwt_verify findById (Endpoints.authorization c)
  = PaymentRoutes.Next user
  /\ consume (js_or (Endpoints.ip c) (Endpoints.remoteAddress c))
     = RateLimiter.Consumed.
Proof.
  unfold Endpoints.admitted, RateLimiter.rateLimiterMiddleware. cbv zeta.
  destruct (Auth.isAuth jwt_verify findById (Endpoints.authorization c))
    as [r | u]; [discriminate |].
  destruct (consume (js_or (Endpoints.ip c) (Endpoints.remoteAddress c)));
    try discriminate.
  intro H. inversion H. subst. auto.
Qed.

(** The initialize endpoint calls the provider only for a caller [isAuth]
    and the rate limiter let through, with a request that passes the schema
    and an amount in kobo within the limits; it then makes exactly one call,
    which carries the id of the authenticated user. *)
Theorem initialize_endpoint_guarded :
  forall (c : Endpoints.Caller) (orderId : jsval) (amount : option Q)
         (w : World),
    outbound (fst (Endpoints.initialize jwt_verify findById consume rt c
                     orderId amount w))
    <> outbound w ->
    exists user,
      Auth.isAuth jwt_verify findById (Endpoints.authorization c)
      = PaymentRoutes.Next user
      /\ consume (js_or (Endpoints.ip c) (Endpoints.remoteAddress c))
         = RateLimiter.Consumed
      /\ InitializeRoute.details rt
           (mkInitializeRequest orderId amount (Auth.user_id user)) = []
      /\ 10000 <= PaymentController.amountInKobo_of
                    (PaymentController.orderTotal_of amount) <= 50000000
      /\ outbound (fst (Endpoints.initialize jwt_verify findById consume rt c
                          orderId amount w))
         = outbound w
           ++ [initialize_call rt
                 (mkInitializeRequest orderId amount (Auth.user_id user))].
Proof.
  intros c orderId amount w.
  unfold Endpoints.initialize.
  destruct (Endpoints.admitted jwt_verify findById consume c) as [r | user]
    eqn:Ha.
  { intro H. exfalso. apply H. reflexivity. }
  destruct (admitted_next c user Ha) as [Hauth Hcons].
  set (req := mkInitializeRequest orderId amount (Auth.user_id user)).
  set (kobo := PaymentController.amountInKobo_of
                 (PaymentController.orderTotal_of amount)).
  unfold InitializeRoute.post_initialize, PaymentRoutes.and_then,
    InitializeRoute.validateInitializePayment.
  destruct (InitializeRoute.details rt req) as [| e errors] eqn:Hd.
  2:{ intro H. exfalso. apply H. reflexivity. }
  unfold bind at 1, ret at 1.
  intro Hout. exists user.
  assert (Hr : 10000 <= kobo <= 50000000).
  { destruct (Z_lt_dec kobo 10000) as [Hlo | Hlo].
    - exfalso. apply Hout.
      destruct (initializePayment_out_of_range rt req w (or_introl Hlo))
        as (resp & E & _).
      rewrite E. reflexivity.
    - destruct (Z_lt_dec 50000000 kobo) as [Hhi | Hhi]; [| lia].
      exfalso. apply Hout.
      destruct (initializePayment_out_of_range rt req w (or_intror Hhi))
        as (resp & E & _).
      rewrite E. reflexivity. }
  repeat split; auto; try lia.
  apply initializePayment_in_range; [exact Hr |].
  apply details_nil in Hd. destruct Hd as [Ho _].
  destruct (validate_orderId_nil _ Ho) as (s & Hs & Hl & Hx).
  unfold orderId_ok. simpl in Hs. simpl. rewrite Hs. simpl.
  destruct s; [discriminate Hl | reflexivity].
Qed.

(** The verify endpoint calls the provider only for a caller [isAuth] and
    the rate limiter let through and a reference of 5 to 255 code units; it
    then makes exactly one call, to the verify URL of that reference. *)
Theorem verify_endpoint_guarded :
  forall (c : Endpoints.Caller) (reference : jsval) (w : World),
    outbound (fst (Endpoints.verify jwt_verify findById consume rt c
                     reference w))
    <> outbound w ->
    exists user,
      Auth.isAuth jwt_verify findById (Endpoints.authorization c)
      = PaymentRoutes.Next user
      /\ consume (js_or (Endpoints.ip c) (Endpoints.remoteAddress c))
         = RateLimiter.Consumed
      /\ length_ok reference = true
      /\ outbound (fst (Endpoints.verify jwt_verify findById consume rt c
                          reference w))
         = outbound w ++ [AxiosGet (PaystackService.verify_url rt reference)].
Proof.
  intros c reference w.
  unfold Endpoints.verify.
  destruct (Endpoints.admitted jwt_verify findById consume c) as [r | user]
    eqn:Ha.
  { intro H. exfalso. apply H. reflexivity. }
  destruct (admitted_next c user Ha) as [Hauth Hcons].
  intro Hout. exists user.
  destruct (length_ok reference) eqn:Hlen.
  - repeat split; auto.
    apply (post_verify_outbound rt
             (mkVerifyRequest reference (Auth.user_id user)) w Hlen).
  - exfalso. apply Hout.
    destruct (post_verify_refused rt
                (mkVerifyRequest reference (Auth.user_id user)) w Hlen)
      as (resp & E & _).
    rewrite E. reflexivity.
Qed.

End EndpointFacts.

(** ** The extra properties at concrete inputs *)

Lemma parseWebhookEvent_cases_witness :
  (exists e,
     snd (PaystackService.parseWebhookEvent Sample.no_data Sample.world1)
     = Thrown e
     /\ e <> "Invalid webhook event")
  /\ exists ev,
       snd (PaystackService.parseWebhookEvent Sample.charge_success
              Sample.world1) = Returned ev
       /\ PaystackService.ev_reference ev = JSString "ref_abc123".
Proof.
  split.
  - exact (proj1 (proj2 (proj2 (parseWebhookEvent_cases Sample.no_data
                                  Sample.world1)))
             eq_refl (or_introl eq_refl)).
  - destruct (proj2 (proj2 (proj2 (parseWebhookEvent_cases
                                     Sample.charge_success Sample.world1)))
                eq_refl)
      as (ev & Hr & _ & Href & _).
    + discriminate.
    + discriminate.
    + exists ev. split; [exact Hr |].
      simpl in Href. injection Href as Href. symmetry. exact Href.
Defined.

Lemma initializeTransaction_failures_witness :
  snd (PaystackService.initializeTransaction Sample.runtime
         "customer@test.com" 1500000 (JSObject []) Sample.world1)
  = Returned (PaystackService.mkInitializeResult
                "https://checkout.paystack.com/abc" "123456" "ref_abc123").
Proof.
  refine (proj2 (proj2 (proj2 (initializeTransaction_failures Sample.runtime
                                 "customer@test.com" 1500000 (JSObject [])
                                 Sample.world1 _)))
            (Some "Authorization URL created")
            (mkInitializeData "https://checkout.paystack.com/abc" "123456"
               "ref_abc123") eq_refl).
  unfold paystackConfig.minAmount, paystackConfig.maxAmount. lia.
Defined.

Lemma errors_disclosed_in_development_only_witness :
  snd (PaymentController.verifyPayment Sample.runtime
         (Sample.verify_call "ref_unknown") Sample.world1)
  = Returned (respond 500 [("success", JSBool false);
                           ("message", JSString "Payment verification failed");
                           ("error", JSUndefined)]).
Proof.
  assert (H := proj2 (errors_disclosed_in_development_only Sample.runtime
                        eq_refl)
                 (Sample.verify_call "ref_unknown") Sample.world1).
  destruct (snd (PaymentController.verifyPayment Sample.runtime
                   (Sample.verify_call "ref_unknown") Sample.world1))
    as [resp | e] eqn:E.
  - rewrite (H resp eq_refl); [reflexivity |].
    vm_compute in E. inversion E. reflexivity.
  - vm_compute in E. discriminate E.
Defined.

Lemma handleWebhook_cases_witness :
  exists resp,
    snd (PaymentController.handleWebhook Sample.runtime
           (mkWebhookRequest [] [] true (JSString "{}") (JSObject []))
           Sample.world1) = Returned resp
    /\ resp = webhook_missing_signature.
Proof.
  destruct (handleWebhook_cases Sample.runtime
              (mkWebhookRequest [] [] true (JSString "{}") (JSObject []))
              Sample.world1)
    as (resp & Hr & Hmissing & _).
  exists resp. split; [exact Hr | exact (Hmissing eq_refl)].
Defined.

Lemma route_check_covers_service_check_witness :
  truthy (JSString "ref_abc123") = true
  /\ PaystackService.invalid_reference (JSString "ref_abc123") = false.
Proof.
  exact (proj1 (route_check_covers_service_check (JSString "ref_abc123"))
           eq_refl).
Defined.

Lemma validated_initialize_request_witness :
  orderId_ok (Sample.initialize_request (Some 15000%Q)) = true.
Proof.
  exact (proj1 (proj2 (proj2 (proj2
           (validated_initialize_request Sample.runtime
              (Sample.initialize_request (Some 15000%Q))
              (Sample.initialize_request (Some 15000%Q))
              Sample.world1 Sample.world1 eq_refl))))).
Defined.

Lemma post_initialize_cases_witness :
  InitializeRoute.post_initialize Sample.runtime
    (mkInitializeRequest (JSString "xyz") (Some (-5)%Q) "user1") Sample.world1
  = (Sample.world1,
     Returned
       (respond 400
          [("success", JSBool false);
           ("message", JSString "Validation failed");
           ("errors",
            JSArray
              [JSObject [("field", JSString "orderId");
                         ("message", JSString "Order ID must be a valid ID")];
               JSObject [("field", JSString "orderId");
                         ("message", JSString "Order ID format is invalid")];
               JSObject [("field", JSString "amount");
                         ("message",
                          JSString "Amount must be greater than 0")]])])).
Proof.
  refine (proj1 (post_initialize_cases Sample.runtime
                   (mkInitializeRequest (JSString "xyz") (Some (-5)%Q) "user1")
                   Sample.world1) _).
  vm_compute. discriminate.
Defined.

Lemma reported_amount_round_trip_witness :
  PaymentController.amountInKobo_of
    (PaymentController.orderTotal_of (Some (inject_Z 1500000 / 100)%Q))
  = 1500000.
Proof.
  refine (proj1 (reported_amount_round_trip 1500000) _).
  split; [reflexivity | intro H; discriminate H].
Defined.

Lemma retryAfter_is_never_zero_witness :
  exists seconds,
    RateLimiter.rateLimiterMiddleware
      (fun _ => RateLimiter.RejectedRes (Some 200%Q))
      (JSString "10.0.0.1") JSUndefined
    = PaymentRoutes.Respond
        (respond 429
           [("success", JSBool false);
            ("message", JSString "Too many requests. Please try again later.");
            ("retryAfter", JSNumber (inject_Z seconds))])
    /\ seconds = 900.
Proof.
  destruct (retryAfter_is_never_zero
              (fun _ => RateLimiter.RejectedRes (Some 200%Q))
              (JSString "10.0.0.1") JSUndefined 200%Q eq_refl)
    as (seconds & Hr & _ & Hlt & _).
  - unfold Qle. simpl. lia.
  - exists seconds. split; [exact Hr |]. apply Hlt.
    unfold Qlt. simpl. lia.
Defined.

Lemma isAuth_reads_first_word_witness :
  Auth.isAuth SampleGate.jwt_verify SampleGate.findById
    (JSString "Bearer  good.token")
  = PaymentRoutes.Respond (Auth.denied "Access denied. Invalid token format.").
Proof.
  exact (proj2 (isAuth_reads_first_word SampleGate.jwt_verify
                  SampleGate.findById " good.token") eq_refl).
Defined.

Lemma initialize_endpoint_guarded_witness :
  exists user,
    Auth.isAuth SampleGate.jwt_verify SampleGate.findById
      (Endpoints.authorization SampleGate.caller)
    = PaymentRoutes.Next user
    /\ Auth.user_id user = "64b000000000000000000001".
Proof.
  destruct (initialize_endpoint_guarded SampleGate.jwt_verify
              SampleGate.findById SampleGate.consume Sample.runtime
              SampleGate.caller (JSString "507f1f77bcf86cd799439011")
              (Some 15000%Q) Sample.world1)
    as (user & Hauth & _).
  - vm_compute. discriminate.
  - exists user. split; [exact Hauth |].
    vm_compute in Hauth. inversion Hauth. reflexivity.
Defined.

Lemma verify_endpoint_guarded_witness :
  outbound (fst (Endpoints.verify SampleGate.jwt_verify SampleGate.findById
                   SampleGate.consume Sample.runtime SampleGate.caller
                   (JSString "ref_abc123") Sample.world1))
  = [AxiosGet "https://api.paystack.co/transaction/verify/ref_abc123"].
Proof.
  destruct (verify_endpoint_guarded SampleGate.jwt_verify
              SampleGate.findById SampleGate.consume Sample.runtime
              SampleGate.caller (JSString "ref_abc123") Sample.world1)
    as (user & _ & _ & _ & Hout).
  - vm_compute. discriminate.
  - rewrite Hout. reflexivity.
Defined.

Lemma post_webhook_sound_witness :
  PaymentRoutes.post_webhook Sample.runtime
    (Sample.at_router (Sample.signed_post Sample.charge_success))
    Sample.world1
  = (Sample.world1, Returned PaymentRoutes.Never)
  /\ exists s payload,
       header (Sample.unread_post Sample.charge_success) "x-paystack-signature"
       = JSString s
       /\ s = hmac_sha512_hex Sample.runtime (secretKey Sample.runtime) payload
       /\ payload
          = captured_text Sample.runtime
              (Sample.unread_post Sample.charge_success).
Proof.
  split.
  - exact (proj1 (proj2 (post_webhook_sound Sample.runtime
                           (Sample.at_router
                              (Sample.signed_post Sample.charge_success))
                           Sample.world1)) eq_refl).
  - destruct (proj2 (proj2 (post_webhook_sound Sample.runtime
                              (Sample.unread_post Sample.charge_success)
                              Sample.world1)) eq_refl)
      as (resp & Hr & _ & _ & H200).
    vm_compute in Hr. injection Hr as Hr. subst resp.
    destruct (H200 eq_refl) as (s & payload & Hs & _ & _ & He & Hraw).
    exists s, payload. split; [exact Hs |]. split; [exact He |].
    apply Hraw. vm_compute. discriminate.
Defined.

Lemma parsed_posts_are_not_answered_witness :
  Server.webhook Sample.runtime (Sample.signed_post Sample.charge_success)
    Sample.world3
  = (Sample.world3, Returned (Server.ByRoute PaymentRoutes.Never)).
Proof.
  destruct (proj1 (parsed_posts_are_not_answered Sample.runtime
                     (Sample.signed_post Sample.charge_success)
                     Sample.world3) (or_introl eq_refl)) as [E | E].
  - vm_compute in E. discriminate E.
  - exact E.
Defined.

Lemma unread_webhook_answers_200_or_401_witness :
  exists resp,
    snd (PaymentRoutes.post_webhook Sample.runtime
           (Sample.unread_post Sample.charge_success) Sample.world1)
    = Returned (PaymentRoutes.Arrived resp)
    /\ status resp = 200.
Proof.
  refine (unread_webhook_answers_200_or_401 Sample.runtime
            (Sample.unread_post Sample.charge_success) Sample.world1
            eq_refl eq_refl _).
  split.
  - vm_compute. discriminate.
  - exists Sample.charge_success. vm_compute. reflexivity.
Defined.
